(** * Prescription analysis: the reasoning pipeline, the streaming client
      and the conversation streamer

    A shallow embedding of [backend/vision_client.py], [backend/prompt.py]
    and [backend/chain.py], and the properties of the safety gate, the
    ambiguity classification, the SSE loop and the chat generator.

    Conventions.
    - A Python [str] is a Rocq [string] holding its UTF-8 encoding; a Python
      [bytes] line is a [string] of raw bytes.
    - A value produced by [json.loads] is a [json]; Python dictionaries keep
      insertion order, so they are association lists.
    - A Python exception is a constructor of [exn]; code that can raise
      returns a [result].
    - The HTTP transport is a script of outcomes consumed by [requests_post],
      which also logs every payload it is given. *)

From Stdlib Require Import ZArith List String Ascii Bool Floats Lia.
Import ListNotations.
Open Scope string_scope.
Open Scope Z_scope.
Set Warnings "-register-all".

(** ** Exceptions and results *)

Inductive exn : Type :=
| TypeError
| AttributeError
| KeyError
| IndexError
| JSONDecodeError
| UnicodeDecodeError
| ValueError (msg : string)
| RequestException
| ExternalError (msg : string).

Inductive result (A : Type) : Type :=
| Ok (a : A)
| Raise (e : exn).
Arguments Ok {A} a.
Arguments Raise {A} e.

Definition rbind {A B} (r : result A) (k : A -> result B) : result B :=
  match r with
  | Ok a => k a
  | Raise e => Raise e
  end.

Declare Scope result_scope.
Delimit Scope result_scope with result.
Notation "x <- c ;; k" := (rbind c (fun x => k))
  (at level 61, c at next level, right associativity) : result_scope.

(** ** Decoded JSON values *)

Inductive json : Type :=
| JNull
| JBool (b : bool)
| JInt (n : Z)
| JFloat (f : float)
| JStr (s : string)
| JList (l : list json)
| JDict (d : list (string * json)).

(** The double that the Python literal [0.7] denotes. *)
Definition threshold : float := 0x1.6666666666666p-1%float.

(** ** Strings as Python sees them *)

Definition nl : string := String "010"%char EmptyString.
Definition dq : string := String "034"%char EmptyString.

Definition byte_of (c : ascii) : N := N_of_ascii c.

(** A UTF-8 continuation byte, [10xxxxxx]. *)
Definition is_cont (c : ascii) : bool :=
  ((128 <=? byte_of c) && (byte_of c <=? 191))%N.

Definition in_range (lo hi : N) (c : ascii) : bool :=
  ((lo <=? byte_of c) && (byte_of c <=? hi))%N.

(** [bytes.decode("utf-8")] in strict mode accepts exactly the well-formed
    sequences: no overlong forms, no surrogates, nothing above U+10FFFF. *)
Fixpoint utf8_valid (s : string) : bool :=
  match s with
  | EmptyString => true
  | String b0 s1 =>
      if (byte_of b0 <? 128)%N then utf8_valid s1
      else match s1 with
      | EmptyString => false
      | String b1 s2 =>
          if in_range 194 223 b0 then is_cont b1 && utf8_valid s2
          else match s2 with
          | EmptyString => false
          | String b2 s3 =>
              if in_range 224 239 b0 then
                (if (byte_of b0 =? 224)%N then in_range 160 191 b1
                 else if (byte_of b0 =? 237)%N then in_range 128 159 b1
                 else is_cont b1)
                && is_cont b2 && utf8_valid s3
              else match s3 with
              | EmptyString => false
              | String b3 s4 =>
                  if in_range 240 244 b0 then
                    (if (byte_of b0 =? 240)%N then in_range 144 191 b1
                     else if (byte_of b0 =? 244)%N then in_range 128 143 b1
                     else is_cont b1)
                    && is_cont b2 && is_cont b3 && utf8_valid s4
                  else false
              end
          end
      end
  end.

(** [line.decode("utf-8")] *)
Definition decode_utf8 (line : string) : result string :=
  if utf8_valid line then Ok line else Raise UnicodeDecodeError.

(** The characters of a [str]: a new one starts at every byte that is not a
    continuation byte. *)
Fixpoint utf8_chars_aux (cur : string) (s : string) : list string :=
  match s with
  | EmptyString => match cur with EmptyString => [] | _ => [cur] end
  | String c s' =>
      if is_cont c then utf8_chars_aux (cur ++ String c EmptyString) s'
      else match cur with
           | EmptyString => utf8_chars_aux (String c EmptyString) s'
           | _ => cur :: utf8_chars_aux (String c EmptyString) s'
           end
  end.

Definition utf8_chars (s : string) : list string := utf8_chars_aux EmptyString s.

Definition str_len (s : string) : Z := Z.of_nat (List.length (utf8_chars s)).

(** [s.startswith(p)] *)
Fixpoint startswith (p s : string) : bool :=
  match p, s with
  | EmptyString, _ => true
  | String a p', String b s' => Ascii.eqb a b && startswith p' s'
  | String _ _, EmptyString => false
  end.

(** [s[n:]] when the first [n] characters are ASCII. *)
Fixpoint drop (n : nat) (s : string) : string :=
  match n, s with
  | O, _ => s
  | S n', String _ s' => drop n' s'
  | S _, EmptyString => EmptyString
  end.

(** [p in s] for strings. *)
Fixpoint contains (p s : string) : bool :=
  startswith p s ||
  match s with
  | EmptyString => false
  | String _ s' => contains p s'
  end.

(** The characters [str.isspace] accepts, each by its UTF-8 encoding:
    U+0009..U+000D, U+001C..U+0020, U+0085, U+00A0, U+1680, U+2000..U+200A,
    U+2028, U+2029, U+202F, U+205F, U+3000. *)
Definition is_space_char (ch : string) : bool :=
  match ch with
  | String a EmptyString =>
      in_range 9 13 a || in_range 28 32 a
  | String a (String b EmptyString) =>
      (byte_of a =? 194)%N && ((byte_of b =? 133)%N || (byte_of b =? 160)%N)
  | String a (String b (String c EmptyString)) =>
      ((byte_of a =? 225)%N && (byte_of b =? 154)%N && (byte_of c =? 128)%N)
      || ((byte_of a =? 226)%N && (byte_of b =? 128)%N
          && (in_range 128 138 c || in_range 168 169 c || (byte_of c =? 175)%N))
      || ((byte_of a =? 226)%N && (byte_of b =? 129)%N && (byte_of c =? 159)%N)
      || ((byte_of a =? 227)%N && (byte_of b =? 128)%N && (byte_of c =? 128)%N)
  | _ => false
  end.

Fixpoint lstrip_chars (l : list string) : list string :=
  match l with
  | ch :: l' => if is_space_char ch then lstrip_chars l' else l
  | [] => []
  end.

(** [s.strip()] *)
Definition strip (s : string) : string :=
  String.concat EmptyString
    (rev (lstrip_chars (rev (lstrip_chars (utf8_chars s))))).

(** [s.replace(old, new)] for a non-empty [old]: leftmost non-overlapping
    occurrences. [skip] counts the bytes of a match still to be dropped. *)
Fixpoint replace_aux (old new : string) (skip : nat) (s : string) : string :=
  match s with
  | EmptyString => EmptyString
  | String c s' =>
      match skip with
      | S k => replace_aux old new k s'
      | O =>
          if startswith old s
          then new ++ replace_aux old new (String.length old - 1) s'
          else String c (replace_aux old new O s')
      end
  end.

Definition replace (old new s : string) : string := replace_aux old new O s.

(** ** Python's operations on decoded values *)

Fixpoint dict_get (k : string) (d : list (string * json)) : option json :=
  match d with
  | [] => None
  | (k', v) :: d' => if String.eqb k k' then Some v else dict_get k d'
  end.

(** [d[k] = v]: an existing key keeps its place, a new key goes last. *)
Fixpoint dict_set (k : string) (v : json) (d : list (string * json))
  : list (string * json) :=
  match d with
  | [] => [(k, v)]
  | (k', v') :: d' =>
      if String.eqb k k' then (k', v) :: d' else (k', v') :: dict_set k v d'
  end.

(** [bool(v)] *)
Definition truthy (v : json) : bool :=
  match v with
  | JNull => false
  | JBool b => b
  | JInt n => negb (n =? 0)
  | JFloat f => negb (PrimFloat.eqb f 0%float)
  | JStr s => negb (String.eqb s EmptyString)
  | JList l => match l with [] => false | _ => true end
  | JDict d => match d with [] => false | _ => true end
  end.

(** [v.get(k, default)]: only a [dict] has the method. *)
Definition py_get (v : json) (k : string) (default : json) : result json :=
  match v with
  | JDict d => Ok (match dict_get k d with Some x => x | None => default end)
  | _ => Raise AttributeError
  end.

(** [v[k]] for a string key. *)
Definition getitem_str (v : json) (k : string) : result json :=
  match v with
  | JDict d => match dict_get k d with Some x => Ok x | None => Raise KeyError end
  | _ => Raise TypeError
  end.

(** [v[0]]. A decoded [dict] has string keys only, so [0] is never a key. *)
Definition getitem_0 (v : json) : result json :=
  match v with
  | JList l => match l with x :: _ => Ok x | [] => Raise IndexError end
  | JStr s => match utf8_chars s with c :: _ => Ok (JStr c) | [] => Raise IndexError end
  | JDict _ => Raise KeyError
  | _ => Raise TypeError
  end.

(** [v[k] = x] *)
Definition setitem_str (v : json) (k : string) (x : json) : result json :=
  match v with
  | JDict d => Ok (JDict (dict_set k x d))
  | _ => Raise TypeError
  end.

(** [len(v)] *)
Definition py_len (v : json) : result Z :=
  match v with
  | JStr s => Ok (str_len s)
  | JList l => Ok (Z.of_nat (List.length l))
  | JDict d => Ok (Z.of_nat (List.length d))
  | _ => Raise TypeError
  end.

(** The items a [for] loop over [v] visits. *)
Definition py_iter (v : json) : result (list json) :=
  match v with
  | JList l => Ok l
  | JStr s => Ok (map JStr (utf8_chars s))
  | JDict d => Ok (map (fun kv => JStr (fst kv)) d)
  | _ => Raise TypeError
  end.

(** [s == v] for a string [s]: only an equal string is equal to it. *)
Definition eq_str (s : string) (v : json) : bool :=
  match v with
  | JStr s' => String.eqb s s'
  | _ => false
  end.

(** [s in v] for a string [s]. *)
Definition py_in (s : string) (v : json) : result bool :=
  match v with
  | JList l => Ok (existsb (eq_str s) l)
  | JStr s' => Ok (contains s s')
  | JDict d => Ok (match dict_get s d with Some _ => true | None => false end)
  | _ => Raise TypeError
  end.

(** [v.append(x)]: only a [list] has the method. *)
Definition py_append (v : json) (x : json) : result json :=
  match v with
  | JList l => Ok (JList (l ++ [x]))
  | _ => Raise AttributeError
  end.

(** Python compares an [int] with a [float] exactly. The threshold lies
    strictly between 0 and 1, so an integer is below it iff it is at most 0
    and reaches it iff it is at least 1. [True] and [False] are the
    integers 1 and 0. *)
Definition lt_threshold (v : json) : result bool :=
  match v with
  | JFloat f => Ok (PrimFloat.ltb f threshold)
  | JInt n => Ok (n <=? 0)
  | JBool b => Ok (negb b)
  | _ => Raise TypeError
  end.

Definition ge_threshold (v : json) : result bool :=
  match v with
  | JFloat f => Ok (PrimFloat.leb threshold f)
  | JInt n => Ok (1 <=? n)
  | JBool b => Ok b
  | _ => Raise TypeError
  end.

(** [acc += chunk] on a [str] accumulator: only a [str] can be added. *)
Definition str_iadd (acc : string) (chunk : json) : result string :=
  match chunk with
  | JStr s => Ok (acc ++ s)
  | _ => Raise TypeError
  end.

(** [str(n)] for an integer. *)
Definition digit (n : Z) : string :=
  String (ascii_of_N (48 + Z.to_N n)) EmptyString.

Fixpoint str_of_pos_aux (fuel : nat) (n : Z) (acc : string) : string :=
  match fuel with
  | O => acc
  | S fuel' =>
      if n <? 10 then digit n ++ acc
      else str_of_pos_aux fuel' (n / 10) (digit (n mod 10) ++ acc)
  end.

Definition str_of_int (n : Z) : string :=
  if n <? 0 then "-" ++ str_of_pos_aux (Z.to_nat (- n)) (- n) EmptyString
  else str_of_pos_aux (S (Z.to_nat n)) n EmptyString.

(** ** [backend/prompt.py] *)

Definition VALIDATION_PROMPT : string :=
  String.concat nl
    [ "You are a medical document classifier.";
     "Your job is to determine if the uploaded image is a valid doctor's medical prescription.";
     EmptyString;
     "A valid prescription typically contains:";
     "- Medicine names and dosages";
     "- Signature or clinic stamp";
     "- Medical abbreviations (Rx, 1-0-1, etc.)";
     EmptyString;
     "NOT prescriptions:";
     "- Selfies, nature, or objects";
     "- Medicine strips/bottles";
     "- Lab reports or bills";
     "- Discharge summaries";
     EmptyString;
     "JSON SCHEMA:";
     "{";
     ("  " ++ dq ++ "is_prescription" ++ dq ++ ": true | false,");
     ("  " ++ dq ++ "confidence" ++ dq ++ ": number,");
     ("  " ++ dq ++ "reason" ++ dq ++ ": " ++ dq ++ "short explanation" ++ dq);
     "}";
     "RETURN ONLY JSON.";
     EmptyString ].

Definition OCR_PROMPT : string :=
  String.concat nl
    [ "You are a medical OCR specialist. ";
     "Your ONLY job is to transcribe EVERY piece of text from the prescription image.";
     "Focus on medicine names, dosages (mg, ml), and frequencies.";
     EmptyString;
     "STRICT RULES:";
     "- Transcribe EXACTLY what is written.";
     "- If a word is illegible, use [UNCLEAR].";
     "- Do not structure yet, just give a raw text dump.";
     EmptyString ].

Definition NORMALIZATION_PROMPT : string :=
  String.concat nl
    [ "You are a medical data architect.";
     "Convert the following raw OCR text from a prescription into a structured JSON object.";
     EmptyString;
     "JSON SCHEMA:";
     "{";
     ("  " ++ dq ++ "patient_name" ++ dq ++ ": " ++ dq ++ "string | null" ++ dq ++ ",");
     ("  " ++ dq ++ "doctor_name" ++ dq ++ ": " ++ dq ++ "string | null" ++ dq ++ ",");
     ("  " ++ dq ++ "date" ++ dq ++ ": " ++ dq ++ "string | null" ++ dq ++ ",");
     ("  " ++ dq ++ "medicines" ++ dq ++ ": [");
     "    {";
     ("      " ++ dq ++ "name" ++ dq ++ ": " ++ dq ++ "string" ++ dq ++ ",");
     ("      " ++ dq ++ "dosage" ++ dq ++ ": " ++ dq ++ "string | null" ++ dq ++ ",");
     ("      " ++ dq ++ "frequency" ++ dq ++ ": " ++ dq ++ "string | null" ++ dq ++ ",");
     ("      " ++ dq ++ "timing" ++ dq ++ ": [" ++ dq ++ "morning" ++ dq ++ ", " ++ dq ++ "afternoon" ++ dq ++ ", " ++ dq ++ "night" ++ dq ++ "],");
     ("      " ++ dq ++ "duration_days" ++ dq ++ ": " ++ dq ++ "number | null" ++ dq ++ ",");
     ("      " ++ dq ++ "instructions" ++ dq ++ ": " ++ dq ++ "string | null" ++ dq ++ ",");
     ("      " ++ dq ++ "confidence" ++ dq ++ ": " ++ dq ++ "number (0-1)" ++ dq);
     "    }";
     "  ],";
     ("  " ++ dq ++ "overall_confidence" ++ dq ++ ": " ++ dq ++ "number (0-1)" ++ dq);
     "}";
     EmptyString;
     "STRICT RULES:";
     ("- " ++ dq ++ "name" ++ dq ++ ": Use the full medicine name (e.g., " ++ dq ++ "Amoxicillin 500mg" ++ dq ++ ").");
     ("- " ++ dq ++ "timing" ++ dq ++ ": Only include if explicitly written or implied (e.g., " ++ dq ++ "1-0-1" ++ dq ++ " -> [" ++ dq ++ "morning" ++ dq ++ ", " ++ dq ++ "night" ++ dq ++ "]).");
     ("- " ++ dq ++ "confidence" ++ dq ++ ": Rate 0.0 to 1.0 based on how clear the OCR was.");
     ("- If NO medicines are found, return an empty list for " ++ dq ++ "medicines" ++ dq ++ ".");
     "- RETURN ONLY THE JSON OBJECT. NO MARKDOWN.";
     EmptyString ].

Definition AUDIT_PROMPT : string :=
  String.concat nl
    [ "You are a medical safety auditor. ";
     "Review the original OCR text and the extracted JSON data to flag any risks or ambiguities.";
     EmptyString;
     "Check for:";
     "1. Low confidence extraction (< 0.7) in the JSON.";
     "2. [UNCLEAR] tags in the original OCR text.";
     ("3. PHONETIC NOISE/GARBAGE TOKENS: If the OCR produced text that looks like random letters or phonetic nonsense (e.g., " ++ dq ++ "Ry A tayp" ++ dq ++ ", " ++ dq ++ "A Ehl 80" ++ dq ++ ", " ++ dq ++ "A Ahm" ++ dq ++ "), flag it as a HIGH ambiguity.");
     "4. Missing critical dosage info.";
     "5. Potentially dangerous instructions or conflicting timings.";
     EmptyString;
     "CRITICAL: If the OCR text is mostly garbage tokens or random characters, do NOT try to guess medicine names. Mark them as ambiguities with NO suggestions (options) if no safe alternatives exist.";
     EmptyString;
     "Return a JSON with:";
     "{";
     ("  " ++ dq ++ "ambiguities" ++ dq ++ ": [");
     "    {";
     ("      " ++ dq ++ "medicine_name" ++ dq ++ ": " ++ dq ++ "The extracted name of the medicine this issue relates to" ++ dq ++ ",");
     ("      " ++ dq ++ "field" ++ dq ++ ": " ++ dq ++ "name | dosage | frequency | instructions" ++ dq ++ ",");
     ("      " ++ dq ++ "issue" ++ dq ++ ": " ++ dq ++ "Brief description of the handwriting or garbage token issue" ++ dq ++ ",");
     ("      " ++ dq ++ "options" ++ dq ++ ": [" ++ dq ++ "Suggested correction 1" ++ dq ++ ", " ++ dq ++ "Suggested correction 2" ++ dq ++ "] ");
     "    }";
     "  ],";
     ("  " ++ dq ++ "safety_flags" ++ dq ++ ": [" ++ dq ++ "string" ++ dq ++ "],");
     ("  " ++ dq ++ "is_safe_to_display" ++ dq ++ ": " ++ dq ++ "boolean" ++ dq);
     "}";
     EmptyString ].

Definition MODE_Explain_Prescription : string :=
  String.concat nl
    [ "You are a medical assistant.";
     "STRICT RULE: If no valid prescription data is provided in context, refuse to answer and ask the user to upload a prescription.";
     "Use the provided structured data to explain medicine purposes and usage.";
     "STRICT: Only refer to the medicines in the current prescription.";
     ("DISCLAIMER: Always start with " ++ dq ++ "Note: This is an AI explanation, not medical advice." ++ dq ++ " ") ].

Definition MODE_Create_Schedule : string :=
  String.concat nl
    [ "You are a medication scheduling assistant.";
     "STRICT RULE: If no valid prescription data is provided in context, refuse to answer and ask the user to upload a prescription.";
     "Convert the prescription into a daily schedule.";
     ("DISCLAIMER: " ++ dq ++ "Note: Confirm this schedule with your pharmacist." ++ dq ++ " ") ].

Definition GLOBAL_DISCLAIMER : string :=
  String.concat nl
    [ EmptyString;
     EmptyString;
     "**⚠️ Disclaimer:** This is an AI-generated analysis of a prescription. It is not a medical diagnosis or professional advice. Always verify with your doctor or pharmacist before taking any medication." ].

Definition SCHEDULE_FINAL_PROMPT : string :=
  String.concat nl
    [ "You are a medical scheduling specialist.";
     "Your goal is to convert the following verified prescription data into a structured daily schedule.";
     EmptyString;
     "RULES:";
     ("1. Map " ++ dq ++ "frequency" ++ dq ++ " and " ++ dq ++ "timing" ++ dq ++ " into " ++ dq ++ "morning" ++ dq ++ ", " ++ dq ++ "afternoon" ++ dq ++ ", " ++ dq ++ "night" ++ dq ++ " booleans.");
     ("2. If frequency is " ++ dq ++ "Twice daily" ++ dq ++ " -> morning: true, night: true.");
     ("3. If timing is [" ++ dq ++ "morning" ++ dq ++ "] -> morning: true.");
     ("4. " ++ dq ++ "instructions" ++ dq ++ ": Include food relations (e.g., " ++ dq ++ "After food" ++ dq ++ ") and specific notes.");
     ("5. " ++ dq ++ "duration_days" ++ dq ++ ": Must be a number.");
     EmptyString;
     "JSON SCHEMA:";
     "{";
     ("  " ++ dq ++ "schedule" ++ dq ++ ": [");
     "    {";
     ("      " ++ dq ++ "medicine" ++ dq ++ ": " ++ dq ++ "string" ++ dq ++ ",");
     ("      " ++ dq ++ "morning" ++ dq ++ ": boolean,");
     ("      " ++ dq ++ "afternoon" ++ dq ++ ": boolean,");
     ("      " ++ dq ++ "night" ++ dq ++ ": boolean,");
     ("      " ++ dq ++ "dosage" ++ dq ++ ": " ++ dq ++ "string" ++ dq ++ ",");
     ("      " ++ dq ++ "instructions" ++ dq ++ ": " ++ dq ++ "string" ++ dq ++ ",");
     ("      " ++ dq ++ "duration_days" ++ dq ++ ": number");
     "    }";
     "  ]";
     "}";
     EmptyString;
     "STRICT: Return ONLY the JSON object. No prose. No markdown code blocks.";
     EmptyString ].


Definition get_step_prompt (step_name : string) : string :=
  if String.eqb step_name "validation" then VALIDATION_PROMPT
  else if String.eqb step_name "ocr" then OCR_PROMPT
  else if String.eqb step_name "normalize" then NORMALIZATION_PROMPT
  else if String.eqb step_name "audit" then AUDIT_PROMPT
  else if String.eqb step_name "schedule_final" then SCHEDULE_FINAL_PROMPT
  else EmptyString.

(** The dictionary [MODE_PROMPTS]. *)
Definition MODE_PROMPTS : list (string * string) :=
  [ ("Explain Prescription", MODE_Explain_Prescription);
    ("Create Schedule", MODE_Create_Schedule) ].

Fixpoint lookup (k : string) (d : list (string * string)) : option string :=
  match d with
  | [] => None
  | (k', v) :: d' => if String.eqb k k' then Some v else lookup k d'
  end.

Definition DEFAULT_MODE_PROMPT : string := "You are a helpful medical assistant.".

Definition get_mode_prompt (mode : string) : string :=
  match lookup mode MODE_PROMPTS with
  | Some p => p
  | None => DEFAULT_MODE_PROMPT
  end.

(** ** The transport *)

Record response : Type := {
  status_code : Z;
  text : string;
  iter_lines : list string
}.

(** What one [requests.post] does: it returns a response or raises (a
    timeout, a refused connection). *)
Inductive post_outcome : Type :=
| Responds (r : response)
| Fails (e : exn).

(** The world outside the process: the outcomes of the requests still to
    come, the payloads posted so far and the lines printed so far. *)
Record world : Type := {
  pending : list post_outcome;
  sent : list json;
  printed : list string
}.

(** [requests.post(...)]: the payload is on the wire, then the next outcome
    of the script happens. A script with nothing left answers as a
    connection that fails. *)
Definition requests_post (payload : json) (w : world) : world * result response :=
  let w' rest := {| pending := rest; sent := sent w ++ [payload]; printed := printed w |} in
  match pending w with
  | [] => (w' [], Raise RequestException)
  | Responds r :: rest => (w' rest, Ok r)
  | Fails e :: rest => (w' rest, Raise e)
  end.

Definition print (msg : string) (w : world) : world :=
  {| pending := pending w; sent := sent w; printed := printed w ++ [msg] |}.

(** What a generator hands to the caller of [next]. *)
Inductive step (A : Type) : Type :=
| Yield (a : A)
| Stop
| Throw (e : exn).
Arguments Yield {A} a.
Arguments Stop {A}.
Arguments Throw {A} e.

(** How a run of [next] calls ended: the caller stopped asking while the
    generator was still suspended, the generator returned, or it raised. *)
Inductive outcome : Type :=
| Suspended
| Exhausted
| Raised (e : exn).

(** Keyword arguments, by name. *)
Definition kwargs : Type := list (string * json).

Definition kwarg (params : kwargs) (k : string) (default : json) : json :=
  match dict_get k params with
  | Some v => v
  | None => default
  end.

(** Keyword parameters that [stream] can be called with beside its
    [messages]: a parameter of that name would be a second value for the
    argument, which Python refuses with a [TypeError] before the body
    runs. *)
Definition passable (params : kwargs) : bool :=
  match dict_get "messages" params with
  | None => true
  | Some _ => false
  end.

(** ** [backend/vision_client.py] *)

Section VisionLLMClient.

(** [json.loads]; on a text that is not JSON it raises
    [json.JSONDecodeError]. *)
Variable json_loads : string -> result json.

Definition model_name : string := "Qwen/Qwen3-VL-30B-A3B-Instruct".

Definition make_payload (messages : list json) (params : kwargs) : json :=
  JDict [ ("model", JStr model_name);
          ("messages", JList messages);
          ("temperature", kwarg params "temperature" (JFloat 0x1.6666666666666p-1));
          ("max_tokens", kwarg params "max_tokens" (JInt 1024));
          ("top_p", kwarg params "top_p" (JFloat 0x1.ccccccccccccdp-1));
          ("stream", JBool true) ].

(** [chunk["choices"][0]["delta"].get("content", "")] *)
Definition extract_content (chunk : json) : result json :=
  (choices <- getitem_str chunk "choices" ;;
   first <- getitem_0 choices ;;
   delta <- getitem_str first "delta" ;;
   py_get delta "content" (JStr EmptyString))%result.

(** The handler [except (json.JSONDecodeError, KeyError, IndexError)]. *)
Definition handled (e : exn) : bool :=
  match e with
  | JSONDecodeError | KeyError | IndexError => true
  | _ => false
  end.

(** What the body of the SSE loop does with one line. *)
Inductive line_action : Type :=
| Skip
| Break
| Emit (content : json)
| Abort (e : exn).

Definition sse_line (line : string) : line_action :=
  if String.eqb line EmptyString then Skip
  else match decode_utf8 line with
  | Raise e => Abort e
  | Ok decoded_line =>
      if negb (startswith "data: " decoded_line) then Skip
      else
        let json_str := drop 6 decoded_line in
        if String.eqb (strip json_str) "[DONE]" then Break
        else
          match (chunk <- json_loads json_str ;; extract_content chunk)%result with
          | Ok content => if truthy content then Emit content else Skip
          | Raise e => if handled e then Skip else Abort e
          end
  end.

(** The loop resumed on the lines not yet read, up to its next [yield]:
    what the caller gets and the lines left. *)
Fixpoint sse_next (lines : list string) : step json * list string :=
  match lines with
  | [] => (Stop, [])
  | line :: rest =>
      match sse_line line with
      | Skip => sse_next rest
      | Break => (Stop, [])
      | Emit content => (Yield content, rest)
      | Abort e => (Throw e, [])
      end
  end.

(** The generator object [stream(...)] returns. Nothing of its body runs
    before the first [next]. *)
Inductive stream_gen : Type :=
| StreamCreated (messages : list json) (params : kwargs)
| StreamReading (lines : list string)
| StreamClosed.

Definition api_error_msg (r : response) : string :=
  "API Error " ++ str_of_int (status_code r) ++ ": " ++ text r.

(** The part of [stream] before its loop: post the payload, refuse any
    status but 200. *)
Definition stream_open (messages : list json) (params : kwargs) (w : world)
  : world * result (list string) :=
  match requests_post (make_payload messages params) w with
  | (w1, Raise e) => (w1, Raise e)
  | (w1, Ok r) =>
      if negb (status_code r =? 200)
      then (print (api_error_msg r) w1, Raise (ValueError (api_error_msg r)))
      else (w1, Ok (iter_lines r))
  end.

Definition after_next (r : step json * list string) : step json * stream_gen :=
  match r with
  | (Yield c, rest) => (Yield c, StreamReading rest)
  | (Stop, _) => (Stop, StreamClosed)
  | (Throw e, _) => (Throw e, StreamClosed)
  end.

Definition stream_next (g : stream_gen) (w : world)
  : world * (step json * stream_gen) :=
  match g with
  | StreamCreated messages params =>
      match stream_open messages params w with
      | (w1, Raise e) => (w1, (Throw e, StreamClosed))
      | (w1, Ok lines) => (w1, after_next (sse_next lines))
      end
  | StreamReading lines => (w, after_next (sse_next lines))
  | StreamClosed => (w, (Stop, StreamClosed))
  end.

(** A caller that calls [next] at most [n] times and collects the items:
    a [for] loop left early by [break], or run to its end when [n] is
    large enough. *)
Fixpoint stream_take (n : nat) (g : stream_gen) (w : world)
  : world * (list json * outcome * stream_gen) :=
  match n with
  | O => (w, ([], Suspended, g))
  | S n' =>
      match stream_next g w with
      | (w1, (Yield c, g1)) =>
          match stream_take n' g1 w1 with
          | (w2, (cs, o, g2)) => (w2, (c :: cs, o, g2))
          end
      | (w1, (Stop, g1)) => (w1, ([], Exhausted, g1))
      | (w1, (Throw e, g1)) => (w1, ([], Raised e, g1))
      end
  end.

(** [generator.close()]: the generator is suspended at a [yield] outside
    any handler that would act on [GeneratorExit], so closing runs
    nothing. *)
Definition stream_close (g : stream_gen) : stream_gen := StreamClosed.

(** The loop [for chunk in stream(...): response += chunk] over the lines
    of an accepted response. *)
Fixpoint drain_lines (lines : list string) (acc : string) : result string :=
  match lines with
  | [] => Ok acc
  | line :: rest =>
      match sse_line line with
      | Skip => drain_lines rest acc
      | Break => Ok acc
      | Emit content =>
          match str_iadd acc content with
          | Ok acc' => drain_lines rest acc'
          | Raise e => Raise e
          end
      | Abort e => Raise e
      end
  end.

End VisionLLMClient.

(** ** [backend/chain.py] *)

(** The messages a LangChain chat history holds. *)
Inductive chat_message : Type :=
| SystemMessage (content : string)
| HumanMessage (content : string)
| AIMessage (content : string).

Definition text_part (s : string) : json :=
  JDict [("type", JStr "text"); ("text", JStr s)].

Definition image_part (url : string) : json :=
  JDict [("type", JStr "image_url"); ("image_url", JDict [("url", JStr url)])].

Definition message (role : string) (content : json) : json :=
  JDict [("role", JStr role); ("content", content)].

Definition format_message_for_api (m : chat_message) : json :=
  match m with
  | SystemMessage c => message "system" (JList [text_part c])
  | HumanMessage c => message "user" (JList [text_part c])
  | AIMessage c => message "assistant" (JList [text_part c])
  end.

(** [text.strip().replace("```json", "").replace("```", "")] *)
Definition clean_json_response (text : string) : string :=
  replace "```" EmptyString (replace "```json" EmptyString (strip text)).

Definition FLAG_UNCLEAR : string :=
  "Handwriting too unclear for safe AI interpretation".
Definition FLAG_NO_CANDIDATES : string :=
  "No medically safe correction candidates available".
Definition FLAG_REJECTED : string := "Image rejected by safety gate.".

Definition SAFETY_RULE : string :=
  nl ++ nl ++ "SAFETY RULE: The current prescription handwriting is UNRESOLVABLE. Do NOT infer or suggest medicine names unless the user explicitly provides them in this chat. Avoid all guesses.".

Definition validation_fallback : json :=
  JDict [ ("is_prescription", JBool false); ("confidence", JInt 0);
          ("reason", JStr "Classification failed") ].

Definition extraction_fallback : json :=
  JDict [ ("medicines", JList []); ("overall_confidence", JInt 0) ].

Definition audit_fallback : json :=
  JDict [ ("ambiguities", JList []); ("safety_flags", JList []);
          ("is_safe_to_display", JBool false) ].

(** The condition of the gate:
    [not validation.get("is_prescription") or validation.get("confidence", 0) < 0.7] *)
Definition gate_blocks (validation : json) : result bool :=
  (isp <- py_get validation "is_prescription" JNull ;;
   if negb (truthy isp) then Ok true
   else (c <- py_get validation "confidence" (JInt 0) ;; lt_threshold c))%result.

(** The dictionary returned when the gate blocks. *)
Definition rejection (validation : json) : json :=
  JDict [ ("validation", validation);
          ("extraction", JDict [ ("medicines", JList []);
                                 ("overall_confidence", JInt 0) ]);
          ("audit", JDict [ ("ambiguities", JList []);
                            ("safety_flags", JList [JStr FLAG_REJECTED]);
                            ("is_safe_to_display", JBool false) ]);
          ("raw_ocr", JStr EmptyString) ].

(** [any(len(a.get("options", [])) > 0 for a in ambiguities)], which stops
    at the first item that qualifies. *)
Fixpoint any_options (items : list json) : result bool :=
  match items with
  | [] => Ok false
  | a :: rest =>
      match py_get a "options" (JList []) with
      | Raise e => Raise e
      | Ok opts =>
          match py_len opts with
          | Raise e => Raise e
          | Ok n => if 0 <? n then Ok true else any_options rest
          end
      end
  end.

(** [if flag not in audit["safety_flags"]: audit["safety_flags"].append(flag)] *)
Definition add_flag (flag : string) (audit : json) : result json :=
  (flags <- getitem_str audit "safety_flags" ;;
   present <- py_in flag flags ;;
   if present then Ok audit
   else (flags' <- py_append flags (JStr flag) ;;
         setitem_str audit "safety_flags" flags'))%result.

(** The condition of the [elif]:
    [len(ambiguities) > 0 and any(... for a in ambiguities)] *)
Definition clarifiable (ambiguities : json) : result bool :=
  (n <- py_len ambiguities ;;
   if 0 <? n then (items <- py_iter ambiguities ;; any_options items)
   else Ok false)%result.

(** The body of the [else]: create [safety_flags] when the audit has none,
    then add the two flags. [audit] is a dictionary here, [audit.get] has
    been called on it; on any other value the membership test or the
    subscript would raise [TypeError]. *)
Definition mark_unresolvable (audit : json) : result json :=
  (audit1 <-
     (match audit with
      | JDict d =>
          match dict_get "safety_flags" d with
          | Some _ => Ok audit
          | None => setitem_str audit "safety_flags" (JList [])
          end
      | _ => Raise TypeError
      end) ;;
   audit2 <- add_flag FLAG_UNCLEAR audit1 ;;
   add_flag FLAG_NO_CANDIDATES audit2)%result.

(** The classification block of [analyze_prescription]: the state, and the
    audit record as the block leaves it. *)
Definition classify (extraction audit : json) : result (string * json) :=
  (confidence <- py_get extraction "overall_confidence" (JFloat 1) ;;
   ambiguities <- py_get audit "ambiguities" (JList []) ;;
   clear <- ge_threshold confidence ;;
   if clear then Ok ("CLEAR", audit)
   else
     (some_options <- clarifiable ambiguities ;;
      if some_options then Ok ("CLARIFIABLE", audit)
      else (audit' <- mark_unresolvable audit ;; Ok ("UNRESOLVABLE", audit'))))%result.

Section VisionChain.

Variable json_loads : string -> result json.
(** [json.dumps] *)
Variable json_dumps : json -> string.
(** [PIL.Image.Image] and [backend.utils.prepare_image_for_api] *)
Variable Image : Type.
Variable prepare_image_for_api : Image -> result string.
(** The chat store behind [db.chat.save_chat_message], which takes the
    prescription id, the role and the text. *)
Variable DB : Type.
Variable save_chat_message : string -> string -> string -> DB -> result DB.

(** Code that talks to the model: it changes the world and may raise. *)
Definition M (A : Type) : Type := world -> world * result A.

Definition ret {A} (a : A) : M A := fun w => (w, Ok a).

Definition bind {A B} (c : M A) (k : A -> M B) : M B :=
  fun w =>
    match c w with
    | (w1, Ok a) => k a w1
    | (w1, Raise e) => (w1, Raise e)
    end.

Definition lift {A} (r : result A) : M A := fun w => (w, r).

Declare Scope comp_scope.
Delimit Scope comp_scope with comp.
Notation "x <- c ;; k" := (bind c (fun x => k))
  (at level 61, c at next level, right associativity) : comp_scope.

(** The two messages [_call_non_streaming] builds. *)
Definition stage_messages
    (prompt user_query : string) (image_url : option string) : list json :=
  let user_content :=
    match image_url with
    | Some url =>
        if String.eqb url EmptyString then JStr user_query
        else JList [image_part url; text_part user_query]
    | None => JStr user_query
    end in
  [ message "system" (JList [text_part prompt]);
    message "user" user_content ].

(** [temperature=0.1] *)
Definition stage_params : kwargs := [("temperature", JFloat 0x1.999999999999ap-4)].

Definition call_non_streaming
    (prompt user_query : string) (image_url : option string) : M string :=
  fun w =>
    match stream_open (stage_messages prompt user_query image_url) stage_params w with
    | (w1, Raise e) => (w1, Raise e)
    | (w1, Ok lines) => (w1, drain_lines json_loads lines EmptyString)
    end.

(** [json.loads(self._clean_json_response(s))] under [try] with a bare
    [except] that supplies [fallback]. *)
Definition decode_or (fallback : json) (s : string) : json :=
  match json_loads (clean_json_response s) with
  | Ok v => v
  | Raise _ => fallback
  end.

Definition validation_query : string :=
  "Is this image a doctor's medical prescription?".
Definition ocr_query : string :=
  "Please extract all text from this prescription.".
Definition normalize_query (raw_ocr : string) : string :=
  "Convert this OCR text into the medical JSON schema:" ++ nl ++ nl ++ raw_ocr.
Definition audit_query (raw_ocr : string) (extraction : json) : string :=
  "Original OCR Text:" ++ nl ++ raw_ocr ++ nl ++ nl ++ "Extracted JSON:" ++ nl
    ++ json_dumps extraction ++ nl ++ nl ++ "Audit for safety and ambiguity.".

Definition analyze_prescription (image : Image) : M json :=
  (image_data <- lift (prepare_image_for_api image) ;;
   validation_json_str <-
     call_non_streaming (get_step_prompt "validation") validation_query
       (Some image_data) ;;
   let validation := decode_or validation_fallback validation_json_str in
   blocked <- lift (gate_blocks validation) ;;
   if (blocked : bool) then ret (rejection validation)
   else
     (raw_ocr <-
        call_non_streaming (get_step_prompt "ocr") ocr_query (Some image_data) ;;
      normalization_json_str <-
        call_non_streaming (get_step_prompt "normalize") (normalize_query raw_ocr)
          None ;;
      let extraction := decode_or extraction_fallback normalization_json_str in
      audit_json_str <-
        call_non_streaming (get_step_prompt "audit") (audit_query raw_ocr extraction)
          None ;;
      let audit := decode_or audit_fallback audit_json_str in
      audit' <- lift (setitem_str audit "validation" validation) ;;
      classified <- lift (classify extraction audit') ;;
      ret (JDict [ ("validation", validation);
                   ("extraction", extraction);
                   ("audit", snd classified);
                   ("raw_ocr", JStr raw_ocr);
                   ("ambiguity_state", JStr (fst classified)) ])))%comp.

(** *** The chat generator *)

(** What a conversation owns: the chat history, the chat store and the
    transport. *)
Record session : Type := {
  memory : list chat_message;
  db : DB;
  net : world
}.

Definition with_memory (s : session) (m : list chat_message) : session :=
  {| memory := m; db := db s; net := net s |}.
Definition with_db (s : session) (d : DB) : session :=
  {| memory := memory s; db := d; net := net s |}.
Definition with_net (s : session) (w : world) : session :=
  {| memory := memory s; db := db s; net := w |}.

Definition add_user_message (q : string) (s : session) : session :=
  with_memory s (memory s ++ [HumanMessage q]).
Definition add_ai_message (a : string) (s : session) : session :=
  with_memory s (memory s ++ [AIMessage a]).

(** The arguments of one call of [stream_with_mode]. *)
Record chat_args : Type := {
  image : Image;
  user_query : string;
  mode : string;
  extraction_context : json;
  ambiguity_state : string;
  model_params : kwargs
}.

(** [self.prescription_id] *)
Variable prescription_id : option string.

(** [if self.prescription_id: save_chat_message(self.prescription_id, role, text)].
    A store that raises is taken to be left as it was. *)
Definition save_turn (role text : string) (s : session) : session * result unit :=
  match prescription_id with
  | None => (s, Ok tt)
  | Some pid =>
      if String.eqb pid EmptyString then (s, Ok tt)
      else match save_chat_message pid role text (db s) with
           | Ok d => (with_db s d, Ok tt)
           | Raise e => (s, Raise e)
           end
  end.

Definition system_prompt (mode ambiguity_state : string) : string :=
  if String.eqb ambiguity_state "UNRESOLVABLE"
  then get_mode_prompt mode ++ SAFETY_RULE
  else get_mode_prompt mode.

Definition context_msg (extraction_context : json) : string :=
  "Context: The following verified data was extracted from the prescription: "
    ++ json_dumps extraction_context.

Definition combined_system (a : chat_args) : string :=
  system_prompt (mode a) (ambiguity_state a) ++ nl ++ nl
    ++ context_msg (extraction_context a).

Definition chat_messages (a : chat_args) (history : list chat_message)
    (image_data : string) : list json :=
  [ message "system" (JList [text_part (combined_system a)]) ]
    ++ map format_message_for_api history
    ++ [ message "user" (JList [image_part image_data; text_part (user_query a)]) ].

(** Where the generator [stream_with_mode(...)] is suspended. *)
Inductive chat_gen : Type :=
| ChatCreated
| ChatStreaming (inner : stream_gen) (full_response : string)
| ChatDisclaimer (full_response : string)
| ChatClosed.

(** The loop over the model's fragments, resumed, up to the next [yield]
    of the generator. *)
Definition pump (inner : stream_gen) (full_response : string) (s : session)
  : session * (step string * chat_gen) :=
  match stream_next json_loads inner (net s) with
  | (w1, (Yield chunk, inner1)) =>
      match chunk with
      | JStr c => (with_net s w1, (Yield c, ChatStreaming inner1 (full_response ++ c)))
      | _ => (with_net s w1, (Throw TypeError, ChatClosed))
      end
  | (w1, (Stop, _)) =>
      (with_net s w1, (Yield GLOBAL_DISCLAIMER, ChatDisclaimer full_response))
  | (w1, (Throw e, _)) => (with_net s w1, (Throw e, ChatClosed))
  end.

Definition chat_next (a : chat_args) (g : chat_gen) (s : session)
  : session * (step string * chat_gen) :=
  match g with
  | ChatCreated =>
      let history := memory s in
      match prepare_image_for_api (image a) with
      | Raise e => (s, (Throw e, ChatClosed))
      | Ok image_data =>
          let messages := chat_messages a history image_data in
          match save_turn "user" (user_query a) (add_user_message (user_query a) s) with
          | (s1, Raise e) => (s1, (Throw e, ChatClosed))
          | (s1, Ok _) =>
              (* [self.vision_client.stream(messages=messages, **model_params)] *)
              if passable (model_params a)
              then pump (StreamCreated messages (model_params a)) EmptyString s1
              else (s1, (Throw TypeError, ChatClosed))
          end
      end
  | ChatStreaming inner full_response => pump inner full_response s
  | ChatDisclaimer full_response =>
      let response_with_disclaimer := full_response ++ GLOBAL_DISCLAIMER in
      match save_turn "assistant" response_with_disclaimer
              (add_ai_message response_with_disclaimer s) with
      | (s1, Raise e) => (s1, (Throw e, ChatClosed))
      | (s1, Ok _) => (s1, (Stop, ChatClosed))
      end
  | ChatClosed => (s, (Stop, ChatClosed))
  end.

(** A caller that calls [next] at most [n] times and collects the
    fragments. *)
Fixpoint chat_take (a : chat_args) (n : nat) (g : chat_gen) (s : session)
  : session * (list string * outcome * chat_gen) :=
  match n with
  | O => (s, ([], Suspended, g))
  | S n' =>
      match chat_next a g s with
      | (s1, (Yield c, g1)) =>
          match chat_take a n' g1 s1 with
          | (s2, (cs, o, g2)) => (s2, (c :: cs, o, g2))
          end
      | (s1, (Stop, g1)) => (s1, ([], Exhausted, g1))
      | (s1, (Throw e, g1)) => (s1, ([], Raised e, g1))
      end
  end.

(** [generator.close()], or the generator dropped by its caller: no
    [try] encloses a [yield] of [stream_with_mode], so nothing more of its
    body runs. *)
Definition chat_close (g : chat_gen) : chat_gen := ChatClosed.

End VisionChain.

Arguments memory {DB} s.
Arguments db {DB} s.
Arguments net {DB} s.
Arguments add_user_message {DB} q s.
Arguments add_ai_message {DB} a s.
Arguments image {Image} c.
Arguments user_query {Image} c.
Arguments mode {Image} c.
Arguments extraction_context {Image} c.
Arguments ambiguity_state {Image} c.
Arguments model_params {Image} c.


(** * The terms of the design

    What the statements below are written in: the classification in the
    words of the design, counting and re-running, the payload of a stage,
    and the text of a posted system message. *)

(** [a.get("options", [])] of an ambiguity object. *)
Definition options_of (d : list (string * json)) : json :=
  kwarg d "options" (JList []).

(** The data model's ambiguity: an object whose options, when given, are a
    list. *)
Definition is_ambiguity (a : json) : bool :=
  match a with
  | JDict d => match options_of d with JList _ => true | _ => false end
  | _ => false
  end.

Definition nonempty_options (a : json) : bool :=
  match a with
  | JDict d => match options_of d with JList (_ :: _) => true | _ => false end
  | _ => false
  end.

(** The three-way decision in the words of the design: [clear] says
    whether the confidence reaches the threshold. *)
Definition spec_state (clear : bool) (ambiguities : list json) : string :=
  if clear then "CLEAR"
  else if negb (Nat.eqb (List.length ambiguities) 0)
          && existsb nonempty_options ambiguities
  then "CLARIFIABLE"
  else "UNRESOLVABLE".

(** Insertion into an insertion-ordered set. *)
Definition insert_flag (flag : string) (flags : list json) : list json :=
  if existsb (eq_str flag) flags then flags else flags ++ [JStr flag].

(** The flags of an audit object, none when the field is absent. *)
Definition flags_of (d : list (string * json)) : json :=
  kwarg d "safety_flags" (JList []).

Definition spec_audit (state : string) (flags : list json)
    (d : list (string * json)) : json :=
  if String.eqb state "UNRESOLVABLE"
  then JDict (dict_set "safety_flags"
                (JList (insert_flag FLAG_NO_CANDIDATES (insert_flag FLAG_UNCLEAR flags))) d)
  else JDict d.

(** [n] further runs of the block on the audit record the last run left. *)
Definition reclassify (extraction : json) (n : nat) (r : string * json)
  : result (string * json) :=
  Nat.iter n (fun acc => rbind acc (fun p => classify extraction (snd p))) (Ok r).

(** How often a string occurs in a list of flags. *)
Definition count_flag (flag : string) (flags : list json) : nat :=
  List.length (filter (eq_str flag) flags).

(** The payload a stage posts. *)
Definition stage_payload (prompt user_query : string) (image_url : option string) : json :=
  make_payload (stage_messages prompt user_query image_url) stage_params.

(** A success status, 2xx. *)
Definition is_success (status : Z) : bool := (200 <=? status) && (status <=? 299).

(** What a [for] loop that accumulates the items into a string ends with. *)
Fixpoint accumulate (items : list json) (o : outcome) (acc : string) : result string :=
  match items with
  | c :: items' =>
      match str_iadd acc c with
      | Ok acc' => accumulate items' o acc'
      | Raise e => Raise e
      end
  | [] =>
      match o with
      | Raised e => Raise e
      | _ => Ok acc
      end
  end.

(** The string at [choices[0].delta.content] of a decoded payload that has
    the expected path; a [delta] without [content] carries the empty
    string. *)
Definition content_of (chunk : json) : option string :=
  match chunk with
  | JDict d =>
      match dict_get "choices" d with
      | Some (JList (JDict first :: _)) =>
          match dict_get "delta" first with
          | Some (JDict delta) =>
              match dict_get "content" delta with
              | Some (JStr c) => Some c
              | Some _ => None
              | None => Some EmptyString
              end
          | _ => None
          end
      | _ => None
      end
  | _ => None
  end.

(** A data line, the end-of-stream event, and what a line contributes to
    the reply in the words of the design: the content of a well-formed
    event, nothing otherwise. *)
Definition is_data_line (line : string) : bool :=
  utf8_valid line && startswith "data: " line.

Definition is_done (line : string) : bool :=
  is_data_line line && String.eqb (strip (drop 6 line)) "[DONE]".

Definition event_content (json_loads : string -> result json) (line : string) : string :=
  if is_data_line line then
    match json_loads (drop 6 line) with
    | Ok chunk => match content_of chunk with Some c => c | None => EmptyString end
    | Raise _ => EmptyString
    end
  else EmptyString.

Fixpoint wire_content (json_loads : string -> result json) (lines : list string) : string :=
  match lines with
  | [] => EmptyString
  | line :: rest =>
      if is_done line then EmptyString
      else event_content json_loads line ++ wire_content json_loads rest
  end.

(** A line the loop gets past: it is skipped, ends the stream, or yields a
    string. *)
Definition benign (json_loads : string -> result json) (line : string) : bool :=
  match sse_line json_loads line with
  | Skip | Break | Emit (JStr _) => true
  | _ => false
  end.

(** The lines up to the first end-of-stream event. *)
Fixpoint before_done (lines : list string) : list string :=
  match lines with
  | [] => []
  | line :: rest => if is_done line then [] else line :: before_done rest
  end.

(** [payload["messages"][0]["content"][0]["text"]]: the text of the system
    message of a posted payload. *)
Definition system_text (payload : json) : option string :=
  match payload with
  | JDict d =>
      match dict_get "messages" d with
      | Some (JList (JDict m :: _)) =>
          match dict_get "role" m, dict_get "content" m with
          | Some (JStr "system"), Some (JList (JDict part :: _)) =>
              match dict_get "text" part with
              | Some (JStr t) => Some t
              | _ => None
              end
          | _, _ => None
          end
      | _ => None
      end
  | _ => None
  end.

(** How many [next] calls certainly end a turn: bounded by the lines of the
    response still to be read. *)
Definition lines_ahead (w : world) : nat :=
  match pending w with
  | Responds r :: _ => List.length (iter_lines r)
  | _ => O
  end.

Definition stream_fuel (g : stream_gen) (w : world) : nat :=
  match g with
  | StreamCreated _ _ => lines_ahead w
  | StreamReading lines => List.length lines
  | StreamClosed => O
  end.

Definition chat_fuel {DB : Type} (g : chat_gen) (s : session DB) : nat :=
  match g with
  | ChatCreated => 3 + lines_ahead (net s)
  | ChatStreaming inner _ => 3 + stream_fuel inner (net s)
  | ChatDisclaimer _ => 2
  | ChatClosed => 1
  end.

(** How a run of a chat generator ended. *)
Definition outcome_of {S G : Type} (r : S * (list string * outcome * G)) : outcome :=
  snd (fst (snd r)).

(** The fragments of a reply, joined. *)
Definition join (fragments : list string) : string :=
  fold_right String.append EmptyString fragments.

(** The directive the design quotes. *)
Definition SAFETY_DIRECTIVE : string :=
  "The current prescription handwriting is UNRESOLVABLE. Do NOT infer or suggest medicine names unless the user explicitly provides them in this chat. Avoid all guesses.".

(** * Sample data

    The worked runs at the end need a decoder, a serializer and a transport
    script. The decoder knows the texts the runs use; the serializer covers
    values without floats and without characters that need escaping. *)

Fixpoint escape (s : string) : string :=
  match s with
  | EmptyString => EmptyString
  | String c s' =>
      if Ascii.eqb c "034"%char then "\" ++ dq ++ escape s'
      else if Ascii.eqb c "\"%char then "\\" ++ escape s'
      else String c (escape s')
  end.

Definition quoted (s : string) : string := dq ++ escape s ++ dq.

(** One SSE event carrying the fragment [content], and its payload decoded. *)
Definition chunk_text (content : string) : string :=
  "{" ++ quoted "choices" ++ ":[{" ++ quoted "delta" ++ ":{" ++ quoted "content" ++ ":"
      ++ quoted content ++ "}}]}".

Definition chunk_value (content : string) : json :=
  JDict [("choices", JList [JDict [("delta", JDict [("content", JStr content)])]])].

Definition event (content : string) : string := "data: " ++ chunk_text content.

Definition accepted (contents : list string) : post_outcome :=
  Responds {| status_code := 200;
              text := EmptyString;
              iter_lines := (map event contents ++ ["data: [DONE]"])%list |}.

Definition low_validation_text : string :=
  "{" ++ quoted "is_prescription" ++ ": true, " ++ quoted "confidence" ++ ": 0.69, "
      ++ quoted "reason" ++ ": " ++ quoted "blurred" ++ "}".
Definition low_validation : list (string * json) :=
  [ ("is_prescription", JBool true);
    ("confidence", JFloat 0x1.6147ae147ae14p-1);
    ("reason", JStr "blurred") ].

Definition good_validation_text : string :=
  "{" ++ quoted "is_prescription" ++ ": true, " ++ quoted "confidence" ++ ": 0.7, "
      ++ quoted "reason" ++ ": " ++ quoted "handwritten prescription" ++ "}".
Definition good_validation : list (string * json) :=
  [ ("is_prescription", JBool true);
    ("confidence", JFloat 0x1.6666666666666p-1);
    ("reason", JStr "handwritten prescription") ].

Definition ocr_text : string := "Amox 500mg 1-0-1 x5days".

Definition bare_extraction_text : string := "{" ++ quoted "medicines" ++ ": []}".
Definition bare_extraction : list (string * json) := [ ("medicines", JList []) ].

Definition one_ambiguity_text : string :=
  "{" ++ quoted "ambiguities" ++ ": [{" ++ quoted "medicine_name" ++ ": " ++ quoted "Amox"
      ++ ", " ++ quoted "field" ++ ": " ++ quoted "name" ++ ", " ++ quoted "issue" ++ ": "
      ++ quoted "smudged" ++ ", " ++ quoted "options" ++ ": []}], "
      ++ quoted "safety_flags" ++ ": [], " ++ quoted "is_safe_to_display" ++ ": false}".
Definition one_ambiguity : list (string * json) :=
  [ ("ambiguities",
     JList [JDict [ ("medicine_name", JStr "Amox"); ("field", JStr "name");
                    ("issue", JStr "smudged"); ("options", JList []) ]]);
    ("safety_flags", JList []);
    ("is_safe_to_display", JBool false) ].

Definition null_delta_text : string :=
  "{" ++ quoted "choices" ++ ":[{" ++ quoted "delta" ++ ":null}]}".

Definition known_texts : list (string * json) :=
  [ ("null", JNull);
    (null_delta_text, JDict [("choices", JList [JDict [("delta", JNull)]])]);
    (low_validation_text, JDict low_validation);
    (good_validation_text, JDict good_validation);
    (bare_extraction_text, JDict bare_extraction);
    (one_ambiguity_text, JDict one_ambiguity);
    (chunk_text low_validation_text, chunk_value low_validation_text);
    (chunk_text good_validation_text, chunk_value good_validation_text);
    (chunk_text ocr_text, chunk_value ocr_text);
    (chunk_text bare_extraction_text, chunk_value bare_extraction_text);
    (chunk_text one_ambiguity_text, chunk_value one_ambiguity_text);
    (chunk_text "I cannot tell.", chunk_value "I cannot tell.");
    (chunk_text "Take one ", chunk_value "Take one ");
    (chunk_text "after food.", chunk_value "after food.") ].

Definition loads_known (s : string) : result json :=
  match dict_get s known_texts with
  | Some v => Ok v
  | None => Raise JSONDecodeError
  end.

Fixpoint dumps_plain (v : json) : string :=
  match v with
  | JNull => "null"
  | JBool true => "true"
  | JBool false => "false"
  | JInt n => str_of_int n
  | JFloat _ => "NaN"
  | JStr s => dq ++ s ++ dq
  | JList l => "[" ++ String.concat ", " (map dumps_plain l) ++ "]"
  | JDict d =>
      "{" ++ String.concat ", "
               (map (fun kv => match kv with
                               | (k, x) => dq ++ k ++ dq ++ ": " ++ dumps_plain x
                               end) d)
          ++ "}"
  end.

Definition image_url_0 : string := "data:image/png;base64,iVBORw0KGgo=".
Definition prepare_0 (_ : unit) : result string := Ok image_url_0.

Definition script (outcomes : list post_outcome) : world :=
  {| pending := outcomes; sent := []; printed := [] |}.

(** A run that stops at the gate, and a run through all four stages. *)
Definition world_low : world := script [accepted [low_validation_text]].
Definition world_good : world :=
  script [ accepted [good_validation_text]; accepted [ocr_text];
           accepted [bare_extraction_text]; accepted [one_ambiguity_text] ].

Definition after_stage (prompt q : string) (url : option string) (w : world) : world :=
  fst (call_non_streaming loads_known prompt q url w).

Definition world_low_1 : world :=
  after_stage (get_step_prompt "validation") validation_query (Some image_url_0) world_low.
Definition world_good_1 : world :=
  after_stage (get_step_prompt "validation") validation_query (Some image_url_0) world_good.
Definition world_good_2 : world :=
  after_stage (get_step_prompt "ocr") ocr_query (Some image_url_0) world_good_1.
Definition world_good_3 : world :=
  after_stage (get_step_prompt "normalize") (normalize_query ocr_text) None world_good_2.
Definition world_good_4 : world :=
  after_stage (get_step_prompt "audit")
    (audit_query dumps_plain ocr_text (JDict bare_extraction)) None world_good_3.

Definition half_confident : list (string * json) :=
  [ ("medicines", JList []); ("overall_confidence", JFloat 0.5) ].

Definition audit_without_ambiguity : list (string * json) :=
  [ ("ambiguities", JList []); ("safety_flags", JList []);
    ("is_safe_to_display", JBool false) ].

Definition audit_with_options : list (string * json) :=
  [ ("ambiguities", JList [JDict [("options", JList [JStr "A"; JStr "B"])]]);
    ("safety_flags", JList []);
    ("is_safe_to_display", JBool false) ].

Definition audit_marked : list (string * json) :=
  [ ("ambiguities", JList []);
    ("safety_flags", JList [JStr FLAG_UNCLEAR; JStr FLAG_NO_CANDIDATES]);
    ("is_safe_to_display", JBool false) ].

Definition world_refused : world :=
  script [Responds {| status_code := 503; text := "Service Unavailable";
                      iter_lines := [] |}].

Definition world_null_event : world :=
  script [Responds {| status_code := 200; text := EmptyString;
                      iter_lines := ["data: null"; event "Take one "; "data: [DONE]"] |}].

Definition store : Type := list (string * string * string).

Definition save_0 (pid role text : string) (d : store) : result store :=
  Ok (d ++ [(pid, role, text)])%list.

Definition session_0 : session store :=
  {| memory := []; db := []; net := script [accepted ["Take one "; "after food."]] |}.

Definition question : string := "How do I take it?".

Definition turn (mode state : string) : chat_args unit :=
  {| image := tt; user_query := question; mode := mode;
     extraction_context := JDict bare_extraction;
     ambiguity_state := state; model_params := [] |}.

Definition take_0 :=
  chat_take loads_known dumps_plain unit prepare_0 store save_0 (Some "rx-1").
Definition next_0 :=
  chat_next loads_known dumps_plain unit prepare_0 store save_0 (Some "rx-1").

Definition reply : string := "Take one after food." ++ GLOBAL_DISCLAIMER.

Definition session_1 : session store :=
  fst (save_turn store save_0 (Some "rx-1") "user" question
         (add_user_message question session_0)).

(** * More of the code

    The rest of [backend/chain.py], and what the pages in [frontend/] do
    with the chain. *)

(** ** [VisionChain.generate_final_schedule] *)

Definition schedule_fallback : json := JDict [("schedule", JList [])].

Section FinalSchedule.

Variable json_loads : string -> result json.
Variable json_dumps : json -> string.

Definition schedule_query (merged_context : json) : string :=
  "Verified Context:" ++ nl ++ json_dumps merged_context ++ nl ++ nl
    ++ "Generate schedule JSON.".

Definition generate_final_schedule (merged_context : json) : M json :=
  fun w =>
    match call_non_streaming json_loads (get_step_prompt "schedule_final")
            (schedule_query merged_context) None w with
    | (w1, Ok response_str) => (w1, Ok (decode_or json_loads schedule_fallback response_str))
    | (w1, Raise e) => (w1, Raise e)
    end.

End FinalSchedule.

(** ** What the statements on the rest of the code are written in *)

(** The backtick, and the fence of three. *)
Definition tick : ascii := "096"%char.
Definition FENCE : string := "```".

(** How many backticks a text starts with. *)
Fixpoint lead_ticks (s : string) : nat :=
  match s with
  | String c s' => if Ascii.eqb c tick then S (lead_ticks s') else O
  | EmptyString => O
  end.

(** A text without any backtick. *)
Fixpoint no_tick (s : string) : bool :=
  match s with
  | String c s' => negb (Ascii.eqb c tick) && no_tick s'
  | EmptyString => true
  end.

(** The parameters [stream] puts into the payload. *)
Definition sent_params (params : kwargs) : list (option json) :=
  [ dict_get "temperature" params; dict_get "max_tokens" params; dict_get "top_p" params ].

(** The system prompts of the four stages, in the order of the pipeline. *)
Definition stage_prompts : list (option string) :=
  [ Some (get_step_prompt "validation"); Some (get_step_prompt "ocr");
    Some (get_step_prompt "normalize"); Some (get_step_prompt "audit") ].

(** [audit_data.get("ambiguity_state", "CLEAR")], the state the prescription
    page reads off the audit record (page_prescription.py, line 86). *)
Definition page_ambiguity_state (audit_data : json) : result json :=
  py_get audit_data "ambiguity_state" (JStr "CLEAR").

(** The items and the outcome of a run of the client's generator, without
    the generator it leaves. *)
Definition seen (r : world * (list json * outcome * stream_gen)) : list json * outcome :=
  fst (snd r).

(** The arguments of a chat turn with other keyword parameters. *)
Definition with_params {Image : Type} (a : chat_args Image) (params : kwargs)
  : chat_args Image :=
  {| image := image a; user_query := user_query a; mode := mode a;
     extraction_context := extraction_context a;
     ambiguity_state := ambiguity_state a; model_params := params |}.

(** A decoded value that is a JSON object, a [dict]. *)
Definition is_object (v : json) : bool :=
  match v with
  | JDict _ => true
  | _ => false
  end.

(** A value Python cannot compare with a number. *)
Definition not_a_number (v : json) : bool :=
  match v with
  | JNull | JStr _ | JList _ | JDict _ => true
  | JBool _ | JInt _ | JFloat _ => false
  end.

(** ** [frontend/ui_components.py]: the chat mode of the sidebar *)

(** [s.split(sep)] for a separator of one character: the pieces between the
    separators, the empty ones too; never an empty list. *)
Fixpoint str_split (sep : ascii) (s : string) : list string :=
  match s with
  | EmptyString => [EmptyString]
  | String c s' =>
      if Ascii.eqb c sep then EmptyString :: str_split sep s'
      else match str_split sep s' with
           | piece :: pieces => String c piece :: pieces
           | [] => [String c EmptyString]
           end
  end.

(** [sep.join(pieces)] *)
Fixpoint str_join (sep : string) (pieces : list string) : string :=
  match pieces with
  | [] => EmptyString
  | piece :: rest =>
      match rest with
      | [] => piece
      | _ :: _ => piece ++ sep ++ str_join sep rest
      end
  end.

(** The labels of the radio buttons. *)
Definition modes : list string :=
  [ "🩺 Explain Prescription"; "⏰ Create Schedule" ].

(** What [render_chat_mode_selector] returns for the label the user has
    selected: [" ".join(selected_mode.split(" ")[1:])]. *)
Definition render_chat_mode_selector (selected_mode : string) : string :=
  str_join " " (tl (str_split " " selected_mode)).

(** A text in which the character does not occur. *)
Fixpoint without_char (c : ascii) (s : string) : bool :=
  match s with
  | String c' s' => negb (Ascii.eqb c' c) && without_char c s'
  | EmptyString => true
  end.

(** ** [frontend/ui_components.py]: the form of the unresolvable card *)

(** The Python literals [0.8] and [1.0]. *)
Definition boosted_confidence : float := 0x1.999999999999ap-1%float.

(** The medicine the form builds from the name and the type typed in. *)
Definition new_med (manual_name med_type : string) : json :=
  JDict [ ("name", JStr (manual_name ++ " (" ++ med_type ++ ")"));
          ("dosage", JStr "Verifying...");
          ("frequency", JStr "Verifying...");
          ("timing", JList []);
          ("instructions", JStr "Manually confirmed by user.");
          ("confidence", JFloat 1) ].

Section UnresolvableCard.

(** The store behind [db.prescriptions.update_prescription_data], which
    takes the prescription id of the session, [None] or a text, the
    extraction and the audit record. *)
Variable DB : Type.
Variable update_prescription_data : option string -> json -> json -> DB -> result DB.

(** The body of [render_unresolvable_card] under [if submitted:]. The two
    dicts are the ones the session holds, changed in place, so what has been
    changed stays changed when a later statement raises: the function returns
    the dicts and the store as the body leaves them, and [Ok true] when the
    medicine was added, [Ok false] when no name was typed in.
    [session_entry] is the entry [prescription_id] of the session state,
    [None] when there is no such key. *)
Definition confirm_medicine (manual_name med_type : string)
    (session_entry : option (option string))
    (extraction audit_data : json) (d : DB) : (json * json * DB) * result bool :=
  if String.eqb manual_name EmptyString then ((extraction, audit_data, d), Ok false)
  else
    match py_in "medicines" extraction with
    | Raise e => ((extraction, audit_data, d), Raise e)
    | Ok present =>
        match (if present then Ok extraction
               else setitem_str extraction "medicines" (JList [])) with
        | Raise e => ((extraction, audit_data, d), Raise e)
        | Ok e1 =>
            match (medicines <- getitem_str e1 "medicines" ;;
                   medicines' <- py_append medicines (new_med manual_name med_type) ;;
                   setitem_str e1 "medicines" medicines')%result with
            | Raise e => ((e1, audit_data, d), Raise e)
            | Ok e2 =>
                match setitem_str e2 "overall_confidence" (JFloat boosted_confidence) with
                | Raise e => ((e2, audit_data, d), Raise e)
                | Ok e3 =>
                    match setitem_str audit_data "ambiguity_state" (JStr "CLEAR") with
                    | Raise e => ((e3, audit_data, d), Raise e)
                    | Ok a1 =>
                        match session_entry with
                        | None => ((e3, a1, d), Ok true)
                        | Some p_id =>
                            match update_prescription_data p_id e3 a1 d with
                            | Ok d' => ((e3, a1, d'), Ok true)
                            | Raise e => ((e3, a1, d), Raise e)
                            end
                        end
                    end
                end
            end
        end
    end.

End UnresolvableCard.

(** ** [frontend/session_utils.py] and the chat of
    [frontend/pages/page_prescription.py] *)

(** [msg.type] and [msg.content] *)
Definition message_type (msg : chat_message) : string :=
  match msg with
  | SystemMessage _ => "system"
  | HumanMessage _ => "human"
  | AIMessage _ => "ai"
  end.

Definition message_content (msg : chat_message) : string :=
  match msg with
  | SystemMessage c | HumanMessage c | AIMessage c => c
  end.

(** [messages[-k]] for [k] of 1 or more. *)
Definition from_end {A : Type} (k : nat) (messages : list A) : result A :=
  match nth_error (rev messages) (k - 1) with
  | Some x => Ok x
  | None => Raise IndexError
  end.

Section Frontend.

Variable json_loads : string -> result json.
Variable json_dumps : json -> string.
Variable Image : Type.
Variable prepare_image_for_api : Image -> result string.
Variable DB : Type.
Variable save_chat_message : string -> string -> string -> DB -> result DB.

(** The [VisionChain] object of the session: its [prescription_id], and
    what the conversation owns. The memory of the chain is the session's
    [chat_memory], one object under two names. *)
Record vision_chain_object : Type := {
  chain_prescription_id : option string;
  conversation : session DB
}.

(** The entries of [st.session_state] that [load_into_session] and the chat
    touch. An entry that the session may lack is an option. *)
Record session_state : Type := {
  session_prescription_id : option string;
  active_img_hash : option string;
  active_image : option Image;
  active_analysis : option json;
  chat_history : list chat_message;
  vision_chain : option vision_chain_object;
  schedule_generated : option bool
}.

(** [VisionChain.clear_memory] *)
Definition clear_memory (s : session DB) : session DB := with_memory DB s [].

(** One round of the loop over the history. *)
Definition restore_message (s : session DB) (msg : chat_message) : session DB :=
  if String.eqb (message_type msg) "human" then add_user_message (message_content msg) s
  else add_ai_message (message_content msg) s.

Definition load_into_session (p_id : option string) (img_hash : string) (image : Image)
    (analysis : json) (history : list chat_message) (st : session_state) : session_state :=
  {| session_prescription_id := p_id;
     active_img_hash := Some img_hash;
     active_image := Some image;
     active_analysis := Some analysis;
     chat_history := history;
     vision_chain :=
       match vision_chain st with
       | Some chain =>
           Some {| chain_prescription_id := p_id;
                   conversation :=
                     fold_left restore_message history (clear_memory (conversation chain)) |}
       | None => None
       end;
     schedule_generated :=
       match schedule_generated st with
       | Some _ => Some false
       | None => None
       end |}.

(** The chat of the prescription page, from the call of [stream_with_mode]
    to the two [append]s (page_prescription.py, lines 122 to 138), for the
    arguments [a] the page has put together. The [for] loop calls [next]
    until the generator returns or raises; [fuel] bounds the calls, and
    [None] says that it did not suffice. Otherwise the result is the chat
    history, the chain, and the text shown, or the error that ends the
    script. *)
Definition page_chat (a : chat_args Image) (fuel : nat)
    (history : list chat_message) (chain : vision_chain_object)
  : option (list chat_message * vision_chain_object * result string) :=
  match chat_take json_loads json_dumps Image prepare_image_for_api DB save_chat_message
          (chain_prescription_id chain) a fuel ChatCreated (conversation chain) with
  | (_, (_, Suspended, _)) => None
  | (s', (_, Raised e, _)) =>
      Some (history,
            {| chain_prescription_id := chain_prescription_id chain; conversation := s' |},
            Raise e)
  | (s', (chunks, Exhausted, _)) =>
      let chain' :=
        {| chain_prescription_id := chain_prescription_id chain; conversation := s' |} in
      match from_end 2 (memory s') with
      | Raise e => Some (history, chain', Raise e)
      | Ok user_message =>
          match from_end 1 (memory s') with
          | Raise e => Some ((history ++ [user_message])%list, chain', Raise e)
          | Ok ai_message =>
              Some ((history ++ [user_message; ai_message])%list, chain', Ok (join chunks))
          end
      end
  end.

End Frontend.

Arguments chain_prescription_id {DB} v.
Arguments conversation {DB} v.
Arguments session_prescription_id {Image DB} s.
Arguments active_img_hash {Image DB} s.
Arguments active_image {Image DB} s.
Arguments active_analysis {Image DB} s.
Arguments chat_history {Image DB} s.
Arguments vision_chain {Image DB} s.
Arguments schedule_generated {Image DB} s.

(** ** More sample data *)

Definition fenced_answer : string := "```json" ++ nl ++ "{}" ++ nl ++ "```".

(** A response of two fragments, and the run of the client over it. *)
Definition world_reply : world := script [accepted ["Take one "; "after food."]].

Definition stream_run : world * (list json * outcome * stream_gen) :=
  stream_take loads_known 3 (StreamCreated [] []) world_reply.

(** A schedule request answered by text that is not JSON. *)
Definition schedule_run : world * result json :=
  generate_final_schedule loads_known dumps_plain (JDict bare_extraction)
    (script [accepted ["I cannot tell."]]).

(** A run whose validation answer is not JSON, one whose validation answer
    lacks the verdict, and one whose last two answers are not JSON. *)
Definition world_vague : world := script [accepted ["I cannot tell."]].
Definition world_vague_1 : world :=
  after_stage (get_step_prompt "validation") validation_query (Some image_url_0) world_vague.

Definition world_bare : world := script [accepted [bare_extraction_text]].
Definition world_bare_1 : world :=
  after_stage (get_step_prompt "validation") validation_query (Some image_url_0) world_bare.

Definition world_mute : world :=
  script [ accepted [good_validation_text]; accepted [ocr_text];
           accepted ["I cannot tell."]; accepted ["I cannot tell."] ].
Definition world_mute_1 : world :=
  after_stage (get_step_prompt "validation") validation_query (Some image_url_0) world_mute.
Definition world_mute_2 : world :=
  after_stage (get_step_prompt "ocr") ocr_query (Some image_url_0) world_mute_1.
Definition world_mute_3 : world :=
  after_stage (get_step_prompt "normalize") (normalize_query ocr_text) None world_mute_2.
Definition world_mute_4 : world :=
  after_stage (get_step_prompt "audit")
    (audit_query dumps_plain ocr_text extraction_fallback) None world_mute_3.

Definition result_mute : json :=
  JDict [ ("validation", JDict good_validation);
          ("extraction", extraction_fallback);
          ("audit", JDict (audit_marked ++ [("validation", JDict good_validation)]));
          ("raw_ocr", JStr ocr_text);
          ("ambiguity_state", JStr "UNRESOLVABLE") ].

(** An extraction whose confidence is [null], and a decoder that knows it. *)
Definition null_confidence_text : string :=
  "{" ++ quoted "medicines" ++ ": [], " ++ quoted "overall_confidence" ++ ": null}".
Definition null_confidence : list (string * json) :=
  [ ("medicines", JList []); ("overall_confidence", JNull) ].

Definition loads_more (s : string) : result json :=
  match dict_get s ((null_confidence_text, JDict null_confidence)
                    :: (chunk_text null_confidence_text, chunk_value null_confidence_text)
                    :: (chunk_text "null", chunk_value "null")
                    :: known_texts) with
  | Some v => Ok v
  | None => Raise JSONDecodeError
  end.

Definition after_stage_more (prompt q : string) (url : option string) (w : world) : world :=
  fst (call_non_streaming loads_more prompt q url w).

Definition world_null : world :=
  script [ accepted [good_validation_text]; accepted [ocr_text];
           accepted [null_confidence_text]; accepted [one_ambiguity_text] ].
Definition world_null_1 : world :=
  after_stage_more (get_step_prompt "validation") validation_query (Some image_url_0)
    world_null.
Definition world_null_2 : world :=
  after_stage_more (get_step_prompt "ocr") ocr_query (Some image_url_0) world_null_1.
Definition world_null_3 : world :=
  after_stage_more (get_step_prompt "normalize") (normalize_query ocr_text) None world_null_2.
Definition world_null_4 : world :=
  after_stage_more (get_step_prompt "audit")
    (audit_query dumps_plain ocr_text (JDict null_confidence)) None world_null_3.

(** A validation answer that is JSON and no object. *)
Definition world_nullish : world := script [accepted ["null"]].
Definition world_nullish_1 : world :=
  after_stage_more (get_step_prompt "validation") validation_query (Some image_url_0)
    world_nullish.

Definition world_refused_1 : world :=
  after_stage (get_step_prompt "validation") validation_query (Some image_url_0)
    world_refused.

(** Chat turns: one that completes, and one whose request is refused. *)
Definition explain : chat_args unit := turn "Explain Prescription" "CLEAR".

(** The same turn, called with a keyword parameter [messages]. *)
Definition explain_twice : chat_args unit := with_params explain [("messages", JList [])].

Definition session_2 : session store := fst (take_0 explain 4 ChatCreated session_0).

Definition session_3 : session store :=
  fst (save_turn store save_0 (Some "rx-1") "user" question
         (add_user_message question session_2)).

Definition session_refused : session store :=
  {| memory := []; db := []; net := world_refused |}.

Definition session_refused_1 : session store :=
  fst (save_turn store save_0 (Some "rx-1") "user" question
         (add_user_message question session_refused)).

Definition refusal : exn := ValueError "API Error 503: Service Unavailable".

(** The chain of the page over these sessions, and the session state
    before a prescription is loaded. *)
Definition chain_0 : vision_chain_object store :=
  {| chain_prescription_id := Some "rx-1"; conversation := session_0 |}.

Definition chain_refused : vision_chain_object store :=
  {| chain_prescription_id := Some "rx-1"; conversation := session_refused |}.

Definition chat_0 := page_chat loads_known dumps_plain unit prepare_0 store save_0.

Definition earlier_talk : list chat_message :=
  [HumanMessage "What is this?"; AIMessage "A prescription."].

Definition state_0 : session_state unit store :=
  {| session_prescription_id := None;
     active_img_hash := None;
     active_image := None;
     active_analysis := None;
     chat_history := [];
     vision_chain :=
       Some {| chain_prescription_id := None;
               conversation := with_memory store session_0 [HumanMessage "Hello"] |};
     schedule_generated := Some true |}.

(** A store of prescriptions that keeps what it is handed. *)
Definition records : Type := list (option string * json * json).

Definition update_0 (p_id : option string) (extraction audit_data : json) (d : records)
  : result records :=
  Ok (d ++ [(p_id, extraction, audit_data)])%list.

(** * Properties *)

(** ** Strings and dictionaries *)

Lemma startswith_app (p s : string) : startswith p (p ++ s) = true.
Proof.
  induction p as [|a p IH]; simpl.
  - reflexivity.
  - now rewrite Ascii.eqb_refl, IH.
Qed.

Lemma startswith_split (p s : string) :
  startswith p s = true -> exists t, s = p ++ t.
Proof.
  revert s; induction p as [|a p IH]; intros s H.
  - now exists s.
  - destruct s as [|b s]; simpl in H; [discriminate|].
    apply andb_true_iff in H as [Hab Hps].
    apply Ascii.eqb_eq in Hab; subst b.
    destruct (IH _ Hps) as [t ->]. now exists t.
Qed.

Lemma string_app_nil (x : string) : x ++ EmptyString = x.
Proof. induction x as [|c x IH]; simpl; [reflexivity | now rewrite IH]. Qed.

Lemma string_app_assoc (a b c : string) : (a ++ b) ++ c = a ++ (b ++ c).
Proof. induction a as [|x a IH]; simpl; [reflexivity | now rewrite IH]. Qed.

Lemma contains_app (p a b : string) : contains p (a ++ p ++ b) = true.
Proof.
  induction a as [|x a IH].
  - simpl. destruct (p ++ b) eqn:E; simpl.
    + destruct p; [reflexivity | discriminate].
    + rewrite <- E, startswith_app. reflexivity.
  - simpl. rewrite IH. apply orb_true_r.
Qed.

(** [contains] decides the presence of a substring. *)
Lemma contains_iff (p s : string) :
  contains p s = true <-> exists a b, s = a ++ p ++ b.
Proof.
  split.
  - induction s as [|x s IH]; simpl; intros H.
    + rewrite orb_false_r in H. apply startswith_split in H as [t Ht].
      exists EmptyString, t. exact Ht.
    + apply orb_true_iff in H as [H|H].
      * apply startswith_split in H as [t Ht].
        exists EmptyString, t. exact Ht.
      * destruct (IH H) as (a & b & ->).
        exists (String x a), b. reflexivity.
  - intros (a & b & ->). apply contains_app.
Qed.

Lemma contains_trans (p q s : string) :
  contains p q = true -> contains q s = true -> contains p s = true.
Proof.
  rewrite !contains_iff. intros (a & b & ->) (c & d & ->).
  exists (c ++ a), (b ++ d). now rewrite !string_app_assoc.
Qed.

Lemma dict_get_set_same k v d : dict_get k (dict_set k v d) = Some v.
Proof.
  induction d as [|[k' v'] d IH]; simpl.
  - now rewrite String.eqb_refl.
  - destruct (String.eqb k k') eqn:E; simpl; rewrite E; [reflexivity | exact IH].
Qed.

Lemma dict_get_set_other k k' v d :
  k <> k' -> dict_get k' (dict_set k v d) = dict_get k' d.
Proof.
  intros Hne. induction d as [|[k0 v0] d IH]; simpl.
  - destruct (String.eqb k' k) eqn:E; [|reflexivity].
    apply String.eqb_eq in E. congruence.
  - destruct (String.eqb k k0) eqn:E; simpl.
    + apply String.eqb_eq in E; subst k0.
      destruct (String.eqb k' k) eqn:E'; [|reflexivity].
      apply String.eqb_eq in E'. congruence.
    + now rewrite IH.
Qed.

Lemma dict_set_set k v v' d : dict_set k v (dict_set k v' d) = dict_set k v d.
Proof.
  induction d as [|[k0 v0] d IH]; simpl.
  - now rewrite String.eqb_refl.
  - destruct (String.eqb k k0) eqn:E; simpl; rewrite E; [reflexivity | now rewrite IH].
Qed.

Lemma existsb_eq_str_app s l x :
  existsb (eq_str s) (l ++ [x]) = existsb (eq_str s) l || eq_str s x.
Proof. now rewrite existsb_app; simpl; rewrite orb_false_r. Qed.

Lemma dict_set_same k v d : dict_get k d = Some v -> dict_set k v d = d.
Proof.
  induction d as [|[k0 v0] d IH]; simpl; [discriminate|].
  destruct (String.eqb k k0) eqn:E.
  - intros [= ->]. reflexivity.
  - intros H. now rewrite IH.
Qed.

(** ** The ambiguity classification, as the design states it *)

Lemma any_options_typed (ambs : list json) :
  forallb is_ambiguity ambs = true ->
  any_options ambs = Ok (existsb nonempty_options ambs).
Proof.
  induction ambs as [|a ambs IH]; simpl; [reflexivity|].
  intros H. apply andb_true_iff in H as [Ha Hrest].
  destruct a as [| | | | | |d]; simpl in Ha; try discriminate.
  simpl. unfold options_of, kwarg in *.
  destruct (dict_get "options" d) as [o|]; simpl.
  - destruct o as [| | | | |l|]; try discriminate.
    destruct l as [|x l]; simpl; [now apply IH | reflexivity].
  - now apply IH.
Qed.

Lemma add_flag_list (flag : string) (d : list (string * json)) (flags : list json) :
  dict_get "safety_flags" d = Some (JList flags) ->
  add_flag flag (JDict d)
  = Ok (JDict (dict_set "safety_flags" (JList (insert_flag flag flags)) d)).
Proof.
  intros H. unfold add_flag, insert_flag. simpl. rewrite H. simpl.
  destruct (existsb (eq_str flag) flags); simpl.
  - now rewrite (dict_set_same _ _ _ H).
  - reflexivity.
Qed.

Lemma clarifiable_typed (ambs : list json) :
  forallb is_ambiguity ambs = true ->
  clarifiable (JList ambs)
  = Ok (negb (Nat.eqb (List.length ambs) 0) && existsb nonempty_options ambs).
Proof.
  intros Htyped. unfold clarifiable. cbn [py_len rbind].
  destruct ambs as [|a ambs]; [reflexivity|].
  replace (0 <? Z.of_nat (List.length (a :: ambs))) with true
    by (symmetry; apply Z.ltb_lt; simpl; lia).
  cbn [py_iter rbind]. now rewrite any_options_typed.
Qed.

Lemma mark_unresolvable_typed (d : list (string * json)) (flags : list json) :
  flags_of d = JList flags ->
  mark_unresolvable (JDict d)
  = Ok (JDict (dict_set "safety_flags"
                 (JList (insert_flag FLAG_NO_CANDIDATES (insert_flag FLAG_UNCLEAR flags))) d)).
Proof.
  intros Hflags. unfold mark_unresolvable, flags_of, kwarg in *.
  destruct (dict_get "safety_flags" d) as [f|] eqn:Ef.
  - subst f. cbn [rbind]. rewrite (add_flag_list _ _ _ Ef). cbn [rbind].
    rewrite (add_flag_list _ _ (insert_flag FLAG_UNCLEAR flags))
      by apply dict_get_set_same.
    now rewrite dict_set_set.
  - injection Hflags as <-. cbn [setitem_str rbind].
    rewrite (add_flag_list _ _ []) by apply dict_get_set_same. cbn [rbind].
    rewrite (add_flag_list _ _ (insert_flag FLAG_UNCLEAR []))
      by apply dict_get_set_same.
    now rewrite !dict_set_set.
Qed.

(** C3. The classification block yields CLEAR when the confidence reaches
    the threshold, otherwise CLARIFIABLE when the ambiguity list is not
    empty and some ambiguity has a non-empty option list, otherwise
    UNRESOLVABLE; in the last case, and only then, the two fixed strings are
    inserted into [safety_flags], each unless already present. *)
Theorem classify_three_way
    (ed ad : list (string * json)) (clear : bool) (ambs flags : list json) :
  ge_threshold (kwarg ed "overall_confidence" (JFloat 1)) = Ok clear ->
  kwarg ad "ambiguities" (JList []) = JList ambs ->
  forallb is_ambiguity ambs = true ->
  flags_of ad = JList flags ->
  classify (JDict ed) (JDict ad)
  = Ok (spec_state clear ambs, spec_audit (spec_state clear ambs) flags ad).
Proof.
  intros Hconf Hambs Htyped Hflags.
  unfold classify, py_get. fold (kwarg ed "overall_confidence" (JFloat 1)).
  fold (kwarg ad "ambiguities" (JList [])).
  simpl. rewrite Hconf, Hambs. simpl.
  unfold spec_state.
  destruct clear; [reflexivity|].
  rewrite (clarifiable_typed _ Htyped), (mark_unresolvable_typed _ _ Hflags).
  cbn [rbind]. unfold spec_audit.
  destruct (negb (Nat.eqb (List.length ambs) 0) && existsb nonempty_options ambs);
    reflexivity.
Qed.

(** *** Running the classification again *)

Lemma add_flag_present (flag : string) (d : list (string * json)) (fl : json) :
  dict_get "safety_flags" d = Some fl ->
  py_in flag fl = Ok true ->
  add_flag flag (JDict d) = Ok (JDict d).
Proof.
  intros Hget Hin. unfold add_flag. simpl. rewrite Hget. simpl.
  now rewrite Hin.
Qed.

(** After [add_flag] the flag is present, what was present stays, and no
    other field of the audit changes. *)
Lemma add_flag_post (flag : string) (d : list (string * json)) (a2 : json) :
  add_flag flag (JDict d) = Ok a2 ->
  exists d2 fl2,
    a2 = JDict d2 /\
    dict_get "safety_flags" d2 = Some fl2 /\
    py_in flag fl2 = Ok true /\
    (forall k, k <> "safety_flags" -> dict_get k d2 = dict_get k d) /\
    (forall g fl, dict_get "safety_flags" d = Some fl ->
                  py_in g fl = Ok true -> py_in g fl2 = Ok true).
Proof.
  unfold add_flag. simpl.
  destruct (dict_get "safety_flags" d) as [fl|] eqn:Hget; simpl; [|discriminate].
  destruct (py_in flag fl) as [present|] eqn:Hin; simpl; [|discriminate].
  destruct present.
  - intros [= <-]. exists d, fl. repeat split; auto.
    intros g fl0 [= <-]. auto.
  - destruct fl as [| | | | |l|]; simpl; try discriminate.
    intros [= <-].
    exists (dict_set "safety_flags" (JList (l ++ [JStr flag])) d),
           (JList (l ++ [JStr flag])).
    split; [reflexivity|]. split; [apply dict_get_set_same|].
    split.
    + simpl. rewrite existsb_eq_str_app. simpl.
      now rewrite String.eqb_refl, orb_true_r.
    + split.
      * intros k Hk. apply dict_get_set_other. congruence.
      * intros g fl0 [= <-]. simpl. intros [= Hg].
        now rewrite existsb_eq_str_app, Hg.
Qed.

Lemma mark_unresolvable_post (d : list (string * json)) (a' : json) :
  mark_unresolvable (JDict d) = Ok a' ->
  exists d' fl',
    a' = JDict d' /\
    dict_get "safety_flags" d' = Some fl' /\
    py_in FLAG_UNCLEAR fl' = Ok true /\
    py_in FLAG_NO_CANDIDATES fl' = Ok true /\
    (forall k, k <> "safety_flags" -> dict_get k d' = dict_get k d).
Proof.
  unfold mark_unresolvable.
  set (a1 := match dict_get "safety_flags" d with
             | Some _ => Ok (JDict d)
             | None => setitem_str (JDict d) "safety_flags" (JList [])
             end).
  assert (H1 : exists d1, a1 = Ok (JDict d1) /\
             (forall k, k <> "safety_flags" -> dict_get k d1 = dict_get k d)).
  { subst a1. destruct (dict_get "safety_flags" d).
    - exists d. auto.
    - eexists. split; [reflexivity|].
      intros k Hk. apply dict_get_set_other. congruence. }
  destruct H1 as (d1 & -> & Hd1). cbn [rbind].
  destruct (add_flag FLAG_UNCLEAR (JDict d1)) as [a2|] eqn:E2; [|discriminate].
  cbn [rbind]. intros E3.
  apply add_flag_post in E2 as (d2 & fl2 & -> & Hg2 & Hin2 & Hk2 & _).
  apply add_flag_post in E3 as (d3 & fl3 & -> & Hg3 & Hin3 & Hk3 & Hkeep).
  exists d3, fl3. repeat split; auto.
  - eapply Hkeep; eauto.
  - intros k Hk. now rewrite Hk3, Hk2, Hd1.
Qed.

Lemma mark_unresolvable_fixed (d : list (string * json)) (fl : json) :
  dict_get "safety_flags" d = Some fl ->
  py_in FLAG_UNCLEAR fl = Ok true ->
  py_in FLAG_NO_CANDIDATES fl = Ok true ->
  mark_unresolvable (JDict d) = Ok (JDict d).
Proof.
  intros Hget H1 H2. unfold mark_unresolvable. rewrite Hget. cbn [rbind].
  rewrite (add_flag_present _ _ _ Hget H1). cbn [rbind].
  apply (add_flag_present _ _ _ Hget H2).
Qed.

(** A run that succeeded is repeated by the next run on its own output. *)
Lemma classify_again (e a a' : json) (st : string) :
  classify e a = Ok (st, a') -> classify e a' = Ok (st, a').
Proof.
  unfold classify.
  destruct (py_get e "overall_confidence" (JFloat 1)) as [conf|]; [|discriminate].
  cbn [rbind].
  destruct a as [| | | | | |d]; try discriminate.
  cbn [py_get rbind].
  destruct (ge_threshold conf) as [clear|]; [|discriminate]. cbn [rbind].
  destruct clear.
  { intros [= <- <-]. reflexivity. }
  set (ambs := match dict_get "ambiguities" d with Some x => x | None => JList [] end).
  destruct (clarifiable ambs) as [c|] eqn:Ec; [|discriminate]. cbn [rbind].
  destruct c.
  { intros [= <- <-]. cbn [py_get rbind]. fold ambs. now rewrite Ec. }
  destruct (mark_unresolvable (JDict d)) as [a1|] eqn:Em; [|discriminate].
  cbn [rbind]. intros [= <- <-].
  apply mark_unresolvable_post in Em as (d' & fl' & -> & Hget & H1 & H2 & Hk).
  cbn [py_get rbind]. rewrite (Hk "ambiguities") by discriminate.
  fold ambs. rewrite Ec. cbn [rbind].
  now rewrite (mark_unresolvable_fixed _ _ Hget H1 H2).
Qed.

Lemma reclassify_fixed (e a a' : json) (st : string) (n : nat) :
  classify e a = Ok (st, a') -> reclassify e n (st, a') = Ok (st, a').
Proof.
  intros H. apply classify_again in H.
  unfold reclassify. induction n as [|n IH]; [reflexivity|].
  rewrite Nat.iter_succ, IH. exact H.
Qed.

Lemma count_flag_app flag l x :
  count_flag flag (l ++ [x])
  = (count_flag flag l + if eq_str flag x then 1 else 0)%nat.
Proof.
  unfold count_flag. rewrite filter_app, length_app. simpl.
  now destruct (eq_str flag x).
Qed.

Lemma count_flag_zero flag l :
  existsb (eq_str flag) l = false -> count_flag flag l = 0%nat.
Proof.
  unfold count_flag. induction l as [|x l IH]; simpl; [reflexivity|].
  destruct (eq_str flag x); simpl; [discriminate | exact IH].
Qed.

Lemma count_flag_pos flag l :
  existsb (eq_str flag) l = true -> (1 <= count_flag flag l)%nat.
Proof.
  unfold count_flag. induction l as [|x l IH]; simpl; [discriminate|].
  destruct (eq_str flag x); simpl; [lia | exact IH].
Qed.

Lemma count_insert_same flag l :
  count_flag flag (insert_flag flag l) = Nat.max 1 (count_flag flag l).
Proof.
  unfold insert_flag. destruct (existsb (eq_str flag) l) eqn:E.
  - apply count_flag_pos in E. lia.
  - rewrite count_flag_app, (count_flag_zero _ _ E). simpl.
    now rewrite String.eqb_refl.
Qed.

Lemma count_insert_other flag g l :
  flag <> g -> count_flag flag (insert_flag g l) = count_flag flag l.
Proof.
  intros Hne. unfold insert_flag. destruct (existsb (eq_str g) l); [reflexivity|].
  rewrite count_flag_app. simpl.
  destruct (String.eqb flag g) eqn:E; [|lia].
  apply String.eqb_eq in E. contradiction.
Qed.

Lemma classify_flags (e : json) (d : list (string * json)) (flags : list json)
    (st : string) (a' : json) :
  classify e (JDict d) = Ok (st, a') ->
  flags_of d = JList flags ->
  (st = "UNRESOLVABLE" /\
   a' = JDict (dict_set "safety_flags"
                 (JList (insert_flag FLAG_NO_CANDIDATES (insert_flag FLAG_UNCLEAR flags))) d))
  \/ ((st = "CLEAR" \/ st = "CLARIFIABLE") /\ a' = JDict d).
Proof.
  intros H Hflags. unfold classify in H.
  destruct (py_get e "overall_confidence" (JFloat 1)) as [conf|]; [|discriminate].
  cbn [py_get rbind] in H.
  destruct (ge_threshold conf) as [clear|]; [|discriminate]. cbn [rbind] in H.
  destruct clear.
  { injection H as <- <-. right. auto. }
  destruct (clarifiable _) as [c|]; [|discriminate]. cbn [rbind] in H.
  destruct c.
  { injection H as <- <-. right. auto. }
  rewrite (mark_unresolvable_typed _ _ Hflags) in H. cbn [rbind] in H.
  injection H as <- <-. left. auto.
Qed.

(** C4. Running the classification block again, any number of times, on the
    audit record it left gives the same state and the same record: nothing
    is added to [safety_flags] after the first run. The first run itself
    raises the count of each fixed string to one when the string was
    absent and leaves it alone otherwise, so a list of flags without
    duplicates of the two strings never gets one. *)
Theorem classify_idempotent (e a a' : json) (st : string) :
  classify e a = Ok (st, a') ->
  (forall n, reclassify e n (st, a') = Ok (st, a')) /\
  (forall d flags,
      a = JDict d -> flags_of d = JList flags ->
      exists d' flags',
        a' = JDict d' /\ flags_of d' = JList flags' /\
        forall flag, flag = FLAG_UNCLEAR \/ flag = FLAG_NO_CANDIDATES ->
          count_flag flag flags'
          = if String.eqb st "UNRESOLVABLE"
            then Nat.max 1 (count_flag flag flags)
            else count_flag flag flags).
Proof.
  intros H. split.
  - intros n. now apply reclassify_fixed with (a := a).
  - intros d flags -> Hflags.
    destruct (classify_flags _ _ _ _ _ H Hflags) as [[-> ->]|[Hst ->]].
    + eexists. exists (insert_flag FLAG_NO_CANDIDATES (insert_flag FLAG_UNCLEAR flags)).
      split; [reflexivity|]. split.
      * unfold flags_of, kwarg. now rewrite dict_get_set_same.
      * intros flag [-> | ->]; simpl String.eqb; cbv iota.
        -- rewrite count_insert_other by discriminate. apply count_insert_same.
        -- rewrite count_insert_same.
           now rewrite count_insert_other by discriminate.
    + exists d, flags. split; [reflexivity|]. split; [exact Hflags|].
      intros flag _. destruct Hst as [-> | ->]; reflexivity.
Qed.

(** ** Floating-point order *)

(** The threshold lies strictly between the integers 0 and 1, which is
    what [lt_threshold] and [ge_threshold] use for integers. *)
Lemma threshold_between :
  PrimFloat.ltb 0 threshold = true /\ PrimFloat.ltb threshold 1 = true.
Proof. split; reflexivity. Qed.

Lemma SFcompare_antisym (x y : SpecFloat.spec_float) :
  SpecFloat.SFcompare y x = option_map CompOpp (SpecFloat.SFcompare x y).
Proof.
  destruct x as [sx|sx| |sx mx ex], y as [sy|sy| |sy my ey]; simpl;
    try reflexivity;
    try (destruct sx; reflexivity);
    try (destruct sy; reflexivity);
    try (destruct sx, sy; reflexivity).
  f_equal.
  destruct sx, sy; try reflexivity;
    rewrite (Z.compare_antisym ey ex);
    destruct (ey ?= ex)%Z; simpl; try reflexivity;
    change (Pos.compare_cont Eq my mx) with (Pos.compare my mx);
    change (Pos.compare_cont Eq mx my) with (Pos.compare mx my);
    rewrite (Pos.compare_antisym my mx);
    destruct (my ?= mx)%positive; reflexivity.
Qed.

(** [y <= x] excludes [x < y], also for infinities and NaN. *)
Lemma float_leb_not_ltb (x y : float) :
  PrimFloat.leb y x = true -> PrimFloat.ltb x y = false.
Proof.
  rewrite FloatAxioms.leb_spec, FloatAxioms.ltb_spec.
  unfold SpecFloat.SFleb, SpecFloat.SFltb.
  rewrite (SFcompare_antisym (Prim2SF y) (Prim2SF x)).
  destruct (SpecFloat.SFcompare (Prim2SF y) (Prim2SF x)) as [[]|]; simpl; congruence.
Qed.

Lemma ge_not_lt_threshold (c : json) :
  ge_threshold c = Ok true -> lt_threshold c = Ok false.
Proof.
  destruct c as [|b|n|f| | |]; simpl; try discriminate.
  - intros [= ->]. reflexivity.
  - intros [= H]. f_equal. apply Z.leb_le in H. apply Z.leb_gt. lia.
  - intros [= H]. f_equal. now apply float_leb_not_ltb.
Qed.

(** ** The pipeline *)

Lemma stream_open_sent messages params w w' r :
  stream_open messages params w = (w', r) ->
  sent w' = (sent w ++ [make_payload messages params])%list.
Proof.
  unfold stream_open, requests_post.
  destruct (pending w) as [|[resp|e] rest]; simpl.
  - intros [= <- _]. reflexivity.
  - destruct (negb (status_code resp =? 200)); intros [= <- _]; reflexivity.
  - intros [= <- _]. reflexivity.
Qed.

Section Pipeline.

Variable json_loads : string -> result json.
Variable json_dumps : json -> string.
Variable Image : Type.
Variable prepare_image_for_api : Image -> result string.

Let analyze := analyze_prescription json_loads json_dumps Image prepare_image_for_api.
Let call := call_non_streaming json_loads.
Let decode := decode_or json_loads.

Lemma call_sent prompt q url w w' r :
  call prompt q url w = (w', r) ->
  sent w' = (sent w ++ [stage_payload prompt q url])%list.
Proof.
  unfold call, call_non_streaming.
  destruct (stream_open _ _ w) as [w1 [lines|e]] eqn:E; intros [= <- _];
    exact (stream_open_sent _ _ _ _ _ E).
Qed.

(** The run up to the gate, and the gate closed. *)
Lemma analyze_blocked image image_data w w1 text :
  prepare_image_for_api image = Ok image_data ->
  call (get_step_prompt "validation") validation_query (Some image_data) w = (w1, Ok text) ->
  gate_blocks (decode validation_fallback text) = Ok true ->
  analyze image w = (w1, Ok (rejection (decode validation_fallback text))).
Proof.
  intros Hprep Hcall Hgate.
  unfold analyze, analyze_prescription, bind, lift.
  rewrite Hprep. fold call. rewrite Hcall.
  fold decode. rewrite Hgate. reflexivity.
Qed.

(** The gate open: the OCR stage is what runs next. *)
Lemma analyze_passed image image_data w w1 text :
  prepare_image_for_api image = Ok image_data ->
  call (get_step_prompt "validation") validation_query (Some image_data) w = (w1, Ok text) ->
  gate_blocks (decode validation_fallback text) = Ok false ->
  exists w2 r rest,
    analyze image w = (w2, r) /\
    sent w2 = (sent w1
               ++ stage_payload (get_step_prompt "ocr") ocr_query (Some image_data) :: rest)%list.
Proof.
  intros Hprep Hcall Hgate.
  unfold analyze, analyze_prescription, bind, lift.
  rewrite Hprep. fold call. rewrite Hcall.
  fold decode. rewrite Hgate.
  destruct (call (get_step_prompt "ocr") ocr_query (Some image_data) w1)
    as [w2 [raw_ocr|e]] eqn:E2.
  2:{ exists w2, (Raise e), []. split; [reflexivity|]. exact (call_sent _ _ _ _ _ _ E2). }
  apply call_sent in E2.
  match goal with |- context [call ?p ?q None w2] =>
    destruct (call p q None w2) as [w3 [t3|e]] eqn:E3 end.
  2:{ do 3 eexists. split; [reflexivity|].
      rewrite (call_sent _ _ _ _ _ _ E3), E2, <- app_assoc. reflexivity. }
  apply call_sent in E3.
  match goal with |- context [call ?p ?q None w3] =>
    destruct (call p q None w3) as [w4 [t4|e]] eqn:E4 end.
  2:{ do 3 eexists. split; [reflexivity|].
      rewrite (call_sent _ _ _ _ _ _ E4), E3, E2, <- !app_assoc. reflexivity. }
  apply call_sent in E4.
  match goal with |- context [setitem_str ?a ?k ?v] =>
    destruct (setitem_str a k v) as [a'|e] end.
  2:{ do 3 eexists. split; [reflexivity|].
      rewrite E4, E3, E2, <- !app_assoc. reflexivity. }
  match goal with |- context [classify ?x ?y] =>
    destruct (classify x y) as [c|e] end.
  2:{ do 3 eexists. split; [reflexivity|].
      rewrite E4, E3, E2, <- !app_assoc. reflexivity. }
  do 3 eexists. split; [reflexivity|].
  unfold ret. cbn [fst]. rewrite E4, E3, E2, <- !app_assoc. reflexivity.
Qed.

(** C1. When the decoded validation result has [is_prescription] false or
    a confidence strictly below the threshold, [analyze_prescription]
    returns at once the fixed rejection: empty extraction with confidence
    0, an audit with no ambiguities, the single flag of the gate and
    [is_safe_to_display] false, an empty [raw_ocr] and no
    [ambiguity_state]; no further request is posted. When
    [is_prescription] is true and the confidence reaches the threshold,
    the OCR request is the next one posted. *)
Theorem gate_decides image image_data w w1 text d :
  prepare_image_for_api image = Ok image_data ->
  call (get_step_prompt "validation") validation_query (Some image_data) w = (w1, Ok text) ->
  decode validation_fallback text = JDict d ->
  ((dict_get "is_prescription" d = Some (JBool false) \/
    (exists c, dict_get "confidence" d = Some c /\ lt_threshold c = Ok true)) ->
   exists res,
     analyze image w = (w1, Ok res) /\
     res = JDict [ ("validation", JDict d);
                   ("extraction", JDict [ ("medicines", JList []);
                                          ("overall_confidence", JInt 0) ]);
                   ("audit", JDict [ ("ambiguities", JList []);
                                     ("safety_flags",
                                      JList [JStr "Image rejected by safety gate."]);
                                     ("is_safe_to_display", JBool false) ]);
                   ("raw_ocr", JStr EmptyString) ] /\
     getitem_str res "ambiguity_state" = Raise KeyError)
  /\
  (dict_get "is_prescription" d = Some (JBool true) ->
   (exists c, dict_get "confidence" d = Some c /\ ge_threshold c = Ok true) ->
   exists w2 r rest,
     analyze image w = (w2, r) /\
     sent w2 = (sent w1
                ++ stage_payload (get_step_prompt "ocr") ocr_query (Some image_data)
                :: rest)%list).
Proof.
  intros Hprep Hcall Hdec. split.
  - intros Hcond.
    assert (Hgate : gate_blocks (decode validation_fallback text) = Ok true).
    { rewrite Hdec. unfold gate_blocks. cbn [py_get rbind].
      destruct Hcond as [Hisp | (c & Hc & Hlt)].
      - rewrite Hisp. reflexivity.
      - destruct (negb (truthy _)); [reflexivity|].
        rewrite Hc. exact Hlt. }
    eexists. split.
    + apply analyze_blocked with (image_data := image_data) (text := text);
        assumption.
    + rewrite Hdec. split; reflexivity.
  - intros Hisp (c & Hc & Hge).
    apply analyze_passed with (text := text); auto.
    rewrite Hdec. unfold gate_blocks. cbn [py_get rbind].
    rewrite Hisp, Hc. cbn [truthy negb].
    now apply ge_not_lt_threshold.
Qed.

(** A run that passes the gate and whose later stages answer. *)
Lemma analyze_completed image image_data w w1 t1 w2 raw_ocr w3 t3 w4 t4 audit' c :
  prepare_image_for_api image = Ok image_data ->
  call (get_step_prompt "validation") validation_query (Some image_data) w = (w1, Ok t1) ->
  gate_blocks (decode validation_fallback t1) = Ok false ->
  call (get_step_prompt "ocr") ocr_query (Some image_data) w1 = (w2, Ok raw_ocr) ->
  call (get_step_prompt "normalize") (normalize_query raw_ocr) None w2 = (w3, Ok t3) ->
  call (get_step_prompt "audit")
       (audit_query json_dumps raw_ocr (decode extraction_fallback t3)) None w3
    = (w4, Ok t4) ->
  setitem_str (decode audit_fallback t4) "validation" (decode validation_fallback t1)
    = Ok audit' ->
  classify (decode extraction_fallback t3) audit' = Ok c ->
  analyze image w
  = (w4, Ok (JDict [ ("validation", decode validation_fallback t1);
                     ("extraction", decode extraction_fallback t3);
                     ("audit", snd c);
                     ("raw_ocr", JStr raw_ocr);
                     ("ambiguity_state", JStr (fst c)) ])).
Proof.
  intros Hprep H1 Hgate H2 H3 H4 Hset Hcl.
  unfold analyze, analyze_prescription, bind, lift.
  rewrite Hprep. fold call. rewrite H1. fold decode. rewrite Hgate, H2, H3, H4.
  rewrite Hset, Hcl. reflexivity.
Qed.

(** C10. In a run that passes the gate, an extraction object decoded
    without an [overall_confidence] field is classified with confidence
    1.0: the state is CLEAR, whatever ambiguities the audit object
    reports. *)
Theorem missing_confidence_is_clear
    image image_data w w1 t1 w2 raw_ocr w3 t3 ed w4 t4 ad :
  prepare_image_for_api image = Ok image_data ->
  call (get_step_prompt "validation") validation_query (Some image_data) w = (w1, Ok t1) ->
  gate_blocks (decode validation_fallback t1) = Ok false ->
  call (get_step_prompt "ocr") ocr_query (Some image_data) w1 = (w2, Ok raw_ocr) ->
  call (get_step_prompt "normalize") (normalize_query raw_ocr) None w2 = (w3, Ok t3) ->
  json_loads (clean_json_response t3) = Ok (JDict ed) ->
  dict_get "overall_confidence" ed = None ->
  call (get_step_prompt "audit") (audit_query json_dumps raw_ocr (JDict ed)) None w3
    = (w4, Ok t4) ->
  decode audit_fallback t4 = JDict ad ->
  exists res,
    analyze image w = (w4, Ok res) /\
    getitem_str res "extraction" = Ok (JDict ed) /\
    getitem_str res "ambiguity_state" = Ok (JStr "CLEAR") /\
    py_get (JDict ed) "overall_confidence" (JFloat 1) = Ok (JFloat 1).
Proof.
  intros Hprep H1 Hgate H2 H3 Hload Hmiss H4 Haudit.
  assert (Hext : decode extraction_fallback t3 = JDict ed).
  { unfold decode, decode_or. now rewrite Hload. }
  assert (Hcl : classify (JDict ed)
                  (JDict (dict_set "validation" (decode validation_fallback t1) ad))
                = Ok ("CLEAR",
                      JDict (dict_set "validation" (decode validation_fallback t1) ad))).
  { unfold classify. cbn [py_get rbind]. rewrite Hmiss. reflexivity. }
  eexists. split.
  - eapply analyze_completed; eauto.
    + rewrite Hext. exact H4.
    + rewrite Haudit. reflexivity.
    + rewrite Hext. exact Hcl.
  - cbn [fst snd]. rewrite Hext. repeat split.
    cbn [py_get]. now rewrite Hmiss.
Qed.

End Pipeline.

(** ** The streaming client *)

Section Client.

Variable json_loads : string -> result json.

Let take := stream_take json_loads.

(** Any status but 200 ends the first [next] with the error, before any
    item. *)
Lemma stream_refused messages params w r rest n :
  pending w = Responds r :: rest ->
  status_code r <> 200 ->
  take (S n) (StreamCreated messages params) w
  = (print (api_error_msg r)
       {| pending := rest;
          sent := sent w ++ [make_payload messages params];
          printed := printed w |},
     ([], Raised (ValueError (api_error_msg r)), StreamClosed)).
Proof.
  intros Hp Hs. unfold take. cbn [stream_take stream_next].
  unfold stream_open, requests_post. rewrite Hp.
  apply Z.eqb_neq in Hs. rewrite Hs. reflexivity.
Qed.

(** A finished generator stays finished. *)
Lemma stream_closed_stays w n :
  take (S n) StreamClosed w = (w, ([], Exhausted, StreamClosed)).
Proof. reflexivity. Qed.

(** C8. A response with a non-success status ends the call with the
    error that carries the status code and the body, [ValueError] with
    the message [API Error <status>: <body>], and no fragment is yielded
    before it. *)
Theorem non_success_raises messages params w r rest n :
  pending w = Responds r :: rest ->
  is_success (status_code r) = false ->
  exists w',
    take (S n) (StreamCreated messages params) w
    = (w', ([], Raised (ValueError ("API Error " ++ str_of_int (status_code r)
                                      ++ ": " ++ text r)), StreamClosed)) /\
    forall m, take (S m) StreamClosed w' = (w', ([], Exhausted, StreamClosed)).
Proof.
  intros Hp Hs. eexists. split.
  - apply stream_refused with (rest := rest); [exact Hp|].
    intros E. rewrite E in Hs. discriminate.
  - intros m. apply stream_closed_stays.
Qed.

(** Driving the generator until it ends is the loop [drain_lines]. *)
Lemma drain_is_iteration lines : forall n w acc,
  (List.length lines < n)%nat ->
  exists items o g,
    take n (StreamReading lines) w = (w, (items, o, g)) /\
    o <> Suspended /\
    drain_lines json_loads lines acc = accumulate items o acc.
Proof.
  unfold take.
  induction lines as [|line rest IH]; intros n w acc Hn.
  - destruct n; [inversion Hn|]. exists [], Exhausted, StreamClosed.
    repeat split. discriminate.
  - destruct n; [inversion Hn|]. simpl in Hn.
    cbn [stream_take stream_next sse_next drain_lines].
    destruct (sse_line json_loads line) as [| |content|e] eqn:El.
    + destruct (IH (S n) w acc ltac:(lia)) as (items & o & g & Ht & Ho & Hd).
      cbn [stream_take stream_next] in Ht.
      exists items, o, g. auto.
    + exists [], Exhausted, StreamClosed. repeat split. discriminate.
    + cbn [after_next].
      destruct (str_iadd acc content) as [acc'|e] eqn:Ea.
      * destruct (IH n w acc' ltac:(lia)) as (items & o & g & Ht & Ho & Hd).
        rewrite Ht. exists (content :: items), o, g.
        repeat split; auto. cbn [accumulate]. now rewrite Ea.
      * destruct (IH n w acc ltac:(lia)) as (items & o & g & Ht & Ho & _).
        rewrite Ht. exists (content :: items), o, g.
        repeat split; auto. cbn [accumulate]. now rewrite Ea.
    + exists [], (Raised e), StreamClosed. repeat split. discriminate.
Qed.

Lemma extract_content_shape (chunk : json) :
  match extract_content chunk with
  | Ok (JStr c) => content_of chunk = Some c
  | Ok _ => content_of chunk = None
  | Raise _ => content_of chunk = None
  end.
Proof.
  unfold extract_content, content_of.
  destruct chunk as [| | | | | |d]; try reflexivity.
  cbn [getitem_str rbind].
  destruct (dict_get "choices" d) as [choices|]; [|reflexivity].
  cbn [rbind].
  destruct choices as [| | | |s|l|d0]; try reflexivity.
  - cbn [getitem_0]. destruct (utf8_chars s); reflexivity.
  - destruct l as [|first l]; [reflexivity|]. cbn [getitem_0 rbind].
    destruct first as [| | | | | |f]; try reflexivity.
    cbn [getitem_str]. destruct (dict_get "delta" f) as [delta|]; [|reflexivity].
    cbn [rbind]. destruct delta as [| | | | | |dl]; try reflexivity.
    cbn [py_get]. destruct (dict_get "content" dl) as [c|]; [|reflexivity].
    destruct c; reflexivity.
Qed.

(** What the loop does with a benign line is what the design says of it. *)
Lemma benign_line (line : string) :
  benign json_loads line = true ->
  (is_done line = true /\ sse_line json_loads line = Break) \/
  (is_done line = false /\
   ((sse_line json_loads line = Skip /\ event_content json_loads line = EmptyString) \/
    (sse_line json_loads line = Emit (JStr (event_content json_loads line))))).
Proof.
  unfold benign, sse_line, is_done, event_content, is_data_line, decode_utf8.
  destruct (String.eqb line EmptyString) eqn:Eempty.
  { apply String.eqb_eq in Eempty. subst line. intros _. right. auto. }
  destruct (utf8_valid line); [|discriminate].
  destruct (startswith "data: " line); cbn [negb andb]; [|intros _; right; auto].
  destruct (String.eqb (strip (drop 6 line)) "[DONE]"); [intros _; left; auto|].
  destruct (json_loads (drop 6 line)) as [chunk|e]; cbn [rbind].
  - pose proof (extract_content_shape chunk) as Hshape.
    destruct (extract_content chunk) as [content|e].
    + destruct content as [|b|n|f|c|l|d]; cbn [truthy];
        try (rewrite Hshape; clear Hshape;
             repeat match goal with
                    | |- context [if ?b then _ else _] => destruct b
                    | |- context [match ?x with [] => _ | _ :: _ => _ end] => destruct x
                    end;
             first [discriminate | intros _; right; auto]; fail).
      rewrite Hshape. destruct (negb (String.eqb c EmptyString)) eqn:Ec.
      * intros _. right. auto.
      * intros _. right. split; [reflexivity|]. left. split; [reflexivity|].
        apply negb_false_iff, String.eqb_eq in Ec. exact Ec.
    + rewrite Hshape. destruct (handled e); [|discriminate].
      intros _. right. auto.
  - destruct (handled e); [|discriminate]. intros _. right. auto.
Qed.

Lemma done_breaks (line : string) :
  is_done line = true -> sse_line json_loads line = Break.
Proof.
  unfold is_done, sse_line, is_data_line, decode_utf8.
  destruct (String.eqb line EmptyString) eqn:Ee.
  { apply String.eqb_eq in Ee. subst line. discriminate. }
  destruct (utf8_valid line); [|discriminate].
  destruct (startswith "data: " line); [|discriminate].
  cbn [negb andb]. now intros ->.
Qed.

(** Where the loop does what the design says: when every line up to the
    first end-of-stream event is benign, it accumulates exactly the contents
    of the well-formed events, in order. *)
Lemma benign_stream_concatenates (lines : list string) : forall acc,
  forallb (benign json_loads) (before_done lines) = true ->
  drain_lines json_loads lines acc = Ok (acc ++ wire_content json_loads lines).
Proof.
  induction lines as [|line rest IH]; intros acc Hb.
  - cbn [drain_lines wire_content]. now rewrite string_app_nil.
  - cbn [drain_lines wire_content before_done] in *.
    destruct (is_done line) eqn:Ed.
    + rewrite (done_breaks _ Ed). now rewrite string_app_nil.
    + cbn [forallb] in Hb. apply andb_true_iff in Hb as [Hline Hrest].
      destruct (benign_line line Hline) as [[Hd _] | [_ [[-> Hc] | ->]]].
      * congruence.
      * rewrite Hc. cbn [String.append]. now apply IH.
      * cbn [str_iadd]. rewrite IH by exact Hrest. now rewrite string_app_assoc.
Qed.

(** C5, where the code departs from it. A data event whose payload is
    the JSON text [null] is valid JSON without the expected path. The
    subscript [chunk["choices"]] raises [TypeError], which the handler of
    the loop does not list: the stream ends with that error, and the
    content of every later event is lost. *)
Theorem null_event_aborts (later : list string) messages params w text rest n :
  json_loads "null" = Ok JNull ->
  pending w = Responds {| status_code := 200; text := text;
                          iter_lines := "data: null" :: later |} :: rest ->
  exists w',
    take (S n) (StreamCreated messages params) w
    = (w', ([], Raised TypeError, StreamClosed)).
Proof.
  intros Hnull Hp. unfold take. cbn [stream_take stream_next].
  unfold stream_open, requests_post. rewrite Hp.
  cbn [status_code iter_lines Z.eqb Pos.eqb negb sse_next].
  assert (Hl : sse_line json_loads "data: null" = Abort TypeError).
  { unfold sse_line. vm_compute String.eqb. cbv iota.
    vm_compute decode_utf8. cbv iota.
    vm_compute startswith. cbn [negb]. cbv iota.
    vm_compute drop. vm_compute strip. vm_compute String.eqb. cbv iota.
    rewrite Hnull. reflexivity. }
  rewrite Hl. eexists. reflexivity.
Qed.

End Client.

(** ** The conversation streamer *)

Lemma join_snoc (l : list string) (x : string) :
  join (l ++ [x])%list = join l ++ x.
Proof.
  unfold join. induction l as [|y l IH]; cbn [app fold_right].
  - apply string_app_nil.
  - now rewrite IH, string_app_assoc.
Qed.

Section Chat.

Variable json_loads : string -> result json.
Variable json_dumps : json -> string.
Variable Image : Type.
Variable prepare_image_for_api : Image -> result string.
Variable DB : Type.
Variable save_chat_message : string -> string -> string -> DB -> result DB.
Variable prescription_id : option string.

Let next := chat_next json_loads json_dumps Image prepare_image_for_api
              DB save_chat_message prescription_id.
Let taken := chat_take json_loads json_dumps Image prepare_image_for_api
               DB save_chat_message prescription_id.
Let save := save_turn DB save_chat_message prescription_id.
Let system_of := combined_system json_dumps Image.
Let messages_of := chat_messages json_dumps Image.

Lemma save_keeps role text (s s1 : session DB) r :
  save role text s = (s1, r) ->
  memory s1 = memory s /\ net s1 = net s.
Proof.
  unfold save, save_turn. destruct prescription_id as [pid|].
  - destruct (String.eqb pid EmptyString).
    + intros [= <- _]. auto.
    + destruct (save_chat_message pid role text (db s)); intros [= <- _]; auto.
  - intros [= <- _]. auto.
Qed.

(** The first [next] posts one payload, built from the history as it was
    before the call. *)
Lemma first_next_posts (a : chat_args Image) (s s1 : session DB) image_data :
  passable (model_params a) = true ->
  prepare_image_for_api (image a) = Ok image_data ->
  save "user" (user_query a) (add_user_message (user_query a) s)
    = (s1, Ok tt) ->
  exists s' r,
    next a ChatCreated s = (s', r) /\
    sent (net s')
    = (sent (net s)
       ++ [make_payload (messages_of a (memory s) image_data)
             (model_params a)])%list.
Proof.
  intros Hpass Hprep Hsave. unfold next, chat_next. rewrite Hprep.
  fold save. rewrite Hsave, Hpass.
  destruct (save_keeps _ _ _ _ _ Hsave) as [_ Hnet]. cbn [net add_user_message with_memory] in Hnet.
  unfold pump. cbn [stream_next].
  destruct (stream_open _ _ (net s1)) as [w1 [lines|e]] eqn:Eo.
  - apply stream_open_sent in Eo. rewrite Hnet in Eo.
    destruct (after_next (sse_next json_loads lines)) as [[c| |e] g1].
    + destruct c; eexists; eexists; (split; [reflexivity | exact Eo]).
    + eexists; eexists; (split; [reflexivity | exact Eo]).
    + eexists; eexists; (split; [reflexivity | exact Eo]).
  - apply stream_open_sent in Eo. rewrite Hnet in Eo.
    eexists; eexists; (split; [reflexivity | exact Eo]).
Qed.

Lemma system_text_posted (a : chat_args Image) history image_data params :
  system_text (make_payload (messages_of a history image_data) params)
  = Some (system_of a).
Proof. reflexivity. Qed.

Lemma directive_in_rule : contains SAFETY_DIRECTIVE SAFETY_RULE = true.
Proof. vm_compute. reflexivity. Qed.

Lemma phrase_in_directive :
  contains "Do NOT infer or suggest medicine names" SAFETY_DIRECTIVE = true.
Proof. vm_compute. reflexivity. Qed.

Lemma rule_in_system (a : chat_args Image) :
  ambiguity_state a = "UNRESOLVABLE" ->
  contains SAFETY_RULE (system_of a) = true.
Proof.
  intros Hst. unfold system_of, combined_system, system_prompt.
  rewrite Hst. simpl String.eqb. cbv iota.
  rewrite string_app_assoc. apply contains_app.
Qed.

(** Whatever the first [next] meets, it posts nothing, or the one payload
    built from the history as it was before the call. *)
Lemma first_next_posts_at_most (a : chat_args Image) (s s' : session DB) r :
  next a ChatCreated s = (s', r) ->
  sent (net s') = sent (net s) \/
  exists image_data,
    sent (net s')
    = (sent (net s)
       ++ [make_payload (messages_of a (memory s) image_data) (model_params a)])%list.
Proof.
  destruct (prepare_image_for_api (image a)) as [image_data|e] eqn:Hprep.
  2:{ unfold next, chat_next. rewrite Hprep. intros [= <- _]. left. reflexivity. }
  destruct (save "user" (user_query a) (add_user_message (user_query a) s))
    as [s1 [[]|e]] eqn:Hsave.
  2:{ unfold next, chat_next. rewrite Hprep. fold save. rewrite Hsave.
      intros [= <- _]. apply save_keeps in Hsave as [_ Hnet]. left. now rewrite Hnet. }
  destruct (passable (model_params a)) eqn:Hpass.
  - destruct (first_next_posts a s s1 image_data Hpass Hprep Hsave) as (s2 & r2 & Hn & Hs).
    intros H. rewrite Hn in H. injection H as <- _. right. exists image_data. exact Hs.
  - unfold next, chat_next. rewrite Hprep. fold save. rewrite Hsave, Hpass.
    intros [= <- _]. apply save_keeps in Hsave as [_ Hnet]. left. now rewrite Hnet.
Qed.

(** C2. With [ambiguity_state] UNRESOLVABLE, whatever the mode and whatever
    else the call is given, a system message that goes out contains the
    safety directive in full, word for word, and with it the phrase
    [Do NOT infer or suggest medicine names]: the call posts nothing at all,
    or one payload whose system message contains them. And a payload does go
    out once the call gets as far as the request, that is, when the image is
    prepared, the user's message is stored and [stream] takes the keyword
    parameters. *)
Theorem unresolvable_injects_directive (a : chat_args Image) (s : session DB) :
  ambiguity_state a = "UNRESOLVABLE" ->
  (forall s' r,
      next a ChatCreated s = (s', r) ->
      sent (net s') = sent (net s) \/
      exists payload sys,
        sent (net s') = (sent (net s) ++ [payload])%list /\
        system_text payload = Some sys /\
        contains "The current prescription handwriting is UNRESOLVABLE. Do NOT infer or suggest medicine names unless the user explicitly provides them in this chat. Avoid all guesses." sys = true /\
        contains "Do NOT infer or suggest medicine names" sys = true) /\
  (forall s1 image_data,
      passable (model_params a) = true ->
      prepare_image_for_api (image a) = Ok image_data ->
      save "user" (user_query a) (add_user_message (user_query a) s) = (s1, Ok tt) ->
      exists s' r payload sys,
        next a ChatCreated s = (s', r) /\
        sent (net s') = (sent (net s) ++ [payload])%list /\
        system_text payload = Some sys /\
        contains "The current prescription handwriting is UNRESOLVABLE. Do NOT infer or suggest medicine names unless the user explicitly provides them in this chat. Avoid all guesses." sys = true /\
        contains "Do NOT infer or suggest medicine names" sys = true).
Proof.
  intros Hst.
  assert (Hd : contains SAFETY_DIRECTIVE (system_of a) = true).
  { eapply contains_trans; [apply directive_in_rule | now apply rule_in_system]. }
  assert (Hp : contains "Do NOT infer or suggest medicine names" (system_of a) = true).
  { eapply contains_trans; [apply phrase_in_directive | exact Hd]. }
  split.
  - intros s' r Hn. apply first_next_posts_at_most in Hn as [Hn | [image_data Hn]].
    + left. exact Hn.
    + right. eexists. exists (system_of a).
      split; [exact Hn|]. split; [apply system_text_posted|]. split; [exact Hd | exact Hp].
  - intros s1 image_data Hpass Hprep Hsave.
    destruct (first_next_posts a s s1 image_data Hpass Hprep Hsave) as (s' & r & Hn & Hs).
    exists s', r. eexists. exists (system_of a).
    split; [exact Hn|]. split; [exact Hs|]. split; [apply system_text_posted|].
    split; [exact Hd | exact Hp].
Qed.

Lemma unknown_mode_default (m : string) :
  m <> "Explain Prescription" -> m <> "Create Schedule" ->
  get_mode_prompt m = DEFAULT_MODE_PROMPT.
Proof.
  intros H1 H2. unfold get_mode_prompt, MODE_PROMPTS, lookup.
  apply String.eqb_neq in H1, H2. now rewrite H1, H2.
Qed.

(** C6, as the code has it. A mode outside [MODE_PROMPTS] raises nothing:
    [get_mode_prompt] answers with the default instruction
    [You are a helpful medical assistant.], and a call that gets as far as
    the request (the image is prepared, the user's message is stored, and
    [stream] takes the keyword parameters) posts a payload whose system
    message begins with it. *)
Theorem unknown_mode_defaults
    (a : chat_args Image) (s s1 : session DB) image_data :
  mode a <> "Explain Prescription" ->
  mode a <> "Create Schedule" ->
  passable (model_params a) = true ->
  prepare_image_for_api (image a) = Ok image_data ->
  save "user" (user_query a) (add_user_message (user_query a) s) = (s1, Ok tt) ->
  get_mode_prompt (mode a) = "You are a helpful medical assistant." /\
  exists s' r payload sys,
    next a ChatCreated s = (s', r) /\
    sent (net s') = (sent (net s) ++ [payload])%list /\
    system_text payload = Some sys /\
    startswith "You are a helpful medical assistant." sys = true.
Proof.
  intros H1 H2 Hpass Hprep Hsave.
  pose proof (unknown_mode_default _ H1 H2) as Hdef.
  split; [exact Hdef|].
  destruct (first_next_posts a s s1 image_data Hpass Hprep Hsave) as (s' & r & Hn & Hs).
  exists s', r. eexists. exists (system_of a).
  split; [exact Hn|]. split; [exact Hs|]. split; [apply system_text_posted|].
  unfold system_of, combined_system, system_prompt. rewrite Hdef.
  destruct (String.eqb (ambiguity_state a) "UNRESOLVABLE").
  - rewrite string_app_assoc. apply startswith_app.
  - apply startswith_app.
Qed.

(** The first [next] runs the body up to the loop; from there on the
    generator behaves as one suspended in the loop with nothing read, unless
    the call of [stream] is refused. *)
Lemma created_unfolds (a : chat_args Image) n (s : session DB) :
  taken a (S n) ChatCreated s
  = match prepare_image_for_api (image a) with
    | Raise e => (s, ([], Raised e, ChatClosed))
    | Ok image_data =>
        match save "user" (user_query a) (add_user_message (user_query a) s) with
        | (s0, Raise e) => (s0, ([], Raised e, ChatClosed))
        | (s0, Ok _) =>
            if passable (model_params a)
            then taken a (S n)
                   (ChatStreaming
                      (StreamCreated (messages_of a (memory s) image_data) (model_params a))
                      EmptyString) s0
            else (s0, ([], Raised TypeError, ChatClosed))
        end
    end.
Proof.
  unfold taken, save. cbn [chat_take chat_next].
  destruct (prepare_image_for_api (image a)) as [image_data|e]; [|reflexivity].
  destruct (save_turn _ _ _ _ _ _) as [s0 [[]|e]]; [|reflexivity].
  destruct (passable (model_params a)); reflexivity.
Qed.

Lemma stream_next_stop g w w1 g1 :
  stream_next json_loads g w = (w1, (Stop, g1)) -> g1 = StreamClosed.
Proof.
  destruct g as [messages params|lines|]; cbn [stream_next].
  - destruct (stream_open messages params w) as [w2 [lines|e]].
    + destruct (sse_next json_loads lines) as [[c| |e] rest];
        cbn [after_next]; congruence.
    + congruence.
  - destruct (sse_next json_loads lines) as [[c| |e] rest];
      cbn [after_next]; congruence.
  - congruence.
Qed.

(** While the model's fragments are being passed on: a run that reaches
    the end has passed on every item of the model's stream, each a
    string, and then the disclaimer. *)
Lemma streaming_completes (a : chat_args Image) : forall n inner full s s' frags g,
  taken a n (ChatStreaming inner full) s = (s', (frags, Exhausted, g)) ->
  exists chunks,
    frags = (chunks ++ [GLOBAL_DISCLAIMER])%list /\
    memory s' = (memory s ++ [AIMessage (full ++ join chunks ++ GLOBAL_DISCLAIMER)])%list /\
    g = ChatClosed /\
    stream_take json_loads (S (List.length chunks)) inner (net s)
    = (net s', (map JStr chunks, Exhausted, StreamClosed)).
Proof.
  unfold taken.
  induction n as [|n IH]; intros inner full s s' frags g H.
  - discriminate.
  - cbn [chat_take chat_next] in H. unfold pump in H.
    destruct (stream_next json_loads inner (net s)) as [w1 [[chunk| |e] inner1]] eqn:En.
    + destruct chunk as [| | | |c| |]; try discriminate.
      destruct (chat_take _ _ _ _ _ _ _ a n (ChatStreaming inner1 (full ++ c))
                  (with_net DB s w1)) as [s2 [[cs o] g2]] eqn:E.
      injection H as <- <- -> <-.
      apply IH in E as (chunks & -> & Hm & -> & Ht).
      exists (c :: chunks). repeat split.
      * rewrite Hm. cbn [memory with_net join fold_right].
        now rewrite !string_app_assoc.
      * cbn [List.length]. change (stream_take json_loads (S (S (List.length chunks))) inner (net s))
          with (match stream_next json_loads inner (net s) with
                | (w1, (Yield c, g1)) =>
                    match stream_take json_loads (S (List.length chunks)) g1 w1 with
                    | (w2, (cs, o, g2)) => (w2, (c :: cs, o, g2))
                    end
                | (w1, (Stop, g1)) => (w1, ([], Exhausted, g1))
                | (w1, (Throw e, g1)) => (w1, ([], Raised e, g1))
                end).
        rewrite En. cbn [net with_net] in Ht. rewrite Ht. reflexivity.
    + destruct n as [|n]; [discriminate|].
      cbn [chat_take chat_next] in H. fold save in H.
      destruct (save "assistant" (full ++ GLOBAL_DISCLAIMER)
                  (add_ai_message (full ++ GLOBAL_DISCLAIMER) (with_net DB s w1)))
        as [s1 [[]|e]] eqn:Es; [|discriminate].
      injection H as <- <- <-.
      apply save_keeps in Es as [Hm Hnet].
      exists []. repeat split.
      * rewrite Hm. reflexivity.
      * cbn [List.length map stream_take]. rewrite En.
        rewrite (stream_next_stop _ _ _ _ En), Hnet. reflexivity.
    + discriminate.
Qed.

Lemma sse_next_shorter (lines : list string) c rest :
  sse_next json_loads lines = (Yield c, rest) ->
  (List.length rest < List.length lines)%nat.
Proof.
  induction lines as [|line lines IH]; cbn [sse_next]; [discriminate|].
  destruct (sse_line json_loads line).
  - intros H. apply IH in H. simpl. lia.
  - discriminate.
  - intros [= _ <-]. simpl. lia.
  - discriminate.
Qed.

Lemma stream_next_fuel g w w1 c g1 :
  stream_next json_loads g w = (w1, (Yield c, g1)) ->
  (stream_fuel g1 w1 < stream_fuel g w)%nat.
Proof.
  destruct g as [messages params|lines|]; cbn [stream_next stream_fuel].
  - unfold stream_open, requests_post, lines_ahead.
    destruct (pending w) as [|[r|e] rest]; try discriminate.
    destruct (negb (status_code r =? 200)); [discriminate|].
    destruct (sse_next json_loads (iter_lines r)) as [[c0| |e] rest0] eqn:En;
      cbn [after_next]; try discriminate.
    intros [= _ _ <-]. cbn [stream_fuel]. exact (sse_next_shorter _ _ _ En).
  - destruct (sse_next json_loads lines) as [[c0| |e] rest0] eqn:En;
      cbn [after_next]; try discriminate.
    intros [= _ _ <-]. cbn [stream_fuel]. exact (sse_next_shorter _ _ _ En).
  - discriminate.
Qed.

(** A caller that keeps asking sees every turn end: the generator returns
    or raises within [chat_fuel] calls. *)
Lemma started_turn_ends (a : chat_args Image) : forall n g s,
  g <> ChatCreated ->
  (chat_fuel g s <= n)%nat ->
  outcome_of (taken a n g s) <> Suspended.
Proof.
  unfold taken, outcome_of.
  induction n as [|n IH]; intros g s Hg Hn.
  - destruct g; cbn [chat_fuel] in Hn; try contradiction; lia.
  - cbn [chat_take].
    destruct g as [|inner full|full|]; [contradiction| | |].
    + cbn [chat_next]. unfold pump.
      destruct (stream_next json_loads inner (net s)) as [w1 [[chunk| |e] inner1]] eqn:En.
      * apply stream_next_fuel in En.
        destruct chunk as [| | | |c| |]; try discriminate.
        specialize (IH (ChatStreaming inner1 (full ++ c)) (with_net DB s w1)).
        destruct (chat_take _ _ _ _ _ _ _ a n _ _) as [s2 [[cs o] g2]].
        cbn [snd fst] in *. apply IH; [discriminate|].
        cbn [chat_fuel net with_net] in *. lia.
      * specialize (IH (ChatDisclaimer full) (with_net DB s w1)).
        destruct (chat_take _ _ _ _ _ _ _ a n _ _) as [s2 [[cs o] g2]].
        cbn [snd fst] in *. apply IH; [discriminate|].
        cbn [chat_fuel] in *. lia.
      * discriminate.
    + cbn [chat_next]. destruct (save_turn _ _ _ _ _ _) as [s1 [[]|e]]; discriminate.
    + discriminate.
Qed.

Lemma turn_ends (a : chat_args Image) n (s : session DB) :
  (3 + lines_ahead (net s) <= n)%nat ->
  outcome_of (taken a n ChatCreated s) <> Suspended.
Proof.
  intros Hn. destruct n as [|n]; [lia|].
  rewrite created_unfolds.
  destruct (prepare_image_for_api (image a)) as [image_data|e]; [|discriminate].
  destruct (save "user" (user_query a) (add_user_message (user_query a) s))
    as [s0 [[]|e]] eqn:Es; [|discriminate].
  destruct (passable (model_params a)); [|discriminate].
  apply save_keeps in Es as [_ Hnet]. cbn [net add_user_message with_memory] in Hnet.
  apply started_turn_ends; [discriminate|].
  cbn [chat_fuel stream_fuel]. rewrite Hnet. exact Hn.
Qed.

(** C7. A turn ends when the caller keeps asking: within three calls more
    than the response has lines, the generator has returned or raised. When
    it returns, that is, when the turn completes, the fragments are the
    model's fragments followed by one last item, the disclaimer, and the
    history has grown by exactly two messages: the user's text, then the
    whole reply with the disclaimer, however many fragments there were. *)
Theorem completed_turn (a : chat_args Image) (s : session DB) :
  (forall n, (3 + lines_ahead (net s) <= n)%nat ->
             outcome_of (taken a n ChatCreated s) <> Suspended) /\
  (forall n s' frags g,
      taken a n ChatCreated s = (s', (frags, Exhausted, g)) ->
      exists chunks image_data,
        frags = (chunks ++ [GLOBAL_DISCLAIMER])%list /\
        memory s'
        = (memory s ++ [ HumanMessage (user_query a);
                         AIMessage (join chunks ++ GLOBAL_DISCLAIMER) ])%list /\
        g = ChatClosed /\
        prepare_image_for_api (image a) = Ok image_data /\
        stream_take json_loads (S (List.length chunks))
          (StreamCreated (messages_of a (memory s) image_data) (model_params a)) (net s)
        = (net s', (map JStr chunks, Exhausted, StreamClosed))).
Proof.
  split; [intros n; apply turn_ends|].
  intros n s' frags g H. destruct n as [|n]; [discriminate|].
  rewrite created_unfolds in H.
  destruct (prepare_image_for_api (image a)) as [image_data|e]; [|discriminate].
  destruct (save "user" (user_query a) (add_user_message (user_query a) s))
    as [s0 [[]|e]] eqn:Es; [|discriminate].
  destruct (passable (model_params a)); [|discriminate].
  apply save_keeps in Es as [Hm Hnet].
  cbn [memory net add_user_message with_memory] in Hm, Hnet.
  apply (streaming_completes a) in H as (chunks & -> & Hm2 & -> & Ht).
  exists chunks, image_data. repeat split.
  - rewrite Hm2, Hm, <- app_assoc. reflexivity.
  - rewrite Hnet in Ht. exact Ht.
Qed.

(** Once the body has started, a run the caller left suspended has
    touched neither the history nor the chat store. *)
Lemma suspended_keeps (a : chat_args Image) : forall n g s s' frags g',
  g <> ChatCreated ->
  taken a n g s = (s', (frags, Suspended, g')) ->
  memory s' = memory s /\ db s' = db s /\ List.length frags = n.
Proof.
  unfold taken.
  induction n as [|n IH]; intros g s s' frags g' Hg H.
  - injection H as <- <- <-. auto.
  - cbn [chat_take] in H.
    destruct g as [|inner full|full|]; [contradiction| | |discriminate].
    + cbn [chat_next] in H. unfold pump in H.
      destruct (stream_next json_loads inner (net s)) as [w1 [[chunk| |e] inner1]].
      * destruct chunk as [| | | |c| |]; try discriminate.
        destruct (chat_take _ _ _ _ _ _ _ a n _ _) as [s2 [[cs o] g2]] eqn:E.
        injection H as <- <- -> <-.
        apply IH in E as (Hm & Hd & Hl); [|discriminate].
        cbn [List.length]. rewrite Hl. auto.
      * destruct (chat_take _ _ _ _ _ _ _ a n _ _) as [s2 [[cs o] g2]] eqn:E.
        injection H as <- <- -> <-.
        apply IH in E as (Hm & Hd & Hl); [|discriminate].
        cbn [List.length]. rewrite Hl. auto.
      * discriminate.
    + cbn [chat_next] in H.
      destruct (save_turn _ _ _ _ _ _) as [s1 [[]|e]]; discriminate.
Qed.

(** C9, as the code has it. A caller that leaves the generator before
    its end has received as many fragments as it asked for; closing the
    generator yields nothing more and changes nothing more. The history
    then holds the user's message of that turn, appended when the body
    started, and no reply; it is untouched only when the caller never
    asked for a fragment. *)
Theorem abandoned_turn (a : chat_args Image) n (s s' : session DB) frags g :
  taken a n ChatCreated s = (s', (frags, Suspended, g)) ->
  List.length frags = n /\
  (n = 0%nat -> s' = s) /\
  ((0 < n)%nat -> memory s' = (memory s ++ [HumanMessage (user_query a)])%list) /\
  (forall m, taken a (S m) (chat_close g) s' = (s', ([], Exhausted, ChatClosed))).
Proof.
  intros H. split; [|split; [|split]].
  - destruct n as [|n].
    + injection H as <- <- <-. reflexivity.
    + rewrite created_unfolds in H.
      destruct (prepare_image_for_api (image a)) as [image_data|e]; [|discriminate].
      destruct (save "user" (user_query a) (add_user_message (user_query a) s))
        as [s0 [[]|e]] eqn:Es; [|discriminate].
      destruct (passable (model_params a)); [|discriminate].
      apply (suspended_keeps a) in H as (_ & _ & Hl); [exact Hl | discriminate].
  - intros ->. injection H as <- _ _. reflexivity.
  - intros Hn. destruct n as [|n]; [inversion Hn|].
    rewrite created_unfolds in H.
    destruct (prepare_image_for_api (image a)) as [image_data|e]; [|discriminate].
    destruct (save "user" (user_query a) (add_user_message (user_query a) s))
      as [s0 [[]|e]] eqn:Es; [|discriminate].
    destruct (passable (model_params a)); [|discriminate].
    apply save_keeps in Es as [Hm _].
    cbn [memory add_user_message with_memory] in Hm.
    apply (suspended_keeps a) in H as (Hm2 & _ & _); [|discriminate].
    now rewrite Hm2.
  - intros m. reflexivity.
Qed.

End Chat.

(** * Properties of the rest of the code *)

(** ** Cleaning a model answer *)

Lemma drop_empty (n : nat) : drop n EmptyString = EmptyString.
Proof. destruct n; reflexivity. Qed.

Lemma replace_aux_skip (old new : string) : forall k s,
  replace_aux old new k s = replace_aux old new O (drop k s).
Proof.
  induction k as [|k IH]; intros s.
  - reflexivity.
  - destruct s as [|c s]; [reflexivity|]. cbn [replace_aux drop]. apply IH.
Qed.

Lemma drop_app_length (p t : string) : drop (String.length p) (p ++ t) = t.
Proof. induction p as [|c p IH]; [reflexivity | exact IH]. Qed.

(** An occurrence at the front is replaced, and the scan goes on behind it. *)
Lemma replace_front (old new t : string) :
  old <> EmptyString ->
  replace old new (old ++ t) = new ++ replace old new t.
Proof.
  intros Hne. destruct old as [|c old]; [contradiction|].
  unfold replace. cbn [String.append replace_aux].
  change (String c (old ++ t)) with (String c old ++ t).
  rewrite startswith_app. f_equal.
  rewrite replace_aux_skip.
  replace (String.length (String c old) - 1)%nat with (String.length old)
    by (cbn [String.length]; lia).
  now rewrite drop_app_length.
Qed.

(** Without an occurrence at the front, the first character is kept. *)
Lemma replace_keep (old new : string) (c : ascii) (s : string) :
  startswith old (String c s) = false ->
  replace old new (String c s) = String c (replace old new s).
Proof. intros H. unfold replace. cbn [replace_aux]. now rewrite H. Qed.

Lemma replace_absent (old new s : string) :
  contains old s = false -> replace old new s = s.
Proof.
  induction s as [|c s IH]; intros H.
  - reflexivity.
  - cbn [contains] in H. apply orb_false_iff in H as [Hs Hc].
    rewrite replace_keep by exact Hs. now rewrite IH.
Qed.

Lemma startswith_fence (s : string) :
  startswith FENCE s = (3 <=? lead_ticks s)%nat.
Proof.
  unfold FENCE.
  destruct s as [|a [|b [|c s]]]; cbn [startswith lead_ticks];
    rewrite ?(Ascii.eqb_sym tick);
    repeat match goal with
           | |- context [Ascii.eqb ?x tick] => destruct (Ascii.eqb x tick)
           end;
    reflexivity.
Qed.

Lemma fence_split (s : string) :
  startswith FENCE s = true -> exists t, s = FENCE ++ t /\ lead_ticks s = (3 + lead_ticks t)%nat.
Proof.
  intros H. destruct (startswith_split _ _ H) as [t ->]. exists t. split; reflexivity.
Qed.

(** Removing fences leaves fewer than three backticks in front, and leaves
    a front of fewer than three as it was; no fence is left anywhere. *)
Lemma replace_fence_inv : forall n s,
  (String.length s <= n)%nat ->
  (lead_ticks (replace FENCE EmptyString s) <= 2)%nat /\
  ((lead_ticks s <= 2)%nat ->
   lead_ticks (replace FENCE EmptyString s) = lead_ticks s) /\
  contains FENCE (replace FENCE EmptyString s) = false.
Proof.
  induction n as [|n IH]; intros s Hn.
  - destruct s; [|simpl in Hn; lia]. repeat split; auto.
  - destruct s as [|c s']; [repeat split; auto|].
    destruct (startswith FENCE (String c s')) eqn:Hs.
    + destruct (fence_split _ Hs) as (t & Ht & Hl). rewrite Ht.
      rewrite replace_front by discriminate. cbn [String.append].
      assert (Hlen : (String.length t <= n)%nat).
      { apply (f_equal String.length) in Ht. cbn in Ht, Hn. lia. }
      destruct (IH t Hlen) as (H1 & H2 & H3).
      rewrite <- Ht. repeat split; auto. intros Hle. lia.
    + rewrite replace_keep by exact Hs.
      assert (Hlen : (String.length s' <= n)%nat) by (simpl in Hn; lia).
      destruct (IH s' Hlen) as (H1 & H2 & H3).
      rewrite startswith_fence in Hs. apply Nat.leb_gt in Hs.
      cbn [lead_ticks] in *.
      destruct (Ascii.eqb c tick) eqn:Ec.
      * assert (Hl : (lead_ticks s' <= 2)%nat) by lia.
        specialize (H2 Hl). repeat split; try lia.
        cbn [contains]. rewrite H3, orb_false_r, startswith_fence.
        cbn [lead_ticks]. rewrite Ec. apply Nat.leb_gt. lia.
      * repeat split; try lia.
        cbn [contains]. rewrite H3, orb_false_r, startswith_fence.
        cbn [lead_ticks]. now rewrite Ec.
Qed.

(** X1. Whatever the model answered, the cleaned text holds no run of three
    backticks: every fence is gone, and removing fences makes no new one. *)
Theorem clean_leaves_no_fence (text : string) :
  contains "```" (clean_json_response text) = false.
Proof.
  unfold clean_json_response.
  apply (replace_fence_inv _ _ (Nat.le_refl _)).
Qed.

Lemma contains_weaken (p q s : string) :
  startswith p q = true -> contains p s = false -> contains q s = false.
Proof.
  intros Hpq Hps. destruct (contains q s) eqn:Hq; [|reflexivity].
  rewrite <- Hps. symmetry. apply contains_trans with (q := q); [|exact Hq].
  apply startswith_split in Hpq as [t ->].
  apply contains_iff. exists EmptyString, t. reflexivity.
Qed.

(** X2. An answer that, once stripped, holds no fence is only stripped. *)
Theorem clean_without_fence (text : string) :
  contains "```" (strip text) = false ->
  clean_json_response text = strip text.
Proof.
  intros H. unfold clean_json_response.
  rewrite (replace_absent "```json") by (apply (contains_weaken "```"); auto).
  now apply replace_absent.
Qed.

Lemma replace_over_plain (old' new body t : string) :
  no_tick body = true ->
  replace (String tick old') new (body ++ t)
  = body ++ replace (String tick old') new t.
Proof.
  induction body as [|c body IH]; intros H; [reflexivity|].
  cbn [no_tick] in H. apply andb_true_iff in H as [Hc Hb].
  cbn [String.append]. rewrite replace_keep.
  - now rewrite IH.
  - cbn [startswith]. apply negb_true_iff in Hc.
    now rewrite Ascii.eqb_sym, Hc.
Qed.

(** X3. An answer that, once stripped, is a body without backticks between
    an opening [```json] and a closing fence is cleaned to the body alone,
    with whatever line breaks the body has at its ends. *)
Theorem clean_unwraps_fence (text body : string) :
  strip text = "```json" ++ body ++ "```" ->
  no_tick body = true ->
  clean_json_response text = body.
Proof.
  intros Hs Hb. unfold clean_json_response. rewrite Hs.
  rewrite replace_front by discriminate. cbn [String.append].
  change "```json" with (String tick "``json").
  rewrite (replace_over_plain "``json" EmptyString body "```" Hb).
  replace (replace (String tick "``json") EmptyString "```") with "```" by reflexivity.
  change "```" with (String tick "``") at 1.
  rewrite (replace_over_plain "``" EmptyString body "```" Hb).
  replace (replace (String tick "``") EmptyString "```") with EmptyString by reflexivity.
  apply string_app_nil.
Qed.

(** ** The final schedule *)

Section FinalScheduleProperties.

Variable json_loads : string -> result json.
Variable json_dumps : json -> string.

(** X4. [generate_final_schedule] posts exactly one request, the schedule
    prompt with a text-only user message. An answer that is not JSON never
    raises: the result is then [{"schedule": []}]. The only errors are those
    of the request itself. *)
Theorem final_schedule_contained (merged_context : json) (w w' : world) (r : result json) :
  generate_final_schedule json_loads json_dumps merged_context w = (w', r) ->
  sent w' = (sent w ++ [stage_payload (get_step_prompt "schedule_final")
                          (schedule_query json_dumps merged_context) None])%list /\
  (forall e, r = Raise e ->
     call_non_streaming json_loads (get_step_prompt "schedule_final")
       (schedule_query json_dumps merged_context) None w = (w', Raise e)) /\
  (forall text e,
     call_non_streaming json_loads (get_step_prompt "schedule_final")
       (schedule_query json_dumps merged_context) None w = (w', Ok text) ->
     json_loads (clean_json_response text) = Raise e ->
     r = Ok (JDict [("schedule", JList [])])).
Proof.
  unfold generate_final_schedule.
  destruct (call_non_streaming _ _ _ _ w) as [w1 [text|e]] eqn:Ec;
    intros [= <- <-]; (split; [exact (call_sent _ _ _ _ _ _ _ Ec)|]); split.
  - discriminate.
  - intros text' e [= <-] Hl. unfold decode_or. now rewrite Hl.
  - intros e' [= <-]. reflexivity.
  - discriminate.
Qed.

End FinalScheduleProperties.

(** ** More on the streaming client *)

Section ClientMore.

Variable json_loads : string -> result json.

Lemma emitted_is_truthy (line : string) (content : json) :
  sse_line json_loads line = Emit content -> truthy content = true.
Proof.
  unfold sse_line.
  destruct (String.eqb line EmptyString); [discriminate|].
  destruct (decode_utf8 line) as [d|e]; [|discriminate].
  destruct (negb (startswith "data: " d)); [discriminate|].
  destruct (String.eqb (strip (drop 6 d)) "[DONE]"); [discriminate|].
  destruct (rbind _ _) as [c|e].
  - destruct (truthy c) eqn:Et; [|discriminate]. now intros [= <-].
  - destruct (handled e); discriminate.
Qed.

Lemma sse_next_truthy (lines : list string) c rest :
  sse_next json_loads lines = (Yield c, rest) -> truthy c = true.
Proof.
  induction lines as [|line lines IH]; cbn [sse_next]; [discriminate|].
  destruct (sse_line json_loads line) eqn:El; try discriminate.
  - exact IH.
  - intros [= <- _]. exact (emitted_is_truthy _ _ El).
Qed.

Lemma stream_next_truthy g w w1 c g1 :
  stream_next json_loads g w = (w1, (Yield c, g1)) -> truthy c = true.
Proof.
  destruct g as [messages params|lines|]; cbn [stream_next].
  - destruct (stream_open messages params w) as [w2 [lines|e]]; [|discriminate].
    destruct (sse_next json_loads lines) as [[c0| |e] rest] eqn:En;
      cbn [after_next]; try discriminate.
    intros [= _ <- _]. exact (sse_next_truthy _ _ _ En).
  - destruct (sse_next json_loads lines) as [[c0| |e] rest] eqn:En;
      cbn [after_next]; try discriminate.
    intros [= _ <- _]. exact (sse_next_truthy _ _ _ En).
  - discriminate.
Qed.

(** X5. The client never yields an empty fragment: every item it yields is
    truthy, so a string it yields has at least one character. *)
Theorem stream_yields_no_empty_item : forall n g w w' items o g',
  stream_take json_loads n g w = (w', (items, o, g')) ->
  Forall (fun c => truthy c = true /\ c <> JStr EmptyString) items.
Proof.
  induction n as [|n IH]; intros g w w' items o g'; cbn [stream_take].
  - intros [= _ <- _ _]. constructor.
  - destruct (stream_next json_loads g w) as [w1 [[c| |e] g1]] eqn:En.
    + destruct (stream_take json_loads n g1 w1) as [w2 [[cs o2] g2]] eqn:Et.
      intros [= _ <- _ _]. constructor.
      * pose proof (stream_next_truthy _ _ _ _ _ En) as Hc. split; [exact Hc|].
        intros ->. discriminate.
      * exact (IH _ _ _ _ _ _ Et).
    + intros [= _ <- _ _]. constructor.
    + intros [= _ <- _ _]. constructor.
Qed.

(** What is read of a response after the end-of-stream event: nothing. *)
Lemma drain_stops_at_done (pre : list string) (d : string) : forall post post' acc,
  is_done d = true ->
  drain_lines json_loads (pre ++ d :: post) acc
  = drain_lines json_loads (pre ++ d :: post') acc.
Proof.
  induction pre as [|line pre IH]; intros post post' acc Hd; cbn [app drain_lines].
  - now rewrite (done_breaks json_loads d Hd).
  - destruct (sse_line json_loads line); try reflexivity.
    + now apply IH.
    + destruct (str_iadd acc content); [now apply IH | reflexivity].
Qed.

Lemma sse_next_stops_at_done (pre : list string) (d : string) : forall post post',
  is_done d = true ->
  fst (sse_next json_loads (pre ++ d :: post))
  = fst (sse_next json_loads (pre ++ d :: post')).
Proof.
  induction pre as [|line pre IH]; intros post post' Hd; cbn [app sse_next].
  - now rewrite (done_breaks json_loads d Hd).
  - destruct (sse_line json_loads line); try reflexivity. now apply IH.
Qed.

Lemma take_stops_at_done (d : string) : forall n pre post post' w,
  is_done d = true ->
  seen (stream_take json_loads n (StreamReading (pre ++ d :: post)) w)
  = seen (stream_take json_loads n (StreamReading (pre ++ d :: post')) w).
Proof.
  intros n. induction n as [|n IH]; intros pre post post' w Hd; [reflexivity|].
  cbn [stream_take stream_next].
  revert post post'. induction pre as [|line pre IHpre]; intros post post';
    cbn [app sse_next].
  - rewrite (done_breaks json_loads d Hd). reflexivity.
  - destruct (sse_line json_loads line); cbn [after_next]; try reflexivity.
    + apply IHpre.
    + specialize (IH pre post post' w Hd). unfold seen in *.
      destruct (stream_take json_loads n (StreamReading (pre ++ d :: post)) w)
        as [w2 [[cs o] g2]].
      destruct (stream_take json_loads n (StreamReading (pre ++ d :: post')) w)
        as [w3 [[cs' o'] g3]].
      cbn [fst snd] in *. congruence.
Qed.

(** X6. Nothing of a response is read behind the first [[DONE]] event:
    whatever follows it, the text a stage collects, the items a caller of
    the stream gets and the way the stream ends are the same. *)
Theorem nothing_read_after_done (pre post post' : list string) (d acc : string)
    (n : nat) (w : world) :
  is_done d = true ->
  drain_lines json_loads (pre ++ d :: post) acc
  = drain_lines json_loads (pre ++ d :: post') acc /\
  seen (stream_take json_loads n (StreamReading (pre ++ d :: post)) w)
  = seen (stream_take json_loads n (StreamReading (pre ++ d :: post')) w).
Proof.
  intros Hd. split; [now apply drain_stops_at_done | now apply take_stops_at_done].
Qed.

Lemma reading_keeps_world : forall n lines w w' r,
  stream_take json_loads n (StreamReading lines) w = (w', r) -> w' = w.
Proof.
  induction n as [|n IH]; intros lines w w' r; cbn [stream_take stream_next].
  - now intros [= <- _].
  - destruct (sse_next json_loads lines) as [[c| |e] rest]; cbn [after_next].
    + destruct (stream_take json_loads n (StreamReading rest) w) as [w2 [[cs o] g2]] eqn:Et.
      intros [= <- _]. exact (IH _ _ _ _ Et).
    + now intros [= <- _].
    + now intros [= <- _].
Qed.

Lemma closed_keeps_world : forall n w w' r,
  stream_take json_loads n StreamClosed w = (w', r) -> w' = w.
Proof. intros [|n] w w' r; cbn [stream_take stream_next]; now intros [= <- _]. Qed.

(** The world after the request of a stream has been made. *)
Lemma stream_open_world (messages : list json) (params : kwargs) (w w1 : world) r :
  stream_open messages params w = (w1, r) ->
  sent w1 = (sent w ++ [make_payload messages params])%list /\
  pending w1 = tl (pending w).
Proof.
  intros Eo. split; [exact (stream_open_sent _ _ _ _ _ Eo)|].
  revert Eo. unfold stream_open, requests_post.
  destruct (pending w) as [|[resp|e] rest]; cbn [tl].
  - intros [= <- _]. reflexivity.
  - destruct (negb (status_code resp =? 200)); intros [= <- _]; reflexivity.
  - intros [= <- _]. reflexivity.
Qed.

(** A started stream leaves the world as its request left it. *)
Lemma started_stream_world (messages : list json) (params : kwargs) n (w w' : world) r :
  stream_take json_loads (S n) (StreamCreated messages params) w = (w', r) ->
  exists o, stream_open messages params w = (w', o).
Proof.
  cbn [stream_take stream_next].
  destruct (stream_open messages params w) as [w1 [lines|e]] eqn:Eo.
  - destruct (sse_next json_loads lines) as [[c| |e] rest]; cbn [after_next].
    + destruct (stream_take json_loads n (StreamReading rest) w1) as [w2 [[cs o] g2]] eqn:Et.
      intros [= <- _]. rewrite (reading_keeps_world _ _ _ _ _ Et). eauto.
    + intros [= <- _]. eauto.
    + intros [= <- _]. eauto.
  - intros [= <- _]. eauto.
Qed.

(** X7. A call of [stream] posts exactly one request, on the first [next],
    whatever the response and however long the caller goes on: the log of
    posted payloads grows by the one payload, and the script of outcomes
    loses at most its head. *)
Theorem stream_posts_once (messages : list json) (params : kwargs) n (w w' : world) r :
  stream_take json_loads (S n) (StreamCreated messages params) w = (w', r) ->
  sent w' = (sent w ++ [make_payload messages params])%list /\
  pending w' = tl (pending w).
Proof.
  intros H. apply started_stream_world in H as [o Ho].
  exact (stream_open_world _ _ _ _ _ Ho).
Qed.

End ClientMore.

(** ** More on the chat turn *)

Section ChatMore.

Variable json_loads : string -> result json.
Variable json_dumps : json -> string.
Variable Image : Type.
Variable prepare_image_for_api : Image -> result string.
Variable DB : Type.
Variable save_chat_message : string -> string -> string -> DB -> result DB.
Variable prescription_id : option string.

Let next := chat_next json_loads json_dumps Image prepare_image_for_api
              DB save_chat_message prescription_id.
Let taken := chat_take json_loads json_dumps Image prepare_image_for_api
               DB save_chat_message prescription_id.
Let save := save_turn DB save_chat_message prescription_id.
Let messages_of := chat_messages json_dumps Image.

Lemma save_keeps' role text (s s1 : session DB) r :
  save role text s = (s1, r) -> memory s1 = memory s /\ net s1 = net s.
Proof.
  exact (save_keeps json_loads json_dumps Image prepare_image_for_api DB
           save_chat_message prescription_id role text s s1 r).
Qed.

Lemma taken_created (a : chat_args Image) n (s : session DB) :
  taken a (S n) ChatCreated s
  = match prepare_image_for_api (image a) with
    | Raise e => (s, ([], Raised e, ChatClosed))
    | Ok image_data =>
        match save "user" (user_query a) (add_user_message (user_query a) s) with
        | (s0, Raise e) => (s0, ([], Raised e, ChatClosed))
        | (s0, Ok _) =>
            if passable (model_params a)
            then taken a (S n)
                   (ChatStreaming
                      (StreamCreated (messages_of a (memory s) image_data) (model_params a))
                      EmptyString) s0
            else (s0, ([], Raised TypeError, ChatClosed))
        end
    end.
Proof.
  exact (created_unfolds json_loads json_dumps Image prepare_image_for_api DB
           save_chat_message prescription_id a n s).
Qed.

Lemma disclaimer_not_empty : GLOBAL_DISCLAIMER <> EmptyString.
Proof. intros H. vm_compute in H. discriminate. Qed.

Lemma next_fragment_not_empty (a : chat_args Image) g s s1 c g1 :
  next a g s = (s1, (Yield c, g1)) -> c <> EmptyString.
Proof.
  assert (Hpump : forall inner full s0 s2 c0 g2,
             pump json_loads DB inner full s0 = (s2, (Yield c0, g2)) ->
             c0 <> EmptyString).
  { intros inner full s0 s2 c0 g2. unfold pump.
    destruct (stream_next json_loads inner (net s0)) as [w1 [[chunk| |e] inner1]] eqn:En.
    - apply stream_next_truthy in En.
      destruct chunk as [| | | |c1| |]; try discriminate.
      intros [= _ <- _]. intros ->. discriminate.
    - intros [= _ <- _]. exact disclaimer_not_empty.
    - discriminate. }
  unfold next. destruct g as [|inner full|full|]; cbn [chat_next].
  - destruct (prepare_image_for_api (image a)); [|discriminate].
    destruct (save_turn _ _ _ _ _ _) as [s0 [[]|e]]; [|discriminate].
    destruct (passable (model_params a)); [|discriminate].
    apply Hpump.
  - apply Hpump.
  - destruct (save_turn _ _ _ _ _ _) as [s0 [[]|e]]; discriminate.
  - discriminate.
Qed.

(** X8. No fragment of a chat turn is empty, the disclaimer included. *)
Theorem chat_yields_no_empty_fragment (a : chat_args Image) : forall n g s s' frags o g',
  taken a n g s = (s', (frags, o, g')) ->
  Forall (fun f => f <> EmptyString) frags.
Proof.
  unfold taken.
  induction n as [|n IH]; intros g s s' frags o g'; cbn [chat_take].
  - intros [= _ <- _ _]. constructor.
  - destruct (chat_next _ _ _ _ _ _ _ a g s) as [s1 [[c| |e] g1]] eqn:En.
    + destruct (chat_take _ _ _ _ _ _ _ a n g1 s1) as [s2 [[cs o2] g2]] eqn:Et.
      intros [= _ <- _ _]. constructor.
      * exact (next_fragment_not_empty a _ _ _ _ _ En).
      * exact (IH _ _ _ _ _ _ Et).
    + intros [= _ <- _ _]. constructor.
    + intros [= _ <- _ _]. constructor.
Qed.

Lemma payload_by_sent_params (messages : list json) (params params' : kwargs) :
  sent_params params = sent_params params' ->
  make_payload messages params = make_payload messages params'.
Proof.
  unfold sent_params, make_payload, kwarg. intros [= Ht Hm Hp].
  now rewrite Ht, Hm, Hp.
Qed.

Lemma next_started_any_args (a a' : chat_args Image) g s :
  g <> ChatCreated -> next a g s = next a' g s.
Proof. destruct g; [contradiction| | |]; reflexivity. Qed.

Lemma taken_started_any_args (a a' : chat_args Image) : forall n g s,
  g <> ChatCreated -> taken a n g s = taken a' n g s.
Proof.
  unfold taken. induction n as [|n IH]; intros g s Hg; [reflexivity|].
  cbn [chat_take].
  change (chat_next json_loads json_dumps Image prepare_image_for_api DB
            save_chat_message prescription_id a g s) with (next a g s).
  change (chat_next json_loads json_dumps Image prepare_image_for_api DB
            save_chat_message prescription_id a' g s) with (next a' g s).
  rewrite (next_started_any_args a a' g s Hg).
  destruct (next a' g s) as [s1 [[c| |e] g1]] eqn:En; try reflexivity.
  rewrite IH; [reflexivity|].
  revert En. unfold next. destruct g as [|inner full|full|]; [contradiction| | |].
  - cbn [chat_next]. unfold pump.
    destruct (stream_next json_loads inner (net s)) as [w1 [[chunk| |e] inner1]].
    + destruct chunk; intros [= _ _ <-]; discriminate.
    + intros [= _ _ <-]. discriminate.
    + discriminate.
  - cbn [chat_next]. destruct (save_turn _ _ _ _ _ _) as [s0 [[]|e]]; discriminate.
  - discriminate.
Qed.

(** X9. Of the keyword parameters of a chat turn only [temperature],
    [max_tokens] and [top_p] count: two turns that agree on these three run
    identically, whatever else is passed ([top_k], [presence_penalty], the
    page's [uploaded_file] and [chat_mode]), as long as [stream] can take
    the parameters at all. *)
Theorem only_three_params_count (a : chat_args Image) (params' : kwargs) n (s : session DB) :
  passable (model_params a) = true ->
  passable params' = true ->
  sent_params (model_params a) = sent_params params' ->
  taken (with_params a params') n ChatCreated s = taken a n ChatCreated s.
Proof.
  intros Hpass Hpass' Hp. destruct n as [|n]; [reflexivity|].
  rewrite !taken_created. cbn [with_params image user_query model_params].
  rewrite Hpass, Hpass'.
  destruct (prepare_image_for_api (image a)) as [image_data|e]; [|reflexivity].
  destruct (save "user" (user_query a) (add_user_message (user_query a) s))
    as [s0 [[]|e]]; [|reflexivity].
  assert (Hm : messages_of (with_params a params') (memory s) image_data
               = messages_of a (memory s) image_data) by reflexivity.
  rewrite Hm.
  rewrite (taken_started_any_args (with_params a params') a) by discriminate.
  unfold taken. cbn [chat_take chat_next]. unfold pump. cbn [stream_next].
  unfold stream_open.
  now rewrite (payload_by_sent_params _ _ _ Hp).
Qed.

Lemma ended_keeps_net (a : chat_args Image) : forall n g s s' r,
  (exists full, g = ChatDisclaimer full) \/ g = ChatClosed ->
  taken a n g s = (s', r) -> net s' = net s.
Proof.
  unfold taken. intros [|n] g s s' r Hg; cbn [chat_take].
  - now intros [= <- _].
  - destruct Hg as [[full ->] | ->]; cbn [chat_next].
    + destruct (save_turn _ _ _ _ _ _) as [s0 [[]|e]] eqn:Es;
        intros [= <- _]; apply save_keeps' in Es as [_ Hn]; exact Hn.
    + now intros [= <- _].
Qed.

Lemma taken_S (a : chat_args Image) n g s :
  taken a (S n) g s
  = match next a g s with
    | (s1, (Yield c, g1)) =>
        match taken a n g1 s1 with
        | (s2, (cs, o, g2)) => (s2, (c :: cs, o, g2))
        end
    | (s1, (Stop, g1)) => (s1, ([], Exhausted, g1))
    | (s1, (Throw e, g1)) => (s1, ([], Raised e, g1))
    end.
Proof. reflexivity. Qed.

Lemma stream_take_S n g w :
  stream_take json_loads (S n) g w
  = match stream_next json_loads g w with
    | (w1, (Yield c, g1)) =>
        match stream_take json_loads n g1 w1 with
        | (w2, (cs, o, g2)) => (w2, (c :: cs, o, g2))
        end
    | (w1, (Stop, g1)) => (w1, ([], Exhausted, g1))
    | (w1, (Throw e, g1)) => (w1, ([], Raised e, g1))
    end.
Proof. reflexivity. Qed.

(** What a started turn does to the transport is what reading the model's
    stream does to it. *)
Lemma started_turn_net (a : chat_args Image) : forall n inner full s s' r,
  taken a (S n) (ChatStreaming inner full) s = (s', r) ->
  exists k r', stream_take json_loads (S k) inner (net s) = (net s', r').
Proof.
  induction n as [|n IH]; intros inner full s s' r; rewrite taken_S;
    unfold next; cbn [chat_next]; unfold pump;
    destruct (stream_next json_loads inner (net s)) as [w1 [[chunk| |e] inner1]] eqn:En.
  - destruct chunk; intros [= <- _]; exists O; rewrite stream_take_S, En;
      cbn [stream_take net with_net]; eexists; reflexivity.
  - intros [= <- _]. exists O. rewrite stream_take_S, En. eexists. reflexivity.
  - intros [= <- _]. exists O. rewrite stream_take_S, En. eexists. reflexivity.
  - destruct chunk as [| | | |c| |];
      try (intros [= <- _]; exists O; rewrite stream_take_S, En;
           cbn [stream_take net with_net]; eexists; reflexivity).
    destruct (taken a (S n) (ChatStreaming inner1 (full ++ c)) (with_net DB s w1))
      as [s2 [[cs o] g2]] eqn:Et.
    intros [= <- _]. apply IH in Et as (k & r' & Hk).
    exists (S k). cbn [net with_net] in Hk.
    rewrite stream_take_S, En, Hk. destruct r' as [[cs' o'] g']. eexists. reflexivity.
  - destruct (taken a (S n) (ChatDisclaimer full) (with_net DB s w1))
      as [s2 [[cs o] g2]] eqn:Et.
    intros [= <- _].
    apply (ended_keeps_net a (S n) (ChatDisclaimer full)) in Et; [|left; eauto].
    exists O. rewrite stream_take_S, En, Et. eexists. reflexivity.
  - intros [= <- _]. exists O. rewrite stream_take_S, En. eexists. reflexivity.
Qed.

(** X10. A chat turn posts at most one request and never posts again: when
    the image cannot be prepared nothing happens at all; when the user's
    message cannot be stored nothing is posted; otherwise exactly one
    payload is posted, however many fragments the caller takes. Here and
    below the keyword parameters of the turn are such that [stream] can be
    called with them. *)
Theorem turn_posts_once (a : chat_args Image) n (s s' : session DB) r :
  passable (model_params a) = true ->
  taken a (S n) ChatCreated s = (s', r) ->
  match prepare_image_for_api (image a) with
  | Raise e => s' = s /\ r = ([], Raised e, ChatClosed)
  | Ok image_data =>
      match snd (save "user" (user_query a) (add_user_message (user_query a) s)) with
      | Raise e => sent (net s') = sent (net s) /\ r = ([], Raised e, ChatClosed)
      | Ok _ =>
          sent (net s')
          = (sent (net s) ++ [make_payload (messages_of a (memory s) image_data)
                                (model_params a)])%list
      end
  end.
Proof.
  intros Hpass. rewrite taken_created, Hpass.
  destruct (prepare_image_for_api (image a)) as [image_data|e].
  2:{ intros [= <- <-]. auto. }
  destruct (save "user" (user_query a) (add_user_message (user_query a) s))
    as [s0 [[]|e]] eqn:Es; cbn [snd].
  2:{ intros [= <- <-]. apply save_keeps' in Es as [_ Hn]. rewrite Hn. auto. }
  intros H. apply started_turn_net in H as (k & r' & Hk).
  apply started_stream_world in Hk as [o Ho].
  apply stream_open_world in Ho as [Hsent _].
  apply save_keeps' in Es as [_ Hn]. cbn [net add_user_message with_memory] in Hn.
  now rewrite Hsent, Hn.
Qed.

(** X11. When the request of a chat turn fails, by a connection error or a
    status other than 200, the turn raises that error without a single
    fragment, and the user's message of the turn is already in the history,
    without a reply. *)
Theorem failed_request_keeps_question
    (a : chat_args Image) n (s s1 : session DB) image_data w1 e :
  passable (model_params a) = true ->
  prepare_image_for_api (image a) = Ok image_data ->
  save "user" (user_query a) (add_user_message (user_query a) s) = (s1, Ok tt) ->
  stream_open (messages_of a (memory s) image_data) (model_params a) (net s) = (w1, Raise e) ->
  exists s',
    taken a (S n) ChatCreated s = (s', ([], Raised e, ChatClosed)) /\
    memory s' = (memory s ++ [HumanMessage (user_query a)])%list.
Proof.
  intros Hpass Hprep Hsave Hopen. rewrite taken_created, Hprep, Hsave, Hpass.
  apply save_keeps' in Hsave as [Hm Hn].
  cbn [memory net add_user_message with_memory] in Hm, Hn.
  unfold taken. cbn [chat_take chat_next]. unfold pump. cbn [stream_next].
  rewrite Hn, Hopen. eexists. split; [reflexivity|]. exact Hm.
Qed.

(** A started turn that completes has appended the reply to the history
    and handed it to the store last, with the transport as the stream left
    it. *)
Lemma started_turn_reply (a : chat_args Image) : forall n inner full s s' frags g,
  taken a n (ChatStreaming inner full) s = (s', (frags, Exhausted, g)) ->
  exists chunks,
    frags = (chunks ++ [GLOBAL_DISCLAIMER])%list /\
    save "assistant" (full ++ join chunks ++ GLOBAL_DISCLAIMER)
      (add_ai_message (full ++ join chunks ++ GLOBAL_DISCLAIMER) (with_net DB s (net s')))
    = (s', Ok tt).
Proof.
  induction n as [|n IH]; intros inner full s s' frags g; [discriminate|].
  rewrite taken_S. unfold next. cbn [chat_next]. unfold pump.
  destruct (stream_next json_loads inner (net s)) as [w1 [[chunk| |e] inner1]] eqn:En.
  - destruct chunk as [| | | |c| |]; try discriminate.
    destruct (taken a n (ChatStreaming inner1 (full ++ c)) (with_net DB s w1))
      as [s2 [[cs o] g2]] eqn:Et.
    intros [= <- <- -> <-]. apply IH in Et as (chunks & -> & Hs).
    exists (c :: chunks). split; [reflexivity|].
    cbn [join fold_right]. rewrite <- Hs. now rewrite !string_app_assoc.
  - destruct n as [|n]; [discriminate|].
    rewrite taken_S. unfold next. cbn [chat_next]. fold save.
    destruct (save "assistant" (full ++ GLOBAL_DISCLAIMER)
                (add_ai_message (full ++ GLOBAL_DISCLAIMER) (with_net DB s w1)))
      as [s1 [[]|e]] eqn:Es; [|discriminate].
    intros [= <- <- <-]. exists []. split; [reflexivity|].
    pose proof (save_keeps' _ _ _ _ _ Es) as [_ Hn].
    cbn [net add_ai_message with_memory with_net] in Hn. rewrite Hn.
    exact Es.
  - discriminate.
Qed.

(** A turn that completes: the two messages and the two saves. *)
Lemma turn_reply (a : chat_args Image) n (s s' : session DB) frags g :
  taken a n ChatCreated s = (s', (frags, Exhausted, g)) ->
  exists chunks s1,
    frags = (chunks ++ [GLOBAL_DISCLAIMER])%list /\
    save "user" (user_query a) (add_user_message (user_query a) s) = (s1, Ok tt) /\
    save "assistant" (join chunks ++ GLOBAL_DISCLAIMER)
      (add_ai_message (join chunks ++ GLOBAL_DISCLAIMER) (with_net DB s1 (net s')))
    = (s', Ok tt).
Proof.
  destruct n as [|n]; [discriminate|]. rewrite taken_created.
  destruct (prepare_image_for_api (image a)) as [image_data|e]; [|discriminate].
  destruct (save "user" (user_query a) (add_user_message (user_query a) s))
    as [s0 [[]|e]] eqn:Es; [|discriminate].
  destruct (passable (model_params a)); [|discriminate].
  intros H. apply started_turn_reply in H as (chunks & -> & Hs).
  exists chunks, s0. auto.
Qed.

Lemma turn_memory (a : chat_args Image) n (s s' : session DB) frags g :
  taken a n ChatCreated s = (s', (frags, Exhausted, g)) ->
  exists chunks,
    frags = (chunks ++ [GLOBAL_DISCLAIMER])%list /\
    memory s' = (memory s ++ [ HumanMessage (user_query a);
                               AIMessage (join chunks ++ GLOBAL_DISCLAIMER) ])%list.
Proof.
  intros H. apply turn_reply in H as (chunks & s1 & -> & Hu & Ha).
  exists chunks. split; [reflexivity|].
  apply save_keeps' in Hu as [Hm1 _]. apply save_keeps' in Ha as [Hm2 _].
  cbn [memory add_user_message add_ai_message with_memory with_net] in Hm1, Hm2.
  now rewrite Hm2, Hm1, <- app_assoc.
Qed.

(** X12. A completed turn stores what it remembers, in the same order: with
    a prescription id the chat store receives the user's text first, then
    the reply with the disclaimer, the very two texts appended to the
    history; without an id, or with an empty one, the store is not
    touched. *)
Theorem turn_stores_what_it_remembers (a : chat_args Image) n (s s' : session DB) frags g :
  passable (model_params a) = true ->
  taken a n ChatCreated s = (s', (frags, Exhausted, g)) ->
  exists reply,
    memory s' = (memory s ++ [HumanMessage (user_query a); AIMessage reply])%list /\
    match prescription_id with
    | None => db s' = db s
    | Some pid =>
        if String.eqb pid EmptyString then db s' = db s
        else exists d1,
            save_chat_message pid "user" (user_query a) (db s) = Ok d1 /\
            save_chat_message pid "assistant" reply d1 = Ok (db s')
    end.
Proof.
  intros _ H. pose proof (turn_memory _ _ _ _ _ _ H) as (chunks' & Hf & Hm).
  apply turn_reply in H as (chunks & s1 & Hf' & Hu & Ha).
  assert (chunks' = chunks) as ->.
  { rewrite Hf in Hf'. now apply app_inv_tail in Hf'. }
  exists (join chunks ++ GLOBAL_DISCLAIMER). split; [exact Hm|].
  revert Hu Ha. unfold save, save_turn.
  destruct prescription_id as [pid|].
  - destruct (String.eqb pid EmptyString).
    + intros [= <-] [= <-]. reflexivity.
    + cbn [db add_user_message add_ai_message with_memory with_net].
      destruct (save_chat_message pid "user" (user_query a) (db s)) as [d1|e];
        [|discriminate].
      intros [= <-]. cbn [db with_db].
      destruct (save_chat_message pid "assistant" _ d1) as [d2|e] eqn:E2;
        [|discriminate].
      intros [= <-]. exists d1. split; [reflexivity|]. exact E2.
  - intros [= <-] [= <-]. reflexivity.
Qed.

(** X13. The next turn replays the one before it: after a completed turn,
    the payload of the following turn carries, between the system message
    and the new question, the earlier history followed by the previous
    question and the previous reply, the reply with its disclaimer. *)
Theorem next_turn_replays_previous
    (a a2 : chat_args Image) n (s s1 s1' : session DB) frags g image_data :
  passable (model_params a) = true ->
  passable (model_params a2) = true ->
  taken a n ChatCreated s = (s1, (frags, Exhausted, g)) ->
  prepare_image_for_api (image a2) = Ok image_data ->
  save "user" (user_query a2) (add_user_message (user_query a2) s1) = (s1', Ok tt) ->
  exists chunks s2 r,
    frags = (chunks ++ [GLOBAL_DISCLAIMER])%list /\
    next a2 ChatCreated s1 = (s2, r) /\
    sent (net s2)
    = (sent (net s1)
       ++ [make_payload
             ([message "system" (JList [text_part (combined_system json_dumps Image a2)])]
              ++ map format_message_for_api (memory s)
              ++ [ message "user" (JList [text_part (user_query a)]);
                   message "assistant"
                     (JList [text_part (join chunks ++ GLOBAL_DISCLAIMER)]) ]
              ++ [message "user" (JList [image_part image_data;
                                         text_part (user_query a2)])])
             (model_params a2)])%list.
Proof.
  intros _ Hpass H Hprep Hsave.
  apply turn_memory in H as (chunks & -> & Hm).
  destruct (first_next_posts json_loads json_dumps Image prepare_image_for_api DB
              save_chat_message prescription_id a2 s1 s1' image_data Hpass Hprep Hsave)
    as (s2 & r & Hn & Hs).
  exists chunks, s2, r. split; [reflexivity|]. split; [exact Hn|].
  rewrite Hs. unfold chat_messages. rewrite Hm, map_app. cbn [map format_message_for_api].
  now rewrite <- !app_assoc.
Qed.

(** A started turn that raises leaves the history as it was, or with the
    reply when it was the store that refused the reply. *)
Lemma started_turn_raised (a : chat_args Image) : forall n inner full s s' frags e g,
  taken a n (ChatStreaming inner full) s = (s', (frags, Raised e, g)) ->
  memory s' = memory s \/
  exists reply, memory s' = (memory s ++ [AIMessage reply])%list.
Proof.
  induction n as [|n IH]; intros inner full s s' frags e g; [discriminate|].
  rewrite taken_S. unfold next. cbn [chat_next]. unfold pump.
  destruct (stream_next json_loads inner (net s)) as [w1 [[chunk| |e1] inner1]] eqn:En.
  - destruct chunk as [| | | |c| |];
      try (intros H; inversion H; subst; left; reflexivity).
    destruct (taken a n (ChatStreaming inner1 (full ++ c)) (with_net DB s w1))
      as [s2 [[cs o] g2]] eqn:Et.
    intros H; inversion H; subst. apply IH in Et. exact Et.
  - destruct n as [|n]; [discriminate|].
    rewrite taken_S. unfold next. cbn [chat_next]. fold save.
    destruct (save "assistant" (full ++ GLOBAL_DISCLAIMER)
                (add_ai_message (full ++ GLOBAL_DISCLAIMER) (with_net DB s w1)))
      as [s1 [[]|e2]] eqn:Es; [discriminate|].
    intros H; inversion H; subst. right. exists (full ++ GLOBAL_DISCLAIMER).
    apply save_keeps' in Es as [Hm _]. exact Hm.
  - intros H; inversion H; subst. left. reflexivity.
Qed.

(** What a turn that raises has done to the history: nothing, or the
    user's message, or both messages when the store refused the reply. *)
Lemma turn_raised (a : chat_args Image) n (s s' : session DB) frags e g :
  taken a n ChatCreated s = (s', (frags, Raised e, g)) ->
  memory s' = memory s \/
  memory s' = (memory s ++ [HumanMessage (user_query a)])%list \/
  exists reply,
    memory s' = (memory s ++ [HumanMessage (user_query a); AIMessage reply])%list.
Proof.
  destruct n as [|n]; [discriminate|]. rewrite taken_created.
  destruct (prepare_image_for_api (image a)) as [image_data|e0].
  2:{ intros H; inversion H; subst. left. reflexivity. }
  destruct (save "user" (user_query a) (add_user_message (user_query a) s))
    as [s0 [[]|e0]] eqn:Es.
  - apply save_keeps' in Es as [Hm _].
    cbn [memory add_user_message with_memory] in Hm.
    destruct (passable (model_params a)).
    2:{ intros H; inversion H; subst. right. left. exact Hm. }
    intros H. apply started_turn_raised in H as [H | [reply H]]; rewrite Hm in H.
    + right. left. exact H.
    + right. right. exists reply. now rewrite H, <- app_assoc.
  - apply save_keeps' in Es as [Hm _].
    cbn [memory add_user_message with_memory] in Hm.
    intros H; inversion H; subst. right. left. exact Hm.
Qed.

End ChatMore.

(** ** More on the classification *)

(** What a run of the block can change in the audit record. *)
Lemma classify_frame (e a a' : json) (st : string) :
  classify e a = Ok (st, a') ->
  exists d d',
    a = JDict d /\ a' = JDict d' /\
    (st = "CLEAR" \/ st = "CLARIFIABLE" \/ st = "UNRESOLVABLE") /\
    (st <> "UNRESOLVABLE" -> d' = d) /\
    (forall k, k <> "safety_flags" -> dict_get k d' = dict_get k d).
Proof.
  unfold classify.
  destruct (py_get e "overall_confidence" (JFloat 1)) as [conf|]; [|discriminate].
  cbn [rbind].
  destruct a as [| | | | | |d]; try discriminate.
  cbn [py_get rbind].
  destruct (ge_threshold conf) as [clear|]; [|discriminate]. cbn [rbind].
  destruct clear.
  { intros [= <- <-]. exists d, d. repeat split; auto. }
  destruct (clarifiable _) as [c|]; [|discriminate]. cbn [rbind].
  destruct c.
  { intros [= <- <-]. exists d, d. repeat split; auto. }
  destruct (mark_unresolvable (JDict d)) as [a1|] eqn:Em; [|discriminate].
  cbn [rbind]. intros [= <- <-].
  apply mark_unresolvable_post in Em as (d' & fl' & -> & _ & _ & _ & Hk).
  exists d, d'. repeat split; auto. intros H. contradiction H. reflexivity.
Qed.

Lemma insert_flag_extends (flag : string) (flags : list json) :
  exists added, insert_flag flag flags = (flags ++ added)%list.
Proof.
  unfold insert_flag. destruct (existsb (eq_str flag) flags).
  - exists []. now rewrite app_nil_r.
  - eexists. reflexivity.
Qed.

(** X14. The classification block touches nothing but [safety_flags], and
    that only for UNRESOLVABLE: the state is one of the three, every other
    field of the audit record keeps its value, a CLEAR or CLARIFIABLE record
    is returned as it came, and flags already in the list stay, in their
    order, in front of what is added. *)
Theorem classify_touches_only_flags (e a a' : json) (st : string) :
  classify e a = Ok (st, a') ->
  exists d d',
    a = JDict d /\ a' = JDict d' /\
    (st = "CLEAR" \/ st = "CLARIFIABLE" \/ st = "UNRESOLVABLE") /\
    (st <> "UNRESOLVABLE" -> d' = d) /\
    (forall k, k <> "safety_flags" -> dict_get k d' = dict_get k d) /\
    (forall flags, flags_of d = JList flags ->
       exists added, flags_of d' = JList (flags ++ added)).
Proof.
  intros H. destruct (classify_frame _ _ _ _ H) as (d & d' & -> & -> & Hst & Hsame & Hk).
  exists d, d'. repeat split; auto.
  intros flags Hf.
  destruct (classify_flags _ _ _ _ _ H Hf) as [[_ [= ->]] | [_ [= ->]]].
  - destruct (insert_flag_extends FLAG_UNCLEAR flags) as [a1 H1].
    destruct (insert_flag_extends FLAG_NO_CANDIDATES (insert_flag FLAG_UNCLEAR flags))
      as [a2 H2].
    exists (a1 ++ a2)%list. unfold flags_of, kwarg. rewrite dict_get_set_same.
    now rewrite H2, H1, app_assoc.
  - exists []. now rewrite app_nil_r.
Qed.

(** ** More on the pipeline *)

Section PipelineMore.

Variable json_loads : string -> result json.
Variable json_dumps : json -> string.
Variable Image : Type.
Variable prepare_image_for_api : Image -> result string.

Let analyze := analyze_prescription json_loads json_dumps Image prepare_image_for_api.
Let call := call_non_streaming json_loads.
Let decode := decode_or json_loads.

(** How a run that returns has gone. *)
Lemma analyze_returns image w w' res :
  analyze image w = (w', Ok res) ->
  exists image_data w1 t1,
    prepare_image_for_api image = Ok image_data /\
    call (get_step_prompt "validation") validation_query (Some image_data) w = (w1, Ok t1) /\
    ((gate_blocks (decode validation_fallback t1) = Ok true /\
      w' = w1 /\ res = rejection (decode validation_fallback t1))
     \/
     (gate_blocks (decode validation_fallback t1) = Ok false /\
      exists w2 raw_ocr w3 t3 t4 audit' c,
        call (get_step_prompt "ocr") ocr_query (Some image_data) w1 = (w2, Ok raw_ocr) /\
        call (get_step_prompt "normalize") (normalize_query raw_ocr) None w2 = (w3, Ok t3) /\
        call (get_step_prompt "audit")
             (audit_query json_dumps raw_ocr (decode extraction_fallback t3)) None w3
          = (w', Ok t4) /\
        setitem_str (decode audit_fallback t4) "validation" (decode validation_fallback t1)
          = Ok audit' /\
        classify (decode extraction_fallback t3) audit' = Ok c /\
        res = JDict [ ("validation", decode validation_fallback t1);
                      ("extraction", decode extraction_fallback t3);
                      ("audit", snd c);
                      ("raw_ocr", JStr raw_ocr);
                      ("ambiguity_state", JStr (fst c)) ])).
Proof.
  unfold analyze, analyze_prescription, bind, lift, ret.
  destruct (prepare_image_for_api image) as [image_data|e]; [|discriminate].
  fold call.
  destruct (call (get_step_prompt "validation") validation_query (Some image_data) w)
    as [w1 [t1|e]] eqn:E1; [|discriminate].
  fold decode.
  destruct (gate_blocks (decode validation_fallback t1)) as [blocked|e] eqn:Eg;
    [|discriminate].
  destruct blocked.
  { intros [= <- <-]. exists image_data, w1, t1.
    split; [reflexivity|]. split; [exact E1|]. left. auto. }
  destruct (call (get_step_prompt "ocr") ocr_query (Some image_data) w1)
    as [w2 [raw_ocr|e]] eqn:E2; [|discriminate].
  destruct (call (get_step_prompt "normalize") (normalize_query raw_ocr) None w2)
    as [w3 [t3|e]] eqn:E3; [|discriminate].
  destruct (call (get_step_prompt "audit")
              (audit_query json_dumps raw_ocr (decode extraction_fallback t3)) None w3)
    as [w4 [t4|e]] eqn:E4; [|discriminate].
  destruct (setitem_str (decode audit_fallback t4) "validation"
              (decode validation_fallback t1)) as [audit'|e] eqn:Es; [|discriminate].
  destruct (classify (decode extraction_fallback t3) audit') as [c|e] eqn:Ec;
    [|discriminate].
  intros [= <- <-]. exists image_data, w1, t1.
  split; [reflexivity|]. split; [exact E1|]. right.
  split; [exact Eg|]. exists w2, raw_ocr, w3, t3, t4, audit', c. auto 10.
Qed.

Lemma stage_system_text prompt q url :
  system_text (stage_payload prompt q url) = Some prompt.
Proof. reflexivity. Qed.

(** X15. A run posts at most four requests, in the order of the stages:
    validation, OCR, normalization, audit. A run that returns has posted one
    request, and then the result has no [ambiguity_state], or all four, and
    then it has one. *)
Theorem analyze_posts_in_stage_order image w w' r :
  analyze image w = (w', r) ->
  exists posted k,
    sent w' = (sent w ++ posted)%list /\
    (k <= 4)%nat /\
    map system_text posted = firstn k stage_prompts /\
    (forall res, r = Ok res ->
       (k = 1%nat /\ getitem_str res "ambiguity_state" = Raise KeyError) \/
       (k = 4%nat /\ exists st, getitem_str res "ambiguity_state" = Ok (JStr st))).
Proof.
  unfold analyze, analyze_prescription, bind, lift, ret.
  destruct (prepare_image_for_api image) as [image_data|e].
  2:{ intros [= <- <-]. exists [], 0%nat. rewrite app_nil_r.
      repeat split; [lia|discriminate]. }
  fold call.
  destruct (call (get_step_prompt "validation") validation_query (Some image_data) w)
    as [w1 [t1|e]] eqn:E1.
  2:{ intros [= <- <-]. eexists. exists 1%nat.
      split; [exact (call_sent _ _ _ _ _ _ _ E1)|].
      repeat split; [lia|discriminate]. }
  apply call_sent in E1. fold decode.
  destruct (gate_blocks (decode validation_fallback t1)) as [blocked|e].
  2:{ intros [= <- <-]. eexists. exists 1%nat. split; [exact E1|].
      repeat split; [lia|discriminate]. }
  destruct blocked.
  { intros [= <- <-]. eexists. exists 1%nat. split; [exact E1|].
    repeat split; [lia|]. intros res [= <-]. left. split; reflexivity. }
  destruct (call (get_step_prompt "ocr") ocr_query (Some image_data) w1)
    as [w2 [raw_ocr|e]] eqn:E2.
  2:{ intros [= <- <-]. apply call_sent in E2. eexists. exists 2%nat.
      split; [rewrite E2, E1, <- app_assoc; reflexivity|].
      repeat split; [lia|discriminate]. }
  apply call_sent in E2.
  destruct (call (get_step_prompt "normalize") (normalize_query raw_ocr) None w2)
    as [w3 [t3|e]] eqn:E3.
  2:{ intros [= <- <-]. apply call_sent in E3. eexists. exists 3%nat.
      split; [rewrite E3, E2, E1, <- !app_assoc; reflexivity|].
      repeat split; [lia|discriminate]. }
  apply call_sent in E3.
  destruct (call (get_step_prompt "audit")
              (audit_query json_dumps raw_ocr (decode extraction_fallback t3)) None w3)
    as [w4 [t4|e]] eqn:E4.
  2:{ intros [= <- <-]. apply call_sent in E4. eexists. exists 4%nat.
      split; [rewrite E4, E3, E2, E1, <- !app_assoc; reflexivity|].
      repeat split; [lia|discriminate]. }
  apply call_sent in E4.
  assert (Hsent : sent w4
                  = (sent w ++ [ stage_payload (get_step_prompt "validation")
                                   validation_query (Some image_data);
                                 stage_payload (get_step_prompt "ocr") ocr_query
                                   (Some image_data);
                                 stage_payload (get_step_prompt "normalize")
                                   (normalize_query raw_ocr) None;
                                 stage_payload (get_step_prompt "audit")
                                   (audit_query json_dumps raw_ocr
                                      (decode extraction_fallback t3)) None ])%list).
  { rewrite E4, E3, E2, E1, <- !app_assoc. reflexivity. }
  destruct (setitem_str _ _ _) as [audit'|e].
  2:{ intros [= <- <-]. eexists. exists 4%nat. split; [exact Hsent|].
      repeat split; [lia|discriminate]. }
  destruct (classify _ _) as [c|e].
  2:{ intros [= <- <-]. eexists. exists 4%nat. split; [exact Hsent|].
      repeat split; [lia|discriminate]. }
  intros [= <- <-]. eexists. exists 4%nat. split; [exact Hsent|].
  repeat split; [lia|]. intros res [= <-]. right. split; [reflexivity|].
  exists (fst c). reflexivity.
Qed.

Lemma fallback_is_blocked : gate_blocks validation_fallback = Ok true.
Proof. reflexivity. Qed.

(** X16. A validation answer that is not JSON is a rejection: the run
    returns the rejection result around the fallback verdict, with the
    reason [Classification failed], after the one request. *)
Theorem undecodable_validation_is_rejected image image_data w w1 text e :
  prepare_image_for_api image = Ok image_data ->
  call (get_step_prompt "validation") validation_query (Some image_data) w = (w1, Ok text) ->
  json_loads (clean_json_response text) = Raise e ->
  analyze image w
  = (w1, Ok (rejection (JDict [ ("is_prescription", JBool false); ("confidence", JInt 0);
                                ("reason", JStr "Classification failed") ]))).
Proof.
  intros Hprep Hcall Hload.
  assert (Hd : decode validation_fallback text = validation_fallback).
  { unfold decode, decode_or. now rewrite Hload. }
  change (JDict [ ("is_prescription", JBool false); ("confidence", JInt 0);
                  ("reason", JStr "Classification failed") ]) with validation_fallback.
  rewrite <- Hd.
  apply (analyze_blocked json_loads json_dumps Image prepare_image_for_api
           image image_data w w1 text Hprep Hcall).
  fold decode. rewrite Hd. exact fallback_is_blocked.
Qed.

(** X17. A validation object without [is_prescription], or without
    [confidence], is blocked by the gate: a missing verdict counts as false
    and a missing confidence as 0. *)
Theorem missing_verdict_is_rejected image image_data w w1 text d :
  prepare_image_for_api image = Ok image_data ->
  call (get_step_prompt "validation") validation_query (Some image_data) w = (w1, Ok text) ->
  decode validation_fallback text = JDict d ->
  dict_get "is_prescription" d = None \/ dict_get "confidence" d = None ->
  analyze image w = (w1, Ok (rejection (JDict d))).
Proof.
  intros Hprep Hcall Hdec Hmiss. rewrite <- Hdec.
  apply (analyze_blocked json_loads json_dumps Image prepare_image_for_api
           image image_data w w1 text Hprep Hcall).
  fold decode. rewrite Hdec. unfold gate_blocks. cbn [py_get rbind].
  destruct Hmiss as [H | H]; rewrite H.
  - reflexivity.
  - destruct (negb (truthy _)); reflexivity.
Qed.

(** X18. When neither the normalization answer nor the audit answer is
    JSON, the run still returns: the extraction is empty with confidence 0,
    the audit is the fallback with the validation attached and exactly the
    two fixed flags, and the state is UNRESOLVABLE. *)
Theorem undecodable_stages_are_unresolvable
    image image_data w w1 t1 w2 raw_ocr w3 t3 w4 t4 e3 e4 :
  prepare_image_for_api image = Ok image_data ->
  call (get_step_prompt "validation") validation_query (Some image_data) w = (w1, Ok t1) ->
  gate_blocks (decode validation_fallback t1) = Ok false ->
  call (get_step_prompt "ocr") ocr_query (Some image_data) w1 = (w2, Ok raw_ocr) ->
  call (get_step_prompt "normalize") (normalize_query raw_ocr) None w2 = (w3, Ok t3) ->
  json_loads (clean_json_response t3) = Raise e3 ->
  call (get_step_prompt "audit") (audit_query json_dumps raw_ocr extraction_fallback) None w3
    = (w4, Ok t4) ->
  json_loads (clean_json_response t4) = Raise e4 ->
  analyze image w
  = (w4, Ok (JDict
       [ ("validation", decode validation_fallback t1);
         ("extraction", JDict [ ("medicines", JList []); ("overall_confidence", JInt 0) ]);
         ("audit", JDict [ ("ambiguities", JList []);
                           ("safety_flags",
                            JList [ JStr "Handwriting too unclear for safe AI interpretation";
                                    JStr "No medically safe correction candidates available" ]);
                           ("is_safe_to_display", JBool false);
                           ("validation", decode validation_fallback t1) ]);
         ("raw_ocr", JStr raw_ocr);
         ("ambiguity_state", JStr "UNRESOLVABLE") ])).
Proof.
  intros Hprep H1 Hgate H2 H3 Hl3 H4 Hl4.
  assert (Hd3 : decode extraction_fallback t3 = extraction_fallback).
  { unfold decode, decode_or. now rewrite Hl3. }
  assert (Hd4 : decode audit_fallback t4 = audit_fallback).
  { unfold decode, decode_or. now rewrite Hl4. }
  rewrite <- Hd3 in H4. unfold analyze.
  rewrite (analyze_completed json_loads json_dumps Image prepare_image_for_api
             image image_data w w1 t1 w2 raw_ocr w3 t3 w4 t4
             (JDict (dict_set "validation" (decode validation_fallback t1)
                       [ ("ambiguities", JList []); ("safety_flags", JList []);
                         ("is_safe_to_display", JBool false) ]))
             ("UNRESOLVABLE",
              JDict [ ("ambiguities", JList []);
                      ("safety_flags", JList [JStr FLAG_UNCLEAR; JStr FLAG_NO_CANDIDATES]);
                      ("is_safe_to_display", JBool false);
                      ("validation", decode validation_fallback t1) ])
             Hprep H1 Hgate H2 H3 H4).
  - fold decode. rewrite Hd3. reflexivity.
  - fold decode. rewrite Hd4. reflexivity.
  - fold decode. rewrite Hd3. reflexivity.
Qed.

(** A run that reaches the classification raises what the classification
    raises. *)
Lemma analyze_crashes image image_data w w1 t1 w2 raw_ocr w3 t3 w4 t4 audit' e :
  prepare_image_for_api image = Ok image_data ->
  call (get_step_prompt "validation") validation_query (Some image_data) w = (w1, Ok t1) ->
  gate_blocks (decode validation_fallback t1) = Ok false ->
  call (get_step_prompt "ocr") ocr_query (Some image_data) w1 = (w2, Ok raw_ocr) ->
  call (get_step_prompt "normalize") (normalize_query raw_ocr) None w2 = (w3, Ok t3) ->
  call (get_step_prompt "audit")
       (audit_query json_dumps raw_ocr (decode extraction_fallback t3)) None w3
    = (w4, Ok t4) ->
  setitem_str (decode audit_fallback t4) "validation" (decode validation_fallback t1)
    = Ok audit' ->
  classify (decode extraction_fallback t3) audit' = Raise e ->
  analyze image w = (w4, Raise e).
Proof.
  intros Hprep H1 Hgate H2 H3 H4 Hset Hcl.
  unfold analyze, analyze_prescription, bind, lift.
  rewrite Hprep. fold call. rewrite H1. fold decode. rewrite Hgate, H2, H3, H4.
  rewrite Hset, Hcl. reflexivity.
Qed.

(** X19. An [overall_confidence] that is present but is no number, [null]
    for one, is not taken as missing: the comparison with the threshold
    raises [TypeError], and the run fails with it after all four requests
    have been made. *)
Theorem non_numeric_confidence_crashes
    image image_data w w1 t1 w2 raw_ocr w3 t3 ed v w4 t4 ad :
  prepare_image_for_api image = Ok image_data ->
  call (get_step_prompt "validation") validation_query (Some image_data) w = (w1, Ok t1) ->
  gate_blocks (decode validation_fallback t1) = Ok false ->
  call (get_step_prompt "ocr") ocr_query (Some image_data) w1 = (w2, Ok raw_ocr) ->
  call (get_step_prompt "normalize") (normalize_query raw_ocr) None w2 = (w3, Ok t3) ->
  json_loads (clean_json_response t3) = Ok (JDict ed) ->
  dict_get "overall_confidence" ed = Some v ->
  not_a_number v = true ->
  call (get_step_prompt "audit") (audit_query json_dumps raw_ocr (JDict ed)) None w3
    = (w4, Ok t4) ->
  decode audit_fallback t4 = JDict ad ->
  analyze image w = (w4, Raise TypeError).
Proof.
  intros Hprep H1 Hgate H2 H3 Hload Hv Hnan H4 Haudit.
  assert (Hext : decode extraction_fallback t3 = JDict ed).
  { unfold decode, decode_or. now rewrite Hload. }
  apply (analyze_crashes image image_data w w1 t1 w2 raw_ocr w3 t3 w4 t4
           (JDict (dict_set "validation" (decode validation_fallback t1) ad)));
    auto.
  - rewrite Hext. exact H4.
  - rewrite Haudit. reflexivity.
  - rewrite Hext. unfold classify. cbn [py_get rbind]. rewrite Hv.
    destruct v; try discriminate; reflexivity.
Qed.

(** X20. The audit record of a result never carries the state the
    classification found: the block writes [ambiguity_state] beside the
    audit, not into it. So the lookup of the prescription page, applied to
    the audit record as [analyze_prescription] returns it, gives CLEAR,
    unless the model's own audit answer had an [ambiguity_state] field, and
    then it gives the model's value. *)
Theorem page_lookup_misses_the_state image w w' res :
  analyze image w = (w', Ok res) ->
  exists audit_rec,
    getitem_str res "audit" = Ok audit_rec /\
    (page_ambiguity_state audit_rec = Ok (JStr "CLEAR") \/
     exists w3 q t4 ad x,
       call (get_step_prompt "audit") q None w3 = (w', Ok t4) /\
       decode audit_fallback t4 = JDict ad /\
       dict_get "ambiguity_state" ad = Some x /\
       page_ambiguity_state audit_rec = Ok x).
Proof.
  intros H. apply analyze_returns in H
    as (image_data & w1 & t1 & Hprep & H1 & [(Hg & -> & ->) | (Hg & Hfull)]).
  - eexists. split; [reflexivity|]. left. reflexivity.
  - destruct Hfull as (w2 & raw & w3 & t3 & t4 & audit' & [st a1] & H2 & H3 & H4 & Hs & Hc & ->).
    exists a1. split; [reflexivity|]. cbn [fst snd] in *.
    destruct (classify_frame _ _ _ _ Hc) as (d & d' & -> & -> & _ & _ & Hk).
    destruct (decode audit_fallback t4) as [| | | | | |ad] eqn:Ed; try discriminate.
    cbn [setitem_str] in Hs. injection Hs as <-.
    unfold page_ambiguity_state. cbn [py_get].
    rewrite (Hk "ambiguity_state") by discriminate.
    rewrite dict_get_set_other by discriminate.
    destruct (dict_get "ambiguity_state" ad) as [x|] eqn:Ex.
    + right. exists w3, (audit_query json_dumps raw (decode extraction_fallback t3)), t4, ad, x.
      repeat split; auto.
    + left. reflexivity.
Qed.

(** X21. No stage is retried and no error is absorbed but a decoding
    error: when the image cannot be prepared the run raises before any
    request, and when the request of a stage raises, the run raises the
    same error right there, the later stages never being requested. *)
Theorem stage_error_propagates image w :
  (forall e, prepare_image_for_api image = Raise e -> analyze image w = (w, Raise e)) /\
  (forall image_data,
     prepare_image_for_api image = Ok image_data ->
     (forall w1 e,
        call (get_step_prompt "validation") validation_query (Some image_data) w
          = (w1, Raise e) ->
        analyze image w = (w1, Raise e)) /\
     (forall w1 t1,
        call (get_step_prompt "validation") validation_query (Some image_data) w
          = (w1, Ok t1) ->
        gate_blocks (decode validation_fallback t1) = Ok false ->
        (forall w2 e,
           call (get_step_prompt "ocr") ocr_query (Some image_data) w1 = (w2, Raise e) ->
           analyze image w = (w2, Raise e)) /\
        (forall w2 raw_ocr,
           call (get_step_prompt "ocr") ocr_query (Some image_data) w1 = (w2, Ok raw_ocr) ->
           (forall w3 e,
              call (get_step_prompt "normalize") (normalize_query raw_ocr) None w2
                = (w3, Raise e) ->
              analyze image w = (w3, Raise e)) /\
           (forall w3 t3 w4 e,
              call (get_step_prompt "normalize") (normalize_query raw_ocr) None w2
                = (w3, Ok t3) ->
              call (get_step_prompt "audit")
                   (audit_query json_dumps raw_ocr (decode extraction_fallback t3)) None w3
                = (w4, Raise e) ->
              analyze image w = (w4, Raise e))))).
Proof.
  split.
  - intros e He. unfold analyze, analyze_prescription, bind, lift. now rewrite He.
  - intros image_data Hprep. split.
    + intros w1 e H1. unfold analyze, analyze_prescription, bind, lift.
      rewrite Hprep. fold call. now rewrite H1.
    + intros w1 t1 H1 Hg. split.
      * intros w2 e H2. unfold analyze, analyze_prescription, bind, lift.
        rewrite Hprep. fold call. rewrite H1. fold decode. now rewrite Hg, H2.
      * intros w2 raw_ocr H2. split.
        -- intros w3 e H3. unfold analyze, analyze_prescription, bind, lift.
           rewrite Hprep. fold call. rewrite H1. fold decode. now rewrite Hg, H2, H3.
        -- intros w3 t3 w4 e H3 H4. unfold analyze, analyze_prescription, bind, lift.
           rewrite Hprep. fold call. rewrite H1. fold decode.
           now rewrite Hg, H2, H3, H4.
Qed.

End PipelineMore.

(** ** The chat mode of the sidebar *)

Lemma str_split_not_nil (sep : ascii) (s : string) : str_split sep s <> [].
Proof.
  destruct s as [|c s]; cbn [str_split]; [discriminate|].
  destruct (Ascii.eqb c sep); [discriminate|].
  destruct (str_split sep s); discriminate.
Qed.

Lemma str_split_no_sep (sep : ascii) (s : string) :
  without_char sep s = true -> str_split sep s = [s].
Proof.
  induction s as [|c s IH]; cbn [without_char str_split]; [reflexivity|].
  destruct (Ascii.eqb c sep); [discriminate|]. cbn [negb andb].
  intros H. now rewrite (IH H).
Qed.

Lemma str_split_head (sep : ascii) (head rest : string) :
  without_char sep head = true ->
  str_split sep (head ++ String sep rest) = head :: str_split sep rest.
Proof.
  induction head as [|c head IH]; cbn [without_char String.append str_split].
  - intros _. now rewrite Ascii.eqb_refl.
  - destruct (Ascii.eqb c sep); [discriminate|]. cbn [negb andb].
    intros H. now rewrite (IH H).
Qed.

Lemma str_join_split (sep : ascii) (s : string) :
  str_join (String sep EmptyString) (str_split sep s) = s.
Proof.
  induction s as [|c s IH]; cbn [str_split]; [reflexivity|].
  destruct (Ascii.eqb c sep) eqn:Ec.
  - apply Ascii.eqb_eq in Ec as ->.
    pose proof (str_split_not_nil sep s) as Hne.
    destruct (str_split sep s) as [|piece pieces]; [contradiction|].
    rewrite <- IH. reflexivity.
  - pose proof (str_split_not_nil sep s) as Hne.
    destruct (str_split sep s) as [|piece pieces]; [contradiction|].
    rewrite <- IH. destruct pieces; reflexivity.
Qed.

(** X22. The mode the sidebar hands to the backend is the selected label
    without its first word: everything after the first space, further spaces
    kept as they are. A label without any space gives the empty mode. *)
Theorem mode_selector_drops_first_word (head rest : string) :
  without_char " " head = true ->
  render_chat_mode_selector (head ++ " " ++ rest) = rest /\
  render_chat_mode_selector head = EmptyString.
Proof.
  intros H. unfold render_chat_mode_selector. split.
  - change (head ++ " " ++ rest) with (head ++ String " " rest).
    rewrite (str_split_head _ _ _ H). cbn [tl].
    exact (str_join_split " " rest).
  - now rewrite (str_split_no_sep _ _ H).
Qed.

(** X23. Each mode the sidebar offers reaches a prompt of its own: what
    [render_chat_mode_selector] returns for the label is a key of
    [MODE_PROMPTS], so [get_mode_prompt] answers with that entry and not
    with the default. *)
Theorem offered_modes_have_prompts (label : string) :
  In label modes ->
  exists prompt,
    lookup (render_chat_mode_selector label) MODE_PROMPTS = Some prompt /\
    get_mode_prompt (render_chat_mode_selector label) = prompt /\
    prompt <> DEFAULT_MODE_PROMPT.
Proof.
  intros [<- | [<- | []]].
  - exists MODE_Explain_Prescription. repeat split.
    apply String.eqb_neq. reflexivity.
  - exists MODE_Create_Schedule. repeat split.
    apply String.eqb_neq. reflexivity.
Qed.

(** ** The form of the unresolvable card *)

Lemma boosted_reaches_threshold : ge_threshold (JFloat boosted_confidence) = Ok true.
Proof. reflexivity. Qed.

(** X24. A medicine confirmed by hand, on an extraction whose [medicines]
    is a list or is missing: the medicine is appended behind the ones that
    were there, the overall confidence becomes 0.8, the audit record gets the
    state CLEAR and keeps every other field, the safety flags among them, and
    the store, when the session has a prescription entry, is handed these very
    two records. The page then reads CLEAR off the audit record, and 0.8
    reaches the threshold of the classification, which would say CLEAR
    too. *)
Theorem confirmed_medicine_clears_state
    (DB : Type) (update_prescription_data : option string -> json -> json -> DB -> result DB)
    (manual_name med_type : string) (session_entry : option (option string))
    (ed ad : list (string * json)) (meds : list json) (d d' : DB) :
  manual_name <> EmptyString ->
  kwarg ed "medicines" (JList []) = JList meds ->
  match session_entry with
  | None => d' = d
  | Some p_id =>
      update_prescription_data p_id
        (JDict (dict_set "overall_confidence" (JFloat boosted_confidence)
                  (dict_set "medicines" (JList (meds ++ [new_med manual_name med_type])) ed)))
        (JDict (dict_set "ambiguity_state" (JStr "CLEAR") ad)) d = Ok d'
  end ->
  exists ed' ad',
    confirm_medicine DB update_prescription_data manual_name med_type session_entry
      (JDict ed) (JDict ad) d
    = ((JDict ed', JDict ad', d'), Ok true) /\
    dict_get "medicines" ed' = Some (JList (meds ++ [new_med manual_name med_type])) /\
    dict_get "overall_confidence" ed' = Some (JFloat boosted_confidence) /\
    (forall k, k <> "medicines" -> k <> "overall_confidence" ->
               dict_get k ed' = dict_get k ed) /\
    dict_get "ambiguity_state" ad' = Some (JStr "CLEAR") /\
    (forall k, k <> "ambiguity_state" -> dict_get k ad' = dict_get k ad) /\
    page_ambiguity_state (JDict ad') = Ok (JStr "CLEAR") /\
    classify (JDict ed') (JDict ad') = Ok ("CLEAR", JDict ad').
Proof.
  intros Hname Hmeds Hdb.
  exists (dict_set "overall_confidence" (JFloat boosted_confidence)
            (dict_set "medicines" (JList (meds ++ [new_med manual_name med_type])) ed)),
         (dict_set "ambiguity_state" (JStr "CLEAR") ad).
  split; [|repeat split].
  - unfold confirm_medicine. apply String.eqb_neq in Hname. rewrite Hname.
    cbn [py_in]. unfold kwarg in Hmeds.
    destruct (dict_get "medicines" ed) as [m|] eqn:Em.
    + subst m. cbn [getitem_str rbind]. rewrite Em. cbn [py_append rbind setitem_str].
      destruct session_entry as [p_id|].
      * now rewrite Hdb.
      * now subst d'.
    + injection Hmeds as <-. cbn [app] in Hdb. cbn [setitem_str getitem_str rbind].
      rewrite dict_get_set_same. cbn [py_append rbind app setitem_str].
      rewrite dict_set_set.
      destruct session_entry as [p_id|].
      * now rewrite Hdb.
      * now subst d'.
  - rewrite dict_get_set_other by discriminate. apply dict_get_set_same.
  - apply dict_get_set_same.
  - intros k H1 H2. rewrite !dict_get_set_other; auto.
  - apply dict_get_set_same.
  - intros k H. now rewrite dict_get_set_other.
  - unfold page_ambiguity_state. cbn [py_get]. now rewrite dict_get_set_same.
  - unfold classify. cbn [py_get rbind]. rewrite dict_get_set_same.
    rewrite boosted_reaches_threshold. reflexivity.
Qed.

(** ** The session and the chat of the prescription page *)

Section FrontendProperties.

Variable json_loads : string -> result json.
Variable json_dumps : json -> string.
Variable Image : Type.
Variable prepare_image_for_api : Image -> result string.
Variable DB : Type.
Variable save_chat_message : string -> string -> string -> DB -> result DB.

Let chat := page_chat json_loads json_dumps Image prepare_image_for_api DB save_chat_message.

Lemma restore_all (history : list chat_message) : forall s : session DB,
  memory (fold_left (restore_message DB) history s)
  = (memory s
     ++ map (fun msg => match msg with
                        | HumanMessage c => HumanMessage c
                        | SystemMessage c | AIMessage c => AIMessage c
                        end) history)%list /\
  db (fold_left (restore_message DB) history s) = db s /\
  net (fold_left (restore_message DB) history s) = net s.
Proof.
  induction history as [|msg history IH]; intros s; cbn [fold_left map].
  - now rewrite app_nil_r.
  - destruct (IH (restore_message DB s msg)) as (Hm & Hd & Hn).
    rewrite Hm, Hd, Hn.
    destruct msg; cbn; rewrite <- app_assoc; auto.
Qed.

Lemma map_stored_id (history : list chat_message) :
  forallb (fun msg => negb (String.eqb (message_type msg) "system")) history = true ->
  map (fun msg => match msg with
                  | HumanMessage c => HumanMessage c
                  | SystemMessage c | AIMessage c => AIMessage c
                  end) history = history.
Proof.
  induction history as [|msg history IH]; cbn [forallb map]; [reflexivity|].
  intros H. apply andb_prop in H as [H1 H2]. rewrite (IH H2).
  destruct msg; [discriminate| |]; reflexivity.
Qed.

(** X25. Loading a prescription into the session replaces the memory of
    the chain by the history that is loaded: what the memory held before is
    gone, the messages come in the order of the history, a human message as
    a human message and every other one, a system message too, as an AI
    message. With no system message in it, the memory is the chat history of
    the session again. The chain takes the new prescription id, and neither
    the chat store nor the transport is touched. *)
Theorem load_rebuilds_memory
    (p_id : option string) (img_hash : string) (image : Image) (analysis : json)
    (history : list chat_message) (st : session_state Image DB)
    (chain : vision_chain_object DB) :
  vision_chain st = Some chain ->
  exists chain',
    vision_chain (load_into_session Image DB p_id img_hash image analysis history st)
    = Some chain' /\
    chain_prescription_id chain' = p_id /\
    memory (conversation chain')
    = map (fun msg => match msg with
                      | HumanMessage c => HumanMessage c
                      | SystemMessage c | AIMessage c => AIMessage c
                      end) history /\
    db (conversation chain') = db (conversation chain) /\
    net (conversation chain') = net (conversation chain) /\
    (forallb (fun msg => negb (String.eqb (message_type msg) "system")) history = true ->
     memory (conversation chain')
     = chat_history (load_into_session Image DB p_id img_hash image analysis history st)).
Proof.
  intros Hc. unfold load_into_session. cbn [vision_chain chat_history]. rewrite Hc.
  eexists. split; [reflexivity|]. cbn [chain_prescription_id conversation].
  destruct (restore_all history (clear_memory DB (conversation chain))) as (Hm & Hd & Hn).
  cbn [clear_memory memory db net with_memory app] in Hm, Hd, Hn.
  repeat split; auto.
  intros H. rewrite Hm. now apply map_stored_id.
Qed.

Lemma from_end_two (A : Type) (l : list A) (x y : A) :
  from_end 2 (l ++ [x; y]) = Ok x /\ from_end 1 (l ++ [x; y]) = Ok y.
Proof. unfold from_end. rewrite rev_app_distr. split; reflexivity. Qed.

(** X26. The chat of the page keeps the chat history in step with the
    memory. With a fuel of three more than the response has lines, the loop
    over the generator ends; when it ends without an error, the history has
    grown by the user's message and by an AI message that holds exactly the
    text shown, the memory has grown by the same two messages, and a history
    that was equal to the memory before is equal to it again. *)
Theorem page_chat_keeps_history_in_step
    (a : chat_args Image) (fuel : nat) (history : list chat_message)
    (chain : vision_chain_object DB) :
  passable (model_params a) = true ->
  (3 + lines_ahead (net (conversation chain)) <= fuel)%nat ->
  exists r,
    chat a fuel history chain = Some r /\
    forall history' chain' text,
      r = (history', chain', Ok text) ->
      history' = (history ++ [HumanMessage (user_query a); AIMessage text])%list /\
      memory (conversation chain')
      = (memory (conversation chain)
         ++ [HumanMessage (user_query a); AIMessage text])%list /\
      chain_prescription_id chain' = chain_prescription_id chain /\
      (history = memory (conversation chain) -> history' = memory (conversation chain')).
Proof.
  intros _ Hfuel.
  pose proof (turn_ends json_loads json_dumps Image prepare_image_for_api DB
                save_chat_message (chain_prescription_id chain) a fuel
                (conversation chain) Hfuel) as Hends.
  unfold chat, page_chat.
  destruct (chat_take json_loads json_dumps Image prepare_image_for_api DB
              save_chat_message (chain_prescription_id chain) a fuel ChatCreated
              (conversation chain)) as [s' [[frags o] g]] eqn:Et.
  cbn [outcome_of fst snd] in Hends.
  destruct o as [| |e].
  - contradiction Hends. reflexivity.
  - apply turn_memory in Et as (chunks & -> & Hm).
    rewrite Hm.
    destruct (from_end_two _ (memory (conversation chain)) (HumanMessage (user_query a))
                (AIMessage (join chunks ++ GLOBAL_DISCLAIMER))) as [-> ->].
    eexists. split; [reflexivity|].
    intros history' chain' text [= <- <- <-].
    cbn [conversation chain_prescription_id]. rewrite join_snoc.
    repeat split; auto. intros ->. now rewrite Hm.
  - eexists. split; [reflexivity|]. intros history' chain' text [=].
Qed.

(** X27. A chat that ends with an error shows nothing new: the chat
    history is as it was. The memory, though, may have moved on: it is
    unchanged, or it holds the user's message, or, when it was the store
    that refused the reply, the user's message and the reply. *)
Theorem failed_chat_leaves_history_behind
    (a : chat_args Image) (fuel : nat) (history history' : list chat_message)
    (chain chain' : vision_chain_object DB) (e : exn) :
  chat a fuel history chain = Some (history', chain', Raise e) ->
  history' = history /\
  (memory (conversation chain') = memory (conversation chain) \/
   memory (conversation chain')
   = (memory (conversation chain) ++ [HumanMessage (user_query a)])%list \/
   exists reply,
     memory (conversation chain')
     = (memory (conversation chain)
        ++ [HumanMessage (user_query a); AIMessage reply])%list).
Proof.
  unfold chat, page_chat.
  destruct (chat_take json_loads json_dumps Image prepare_image_for_api DB
              save_chat_message (chain_prescription_id chain) a fuel ChatCreated
              (conversation chain)) as [s' [[frags o] g]] eqn:Et.
  destruct o as [| |e0].
  - discriminate.
  - apply turn_memory in Et as (chunks & -> & Hm).
    rewrite Hm.
    destruct (from_end_two _ (memory (conversation chain)) (HumanMessage (user_query a))
                (AIMessage (join chunks ++ GLOBAL_DISCLAIMER))) as [-> ->].
    discriminate.
  - intros [= <- <- <-]. split; [reflexivity|]. cbn [conversation].
    exact (turn_raised json_loads json_dumps Image prepare_image_for_api DB
             save_chat_message (chain_prescription_id chain) a fuel
             (conversation chain) s' frags e0 g Et).
Qed.

End FrontendProperties.

(** ** The safety rule and the other states *)

Section SafetyRule.

Variable json_loads : string -> result json.
Variable json_dumps : json -> string.
Variable Image : Type.
Variable prepare_image_for_api : Image -> result string.
Variable DB : Type.
Variable save_chat_message : string -> string -> string -> DB -> result DB.
Variable prescription_id : option string.

(** X28. The safety rule goes to the model for the state UNRESOLVABLE and
    for no other: with any other text as [ambiguity_state], CLARIFIABLE or
    the same word in small letters, the system message of the payload is the
    prompt of the mode, an empty line and the context, and nothing else. *)
Theorem rule_only_when_unresolvable
    (a : chat_args Image) (s s1 : session DB) (image_data : string) :
  passable (model_params a) = true ->
  ambiguity_state a <> "UNRESOLVABLE" ->
  prepare_image_for_api (image a) = Ok image_data ->
  save_turn DB save_chat_message prescription_id "user" (user_query a)
    (add_user_message (user_query a) s) = (s1, Ok tt) ->
  exists s' r payload,
    chat_next json_loads json_dumps Image prepare_image_for_api DB save_chat_message
      prescription_id a ChatCreated s = (s', r) /\
    sent (net s') = (sent (net s) ++ [payload])%list /\
    system_text payload
    = Some (get_mode_prompt (mode a) ++ nl ++ nl
            ++ context_msg json_dumps (extraction_context a)).
Proof.
  intros Hpass Hst Hprep Hsave.
  destruct (first_next_posts json_loads json_dumps Image prepare_image_for_api DB
              save_chat_message prescription_id a s s1 image_data Hpass Hprep Hsave)
    as (s' & r & Hn & Hs).
  exists s', r. eexists. split; [exact Hn|]. split; [exact Hs|].
  rewrite system_text_posted. unfold combined_system, system_prompt.
  apply String.eqb_neq in Hst. now rewrite Hst.
Qed.

End SafetyRule.

(** ** Answers that are JSON and no object *)

Section NonObjectAnswers.

Variable json_loads : string -> result json.
Variable json_dumps : json -> string.
Variable Image : Type.
Variable prepare_image_for_api : Image -> result string.

Let analyze := analyze_prescription json_loads json_dumps Image prepare_image_for_api.
Let call := call_non_streaming json_loads.
Let decode := decode_or json_loads.

(** X29. Only the decoding is guarded: an answer that decodes to something
    other than an object ([null], a number, a text, a list) is taken as it
    is, and the run fails on its first use. For the validation that is the
    gate, with [AttributeError] after the one request; for the audit it is
    the assignment of the validation, with [TypeError] after all four
    requests; for the normalization it is the classification, with
    [AttributeError] after all four requests. *)
Theorem non_object_answers_crash image image_data w w1 t1 :
  prepare_image_for_api image = Ok image_data ->
  call (get_step_prompt "validation") validation_query (Some image_data) w = (w1, Ok t1) ->
  (is_object (decode validation_fallback t1) = false ->
   analyze image w = (w1, Raise AttributeError)) /\
  (forall w2 raw_ocr w3 t3 w4 t4,
     gate_blocks (decode validation_fallback t1) = Ok false ->
     call (get_step_prompt "ocr") ocr_query (Some image_data) w1 = (w2, Ok raw_ocr) ->
     call (get_step_prompt "normalize") (normalize_query raw_ocr) None w2 = (w3, Ok t3) ->
     call (get_step_prompt "audit")
          (audit_query json_dumps raw_ocr (decode extraction_fallback t3)) None w3
       = (w4, Ok t4) ->
     (is_object (decode audit_fallback t4) = false ->
      analyze image w = (w4, Raise TypeError)) /\
     (is_object (decode audit_fallback t4) = true ->
      is_object (decode extraction_fallback t3) = false ->
      analyze image w = (w4, Raise AttributeError))).
Proof.
  intros Hprep H1. split.
  - intros Hv. unfold analyze, analyze_prescription, bind, lift.
    rewrite Hprep. fold call. rewrite H1. fold decode.
    destruct (decode validation_fallback t1); try discriminate; reflexivity.
  - intros w2 raw_ocr w3 t3 w4 t4 Hg H2 H3 H4. split.
    + intros Ha. unfold analyze, analyze_prescription, bind, lift.
      rewrite Hprep. fold call. rewrite H1. fold decode. rewrite Hg, H2, H3, H4.
      destruct (decode audit_fallback t4); try discriminate; reflexivity.
    + intros Ha He. unfold analyze, analyze_prescription, bind, lift.
      rewrite Hprep. fold call. rewrite H1. fold decode. rewrite Hg, H2, H3, H4.
      destruct (decode audit_fallback t4) as [| | | | | |ad]; try discriminate.
      cbn [setitem_str].
      destruct (decode extraction_fallback t3); try discriminate; reflexivity.
Qed.

End NonObjectAnswers.

(** ** Keyword parameters that [stream] refuses *)

Section RefusedParameters.

Variable json_loads : string -> result json.
Variable json_dumps : json -> string.
Variable Image : Type.
Variable prepare_image_for_api : Image -> result string.
Variable DB : Type.
Variable save_chat_message : string -> string -> string -> DB -> result DB.
Variable prescription_id : option string.

(** X30. A chat turn called with a keyword parameter named [messages]
    fails on the call of [stream], which gets two values for its argument:
    the first [next] raises [TypeError] without a fragment, after the user's
    message has been appended to the history and handed to the store, and
    nothing is posted. *)
Theorem refused_parameters_raise
    (a : chat_args Image) (n : nat) (s s1 : session DB) (image_data : string) :
  passable (model_params a) = false ->
  prepare_image_for_api (image a) = Ok image_data ->
  save_turn DB save_chat_message prescription_id "user" (user_query a)
    (add_user_message (user_query a) s) = (s1, Ok tt) ->
  chat_take json_loads json_dumps Image prepare_image_for_api DB save_chat_message
    prescription_id a (S n) ChatCreated s
  = (s1, ([], Raised TypeError, ChatClosed)) /\
  memory s1 = (memory s ++ [HumanMessage (user_query a)])%list /\
  net s1 = net s.
Proof.
  intros Hpass Hprep Hsave.
  rewrite created_unfolds, Hprep, Hsave, Hpass. split; [reflexivity|].
  exact (save_keeps json_loads json_dumps Image prepare_image_for_api DB
           save_chat_message prescription_id _ _ _ _ _ Hsave).
Qed.

End RefusedParameters.

(** * Worked runs *)

Example run_stops_at_gate :
  analyze_prescription loads_known dumps_plain unit prepare_0 tt world_low
  = (world_low_1, Ok (rejection (JDict low_validation))).
Proof. vm_compute. reflexivity. Qed.

(** A validation answer that is not JSON is replaced by the fallback, which
    the gate blocks. *)
Example run_with_undecodable_validation :
  snd (analyze_prescription loads_known dumps_plain unit prepare_0 tt
         (script [accepted ["I cannot tell."]]))
  = Ok (rejection validation_fallback).
Proof. vm_compute. reflexivity. Qed.

Example run_through_all_stages :
  snd (analyze_prescription loads_known dumps_plain unit prepare_0 tt world_good)
  = Ok (JDict [ ("validation", JDict good_validation);
                ("extraction", JDict bare_extraction);
                ("audit", JDict (one_ambiguity ++ [("validation", JDict good_validation)]));
                ("raw_ocr", JStr ocr_text);
                ("ambiguity_state", JStr "CLEAR") ]).
Proof. vm_compute. reflexivity. Qed.

(** ** The classification on the design's examples *)

Example classify_clarifiable :
  classify (JDict half_confident) (JDict audit_with_options)
  = Ok ("CLARIFIABLE", JDict audit_with_options).
Proof. vm_compute. reflexivity. Qed.

Example classify_clear :
  classify (JDict [("overall_confidence", JFloat 0x1.b333333333333p-1)]) (JDict one_ambiguity)
  = Ok ("CLEAR", JDict one_ambiguity).
Proof. vm_compute. reflexivity. Qed.

Example classify_empty_options :
  option_map fst
    (match classify (JDict [("overall_confidence", JFloat 0x1.999999999999ap-2)]) (JDict one_ambiguity) with
     | Ok r => Some r
     | Raise _ => None
     end)
  = Some "UNRESOLVABLE".
Proof. vm_compute. reflexivity. Qed.

Lemma classify_three_way_witness :
  classify (JDict half_confident) (JDict audit_without_ambiguity)
  = Ok ("UNRESOLVABLE", JDict audit_marked).
Proof.
  apply (classify_three_way half_confident audit_without_ambiguity false [] []);
    reflexivity.
Defined.

Lemma classify_idempotent_witness :
  (forall n, reclassify (JDict half_confident) n ("UNRESOLVABLE", JDict audit_marked)
             = Ok ("UNRESOLVABLE", JDict audit_marked)) /\
  (forall d flags,
      JDict audit_without_ambiguity = JDict d -> flags_of d = JList flags ->
      exists d' flags',
        JDict audit_marked = JDict d' /\ flags_of d' = JList flags' /\
        forall flag, flag = FLAG_UNCLEAR \/ flag = FLAG_NO_CANDIDATES ->
          count_flag flag flags'
          = if String.eqb "UNRESOLVABLE" "UNRESOLVABLE"
            then Nat.max 1 (count_flag flag flags)
            else count_flag flag flags).
Proof.
  apply (classify_idempotent (JDict half_confident) (JDict audit_without_ambiguity)
           (JDict audit_marked) "UNRESOLVABLE").
  vm_compute. reflexivity.
Defined.

(** ** The gate on both sides of the threshold *)

Lemma gate_decides_witness :
  (exists res,
      analyze_prescription loads_known dumps_plain unit prepare_0 tt world_low
      = (world_low_1, Ok res) /\
      res = JDict [ ("validation", JDict low_validation);
                    ("extraction", JDict [ ("medicines", JList []);
                                           ("overall_confidence", JInt 0) ]);
                    ("audit", JDict [ ("ambiguities", JList []);
                                      ("safety_flags",
                                       JList [JStr "Image rejected by safety gate."]);
                                      ("is_safe_to_display", JBool false) ]);
                    ("raw_ocr", JStr EmptyString) ] /\
      getitem_str res "ambiguity_state" = Raise KeyError)
  /\
  (exists w2 r rest,
      analyze_prescription loads_known dumps_plain unit prepare_0 tt world_good = (w2, r) /\
      sent w2 = (sent world_good_1
                 ++ stage_payload (get_step_prompt "ocr") ocr_query (Some image_url_0)
                 :: rest)%list).
Proof.
  split.
  - apply (proj1 (gate_decides loads_known dumps_plain unit prepare_0 tt image_url_0
                    world_low world_low_1 low_validation_text low_validation
                    eq_refl ltac:(vm_compute; reflexivity)
                    ltac:(vm_compute; reflexivity))).
    right. exists (JFloat 0x1.6147ae147ae14p-1). split; reflexivity.
  - apply (proj2 (gate_decides loads_known dumps_plain unit prepare_0 tt image_url_0
                    world_good world_good_1 good_validation_text good_validation
                    eq_refl ltac:(vm_compute; reflexivity)
                    ltac:(vm_compute; reflexivity))).
    + reflexivity.
    + exists (JFloat 0x1.6666666666666p-1). split; reflexivity.
Defined.

Lemma missing_confidence_is_clear_witness :
  exists res,
    analyze_prescription loads_known dumps_plain unit prepare_0 tt world_good
    = (world_good_4, Ok res) /\
    getitem_str res "extraction" = Ok (JDict bare_extraction) /\
    getitem_str res "ambiguity_state" = Ok (JStr "CLEAR") /\
    py_get (JDict bare_extraction) "overall_confidence" (JFloat 1) = Ok (JFloat 1).
Proof.
  apply (missing_confidence_is_clear loads_known dumps_plain unit prepare_0 tt
           image_url_0 world_good world_good_1 good_validation_text
           world_good_2 ocr_text world_good_3 bare_extraction_text bare_extraction
           world_good_4 one_ambiguity_text one_ambiguity);
    vm_compute; reflexivity.
Defined.

(** ** The client on a refused request and on a [null] event *)

Lemma non_success_raises_witness :
  exists w',
    stream_take loads_known 3 (StreamCreated [] []) world_refused
    = (w', ([], Raised (ValueError "API Error 503: Service Unavailable"), StreamClosed)) /\
    forall m, stream_take loads_known (S m) StreamClosed w'
              = (w', ([], Exhausted, StreamClosed)).
Proof.
  apply (non_success_raises loads_known [] [] world_refused
           {| status_code := 503; text := "Service Unavailable"; iter_lines := [] |}
           [] 2);
    reflexivity.
Defined.

Lemma null_event_aborts_witness :
  exists w',
    stream_take loads_known 3 (StreamCreated [] []) world_null_event
    = (w', ([], Raised TypeError, StreamClosed)).
Proof.
  apply (null_event_aborts loads_known [event "Take one "; "data: [DONE]"]
           [] [] world_null_event EmptyString [] 2);
    reflexivity.
Defined.

(** The handler misses two more ways a line can end the stream: a [delta]
    that is not an object, and bytes that are not UTF-8. *)
Example null_delta_aborts :
  sse_line loads_known ("data: " ++ null_delta_text) = Abort AttributeError.
Proof. vm_compute. reflexivity. Qed.

Example invalid_utf8_aborts :
  sse_line loads_known (String (ascii_of_nat 255) "data: x") = Abort UnicodeDecodeError.
Proof. vm_compute. reflexivity. Qed.

(** What the handler does catch is skipped: text that is not JSON, an object
    without [choices], an empty [choices]. *)
Example handled_lines_skipped :
  sse_line loads_known "data: {not json" = Skip /\
  sse_line (fun _ => Ok (JDict [])) "data: {}" = Skip /\
  sse_line (fun _ => Ok (JDict [("choices", JList [])])) "data: {...}" = Skip /\
  sse_line loads_known ": keep-alive" = Skip.
Proof. vm_compute. repeat split. Qed.

(** Without the [null] event the same lines give the fragments. *)
Example clean_events_stream :
  snd (stream_take loads_known 3 (StreamCreated [] [])
         (script [accepted ["Take one "; "after food."]]))
  = ([JStr "Take one "; JStr "after food."], Exhausted, StreamClosed).
Proof. vm_compute. reflexivity. Qed.

(** ** Chat turns *)

Example turn_completes :
  let r := take_0 (turn "Explain Prescription" "CLEAR") 4 ChatCreated session_0 in
  snd r = (["Take one "; "after food."; GLOBAL_DISCLAIMER], Exhausted, ChatClosed) /\
  memory (fst r) = [HumanMessage question; AIMessage reply] /\
  db (fst r) = [("rx-1", "user", question); ("rx-1", "assistant", reply)].
Proof. vm_compute. repeat split. Qed.

Lemma completed_turn_witness :
  outcome_of (take_0 (turn "Explain Prescription" "CLEAR") 6 ChatCreated session_0)
    <> Suspended /\
  exists chunks image_data,
    ["Take one "; "after food."; GLOBAL_DISCLAIMER] = (chunks ++ [GLOBAL_DISCLAIMER])%list /\
    memory (fst (take_0 (turn "Explain Prescription" "CLEAR") 6 ChatCreated session_0))
    = (memory session_0
       ++ [ HumanMessage (user_query (turn "Explain Prescription" "CLEAR"));
            AIMessage (join chunks ++ GLOBAL_DISCLAIMER) ])%list /\
    ChatClosed = ChatClosed /\
    prepare_0 (image (turn "Explain Prescription" "CLEAR")) = Ok image_data /\
    stream_take loads_known (S (List.length chunks))
      (StreamCreated
         (chat_messages dumps_plain unit (turn "Explain Prescription" "CLEAR")
            (memory session_0) image_data)
         (model_params (turn "Explain Prescription" "CLEAR")))
      (net session_0)
    = (net (fst (take_0 (turn "Explain Prescription" "CLEAR") 6 ChatCreated session_0)),
       (map JStr chunks, Exhausted, StreamClosed)).
Proof.
  destruct (completed_turn loads_known dumps_plain unit prepare_0 store save_0 (Some "rx-1")
              (turn "Explain Prescription" "CLEAR") session_0) as [Hends Hdone].
  split.
  - apply Hends. vm_compute. lia.
  - apply (Hdone 6%nat). vm_compute. reflexivity.
Defined.

Lemma abandoned_turn_witness :
  List.length ["Take one "] = 1%nat /\
  (1%nat = 0%nat ->
   fst (take_0 (turn "Explain Prescription" "CLEAR") 1 ChatCreated session_0) = session_0) /\
  ((0 < 1)%nat ->
   memory (fst (take_0 (turn "Explain Prescription" "CLEAR") 1 ChatCreated session_0))
   = (memory session_0 ++ [HumanMessage question])%list) /\
  (forall m,
      take_0 (turn "Explain Prescription" "CLEAR") (S m)
        (chat_close
           (ChatStreaming (StreamReading [event "after food."; "data: [DONE]"]) "Take one "))
        (fst (take_0 (turn "Explain Prescription" "CLEAR") 1 ChatCreated session_0))
      = (fst (take_0 (turn "Explain Prescription" "CLEAR") 1 ChatCreated session_0),
         ([], Exhausted, ChatClosed))).
Proof.
  apply (abandoned_turn loads_known dumps_plain unit prepare_0 store save_0 (Some "rx-1")
           (turn "Explain Prescription" "CLEAR") 1 session_0).
  vm_compute. reflexivity.
Defined.

(** C9 as it is worded fails: a caller that takes one fragment and leaves
    finds the user's message of that turn in the history. *)
Lemma abandoned_turn_has_user_message :
  let r := take_0 (turn "Explain Prescription" "CLEAR") 1 ChatCreated session_0 in
  snd r = (["Take one "], Suspended,
           ChatStreaming (StreamReading [event "after food."; "data: [DONE]"]) "Take one ") /\
  memory session_0 = [] /\
  memory (fst r) = [HumanMessage question] /\
  memory (fst r) <> memory session_0.
Proof. vm_compute. repeat split. discriminate. Qed.

Lemma unresolvable_injects_directive_witness :
  exists s' r payload sys,
    next_0 (turn "Create Schedule" "UNRESOLVABLE") ChatCreated session_0 = (s', r) /\
    sent (net s') = (sent (net session_0) ++ [payload])%list /\
    system_text payload = Some sys /\
    contains "The current prescription handwriting is UNRESOLVABLE. Do NOT infer or suggest medicine names unless the user explicitly provides them in this chat. Avoid all guesses." sys = true /\
    contains "Do NOT infer or suggest medicine names" sys = true.
Proof.
  apply (proj2 (unresolvable_injects_directive loads_known dumps_plain unit prepare_0 store
                  save_0 (Some "rx-1") (turn "Create Schedule" "UNRESOLVABLE")
                  session_0 eq_refl) session_1 image_url_0);
    reflexivity.
Defined.

Lemma unknown_mode_defaults_witness :
  get_mode_prompt (mode (turn "Summarize" "CLEAR")) = "You are a helpful medical assistant." /\
  exists s' r payload sys,
    next_0 (turn "Summarize" "CLEAR") ChatCreated session_0 = (s', r) /\
    sent (net s') = (sent (net session_0) ++ [payload])%list /\
    system_text payload = Some sys /\
    startswith "You are a helpful medical assistant." sys = true.
Proof.
  apply (unknown_mode_defaults loads_known dumps_plain unit prepare_0 store
           save_0 (Some "rx-1") (turn "Summarize" "CLEAR")
           session_0 session_1 image_url_0);
    try reflexivity; discriminate.
Defined.

(** C6 as it is worded fails: a turn in a mode outside [MODE_PROMPTS] runs to
    its end without raising, on the default instruction. *)
Lemma unknown_mode_completes :
  let r := take_0 (turn "Summarize" "CLEAR") 4 ChatCreated session_0 in
  lookup "Summarize" MODE_PROMPTS = None /\
  snd r = (["Take one "; "after food."; GLOBAL_DISCLAIMER], Exhausted, ChatClosed) /\
  option_map (startswith "You are a helpful medical assistant.")
    (match sent (net (fst r)) with
     | [payload] => system_text payload
     | _ => None
     end) = Some true.
Proof. vm_compute. repeat split. Qed.


(** ** The cleaning of an answer *)

Lemma clean_without_fence_witness :
  clean_json_response "  [1, 2] " = strip "  [1, 2] ".
Proof. apply (clean_without_fence "  [1, 2] "). vm_compute. reflexivity. Defined.

Lemma clean_unwraps_fence_witness :
  clean_json_response fenced_answer = nl ++ "{}" ++ nl.
Proof.
  apply (clean_unwraps_fence fenced_answer (nl ++ "{}" ++ nl)); vm_compute; reflexivity.
Defined.

(** ** The schedule request *)

Lemma final_schedule_contained_witness :
  sent (fst schedule_run)
  = (sent (script [accepted ["I cannot tell."]])
     ++ [stage_payload (get_step_prompt "schedule_final")
           (schedule_query dumps_plain (JDict bare_extraction)) None])%list /\
  snd schedule_run = Ok (JDict [("schedule", JList [])]).
Proof.
  destruct (final_schedule_contained loads_known dumps_plain (JDict bare_extraction)
              (script [accepted ["I cannot tell."]]) (fst schedule_run) (snd schedule_run)
              ltac:(vm_compute; reflexivity)) as (Hsent & _ & Hfallback).
  split; [exact Hsent|].
  apply (Hfallback "I cannot tell." JSONDecodeError); vm_compute; reflexivity.
Defined.

(** ** The client *)

Lemma stream_yields_no_empty_item_witness :
  Forall (fun c => truthy c = true /\ c <> JStr EmptyString)
    [JStr "Take one "; JStr "after food."].
Proof.
  apply (stream_yields_no_empty_item loads_known 3 (StreamCreated [] []) world_reply
           (fst stream_run) [JStr "Take one "; JStr "after food."] Exhausted StreamClosed).
  vm_compute. reflexivity.
Defined.

Lemma nothing_read_after_done_witness :
  drain_lines loads_known ([event "Take one "] ++ "data: [DONE]" :: [event "after food."])
    EmptyString
  = drain_lines loads_known ([event "Take one "] ++ "data: [DONE]" :: []) EmptyString /\
  seen (stream_take loads_known 3
          (StreamReading ([event "Take one "] ++ "data: [DONE]" :: [event "after food."]))
          (script []))
  = seen (stream_take loads_known 3
            (StreamReading ([event "Take one "] ++ "data: [DONE]" :: [])) (script [])).
Proof.
  apply (nothing_read_after_done loads_known [event "Take one "] [event "after food."] []
           "data: [DONE]" EmptyString 3 (script [])).
  reflexivity.
Defined.

Lemma stream_posts_once_witness :
  sent (fst stream_run) = (sent world_reply ++ [make_payload [] []])%list /\
  pending (fst stream_run) = tl (pending world_reply).
Proof.
  apply (stream_posts_once loads_known [] [] 2 world_reply (fst stream_run) (snd stream_run)).
  vm_compute. reflexivity.
Defined.

(** ** Chat turns, continued *)

Lemma chat_yields_no_empty_fragment_witness :
  Forall (fun f => f <> EmptyString) ["Take one "; "after food."; GLOBAL_DISCLAIMER].
Proof.
  apply (chat_yields_no_empty_fragment loads_known dumps_plain unit prepare_0 store save_0
           (Some "rx-1") explain 4 ChatCreated session_0 session_2
           ["Take one "; "after food."; GLOBAL_DISCLAIMER] Exhausted ChatClosed).
  vm_compute. reflexivity.
Defined.

Lemma only_three_params_count_witness :
  take_0 (with_params explain [ ("top_k", JInt 40);
                                ("chat_mode", JStr "Explain Prescription") ])
    4 ChatCreated session_0
  = take_0 explain 4 ChatCreated session_0.
Proof.
  apply (only_three_params_count loads_known dumps_plain unit prepare_0 store save_0
           (Some "rx-1") explain
           [("top_k", JInt 40); ("chat_mode", JStr "Explain Prescription")] 4 session_0);
    reflexivity.
Defined.

Lemma turn_posts_once_witness :
  sent (net session_2)
  = (sent (net session_0)
     ++ [make_payload (chat_messages dumps_plain unit explain (memory session_0) image_url_0)
           (model_params explain)])%list.
Proof.
  exact (turn_posts_once loads_known dumps_plain unit prepare_0 store save_0 (Some "rx-1")
           explain 3 session_0 session_2 (snd (take_0 explain 4 ChatCreated session_0))
           eq_refl ltac:(vm_compute; reflexivity)).
Defined.

Lemma failed_request_keeps_question_witness :
  exists s',
    take_0 explain 3 ChatCreated session_refused = (s', ([], Raised refusal, ChatClosed)) /\
    memory s' = (memory session_refused ++ [HumanMessage question])%list.
Proof.
  apply (failed_request_keeps_question loads_known dumps_plain unit prepare_0 store save_0
           (Some "rx-1") explain 2 session_refused session_refused_1 image_url_0
           (fst (stream_open
                   (chat_messages dumps_plain unit explain (memory session_refused)
                      image_url_0)
                   (model_params explain) (net session_refused))));
    vm_compute; reflexivity.
Defined.

Lemma turn_stores_what_it_remembers_witness :
  exists reply',
    memory session_2
    = (memory session_0 ++ [HumanMessage question; AIMessage reply'])%list /\
    exists d1,
      save_0 "rx-1" "user" question (db session_0) = Ok d1 /\
      save_0 "rx-1" "assistant" reply' d1 = Ok (db session_2).
Proof.
  exact (turn_stores_what_it_remembers loads_known dumps_plain unit prepare_0 store save_0
           (Some "rx-1") explain 4 session_0 session_2
           ["Take one "; "after food."; GLOBAL_DISCLAIMER] ChatClosed
           eq_refl ltac:(vm_compute; reflexivity)).
Defined.

Lemma next_turn_replays_previous_witness :
  exists chunks s2 r,
    ["Take one "; "after food."; GLOBAL_DISCLAIMER] = (chunks ++ [GLOBAL_DISCLAIMER])%list /\
    next_0 explain ChatCreated session_2 = (s2, r) /\
    sent (net s2)
    = (sent (net session_2)
       ++ [make_payload
             ([message "system" (JList [text_part (combined_system dumps_plain unit explain)])]
              ++ map format_message_for_api (memory session_0)
              ++ [ message "user" (JList [text_part question]);
                   message "assistant"
                     (JList [text_part (join chunks ++ GLOBAL_DISCLAIMER)]) ]
              ++ [message "user" (JList [image_part image_url_0; text_part question])])
             (model_params explain)])%list.
Proof.
  apply (next_turn_replays_previous loads_known dumps_plain unit prepare_0 store save_0
           (Some "rx-1") explain explain 4 session_0 session_2 session_3
           ["Take one "; "after food."; GLOBAL_DISCLAIMER] ChatClosed image_url_0);
    vm_compute; reflexivity.
Defined.

(** ** The classification and the pipeline, continued *)

Lemma classify_touches_only_flags_witness :
  exists d d',
    JDict audit_without_ambiguity = JDict d /\ JDict audit_marked = JDict d' /\
    ("UNRESOLVABLE" = "CLEAR" \/ "UNRESOLVABLE" = "CLARIFIABLE"
     \/ "UNRESOLVABLE" = "UNRESOLVABLE") /\
    ("UNRESOLVABLE" <> "UNRESOLVABLE" -> d' = d) /\
    (forall k, k <> "safety_flags" -> dict_get k d' = dict_get k d) /\
    (forall flags, flags_of d = JList flags ->
       exists added, flags_of d' = JList (flags ++ added)).
Proof.
  apply (classify_touches_only_flags (JDict half_confident) (JDict audit_without_ambiguity)
           (JDict audit_marked) "UNRESOLVABLE").
  vm_compute. reflexivity.
Defined.

Lemma analyze_posts_in_stage_order_witness :
  exists posted k,
    sent world_good_4 = (sent world_good ++ posted)%list /\
    (k <= 4)%nat /\
    map system_text posted = firstn k stage_prompts /\
    (forall res,
       snd (analyze_prescription loads_known dumps_plain unit prepare_0 tt world_good)
       = Ok res ->
       (k = 1%nat /\ getitem_str res "ambiguity_state" = Raise KeyError) \/
       (k = 4%nat /\ exists st, getitem_str res "ambiguity_state" = Ok (JStr st))).
Proof.
  apply (analyze_posts_in_stage_order loads_known dumps_plain unit prepare_0 tt world_good
           world_good_4
           (snd (analyze_prescription loads_known dumps_plain unit prepare_0 tt world_good))).
  vm_compute. reflexivity.
Defined.

Lemma undecodable_validation_is_rejected_witness :
  analyze_prescription loads_known dumps_plain unit prepare_0 tt world_vague
  = (world_vague_1,
     Ok (rejection (JDict [ ("is_prescription", JBool false); ("confidence", JInt 0);
                            ("reason", JStr "Classification failed") ]))).
Proof.
  apply (undecodable_validation_is_rejected loads_known dumps_plain unit prepare_0 tt
           image_url_0 world_vague world_vague_1 "I cannot tell." JSONDecodeError);
    vm_compute; reflexivity.
Defined.

Lemma missing_verdict_is_rejected_witness :
  analyze_prescription loads_known dumps_plain unit prepare_0 tt world_bare
  = (world_bare_1, Ok (rejection (JDict bare_extraction))).
Proof.
  apply (missing_verdict_is_rejected loads_known dumps_plain unit prepare_0 tt
           image_url_0 world_bare world_bare_1 bare_extraction_text bare_extraction);
    try (vm_compute; reflexivity).
  left. reflexivity.
Defined.

Lemma undecodable_stages_are_unresolvable_witness :
  analyze_prescription loads_known dumps_plain unit prepare_0 tt world_mute
  = (world_mute_4, Ok result_mute).
Proof.
  exact (undecodable_stages_are_unresolvable loads_known dumps_plain unit prepare_0 tt
           image_url_0 world_mute world_mute_1 good_validation_text world_mute_2 ocr_text
           world_mute_3 "I cannot tell." world_mute_4 "I cannot tell."
           JSONDecodeError JSONDecodeError
           eq_refl ltac:(vm_compute; reflexivity) ltac:(vm_compute; reflexivity)
           ltac:(vm_compute; reflexivity) ltac:(vm_compute; reflexivity)
           ltac:(vm_compute; reflexivity) ltac:(vm_compute; reflexivity)
           ltac:(vm_compute; reflexivity)).
Defined.

Lemma non_numeric_confidence_crashes_witness :
  analyze_prescription loads_more dumps_plain unit prepare_0 tt world_null
  = (world_null_4, Raise TypeError).
Proof.
  apply (non_numeric_confidence_crashes loads_more dumps_plain unit prepare_0 tt
           image_url_0 world_null world_null_1 good_validation_text world_null_2 ocr_text
           world_null_3 null_confidence_text null_confidence JNull
           world_null_4 one_ambiguity_text one_ambiguity);
    vm_compute; reflexivity.
Defined.

(** The run that ends UNRESOLVABLE: the page reads CLEAR off its audit
    record. *)
Lemma page_lookup_misses_the_state_witness :
  getitem_str result_mute "ambiguity_state" = Ok (JStr "UNRESOLVABLE") /\
  exists audit_rec,
    getitem_str result_mute "audit" = Ok audit_rec /\
    (page_ambiguity_state audit_rec = Ok (JStr "CLEAR") \/
     exists w3 q t4 ad x,
       call_non_streaming loads_known (get_step_prompt "audit") q None w3
       = (world_mute_4, Ok t4) /\
       decode_or loads_known audit_fallback t4 = JDict ad /\
       dict_get "ambiguity_state" ad = Some x /\
       page_ambiguity_state audit_rec = Ok x).
Proof.
  split; [reflexivity|].
  apply (page_lookup_misses_the_state loads_known dumps_plain unit prepare_0 tt
           world_mute world_mute_4 result_mute).
  vm_compute. reflexivity.
Defined.

Lemma stage_error_propagates_witness :
  analyze_prescription loads_known dumps_plain unit prepare_0 tt world_refused
  = (world_refused_1, Raise refusal).
Proof.
  apply (proj1 (proj2 (stage_error_propagates loads_known dumps_plain unit prepare_0 tt
                         world_refused) image_url_0 eq_refl)).
  vm_compute. reflexivity.
Defined.

(** ** The sidebar, the card and the page *)

Lemma mode_selector_drops_first_word_witness :
  render_chat_mode_selector ("🩺" ++ " " ++ "Explain Prescription") = "Explain Prescription" /\
  render_chat_mode_selector "🩺" = EmptyString.
Proof. apply (mode_selector_drops_first_word "🩺" "Explain Prescription"). reflexivity. Defined.

Lemma offered_modes_have_prompts_witness :
  exists prompt,
    lookup (render_chat_mode_selector "⏰ Create Schedule") MODE_PROMPTS = Some prompt /\
    get_mode_prompt (render_chat_mode_selector "⏰ Create Schedule") = prompt /\
    prompt <> DEFAULT_MODE_PROMPT.
Proof. apply (offered_modes_have_prompts "⏰ Create Schedule"). simpl. auto. Defined.

Lemma confirmed_medicine_clears_state_witness :
  exists ed' ad',
    confirm_medicine records update_0 "Amoxicillin" "Tablet" (Some (Some "rx-1"))
      extraction_fallback (JDict audit_marked) []
    = ((JDict ed', JDict ad',
        [(Some "rx-1",
          JDict (dict_set "overall_confidence" (JFloat boosted_confidence)
                   (dict_set "medicines" (JList ([] ++ [new_med "Amoxicillin" "Tablet"]))
                      [("medicines", JList []); ("overall_confidence", JInt 0)])),
          JDict (dict_set "ambiguity_state" (JStr "CLEAR") audit_marked))]),
       Ok true) /\
    dict_get "medicines" ed' = Some (JList ([] ++ [new_med "Amoxicillin" "Tablet"])) /\
    dict_get "overall_confidence" ed' = Some (JFloat boosted_confidence) /\
    (forall k, k <> "medicines" -> k <> "overall_confidence" ->
               dict_get k ed'
               = dict_get k [("medicines", JList []); ("overall_confidence", JInt 0)]) /\
    dict_get "ambiguity_state" ad' = Some (JStr "CLEAR") /\
    (forall k, k <> "ambiguity_state" -> dict_get k ad' = dict_get k audit_marked) /\
    page_ambiguity_state (JDict ad') = Ok (JStr "CLEAR") /\
    classify (JDict ed') (JDict ad') = Ok ("CLEAR", JDict ad').
Proof.
  apply (confirmed_medicine_clears_state records update_0 "Amoxicillin" "Tablet"
           (Some (Some "rx-1")) [("medicines", JList []); ("overall_confidence", JInt 0)]
           audit_marked [] []).
  - discriminate.
  - reflexivity.
  - reflexivity.
Defined.

Lemma load_rebuilds_memory_witness :
  exists chain',
    vision_chain (load_into_session unit store (Some "rx-1") "3f2a" tt result_mute
                    earlier_talk state_0)
    = Some chain' /\
    chain_prescription_id chain' = Some "rx-1" /\
    memory (conversation chain') = earlier_talk /\
    db (conversation chain') = db session_0 /\
    net (conversation chain') = net session_0 /\
    (forallb (fun msg => negb (String.eqb (message_type msg) "system")) earlier_talk = true ->
     memory (conversation chain')
     = chat_history (load_into_session unit store (Some "rx-1") "3f2a" tt result_mute
                       earlier_talk state_0)).
Proof.
  apply (load_rebuilds_memory unit store (Some "rx-1") "3f2a" tt result_mute earlier_talk
           state_0
           {| chain_prescription_id := None;
              conversation := with_memory store session_0 [HumanMessage "Hello"] |}).
  reflexivity.
Defined.

Lemma page_chat_keeps_history_in_step_witness :
  exists r,
    chat_0 explain 6 [] chain_0 = Some r /\
    forall history' chain' text,
      r = (history', chain', Ok text) ->
      history' = ([] ++ [HumanMessage question; AIMessage text])%list /\
      memory (conversation chain')
      = (memory session_0 ++ [HumanMessage question; AIMessage text])%list /\
      chain_prescription_id chain' = Some "rx-1" /\
      ([] = memory session_0 -> history' = memory (conversation chain')).
Proof.
  apply (page_chat_keeps_history_in_step loads_known dumps_plain unit prepare_0 store save_0
           explain 6 [] chain_0).
  - reflexivity.
  - vm_compute. lia.
Defined.

Lemma failed_chat_leaves_history_behind_witness :
  earlier_talk = earlier_talk /\
  (memory session_refused_1 = memory session_refused \/
   memory session_refused_1 = (memory session_refused ++ [HumanMessage question])%list \/
   exists reply',
     memory session_refused_1
     = (memory session_refused ++ [HumanMessage question; AIMessage reply'])%list).
Proof.
  apply (failed_chat_leaves_history_behind loads_known dumps_plain unit prepare_0 store
           save_0 explain 3 earlier_talk earlier_talk chain_refused
           {| chain_prescription_id := Some "rx-1";
              conversation := fst (take_0 explain 3 ChatCreated session_refused) |}
           refusal).
  vm_compute. reflexivity.
Defined.

(** The page's lookup on the run that ends UNRESOLVABLE. *)
Example unresolvable_run_reads_clear :
  snd (analyze_prescription loads_known dumps_plain unit prepare_0 tt world_mute)
  = Ok result_mute /\
  getitem_str result_mute "ambiguity_state" = Ok (JStr "UNRESOLVABLE") /\
  (audit_data <- getitem_str result_mute "audit" ;; page_ambiguity_state audit_data)%result
  = Ok (JStr "CLEAR").
Proof. vm_compute. repeat split. Qed.

Lemma rule_only_when_unresolvable_witness :
  exists s' r payload,
    next_0 (turn "Explain Prescription" "unresolvable") ChatCreated session_0 = (s', r) /\
    sent (net s') = (sent (net session_0) ++ [payload])%list /\
    system_text payload
    = Some (get_mode_prompt "Explain Prescription" ++ nl ++ nl
            ++ context_msg dumps_plain (JDict bare_extraction)).
Proof.
  apply (rule_only_when_unresolvable loads_known dumps_plain unit prepare_0 store save_0
           (Some "rx-1") (turn "Explain Prescription" "unresolvable")
           session_0 session_1 image_url_0);
    try reflexivity.
  discriminate.
Defined.

Lemma non_object_answers_crash_witness :
  analyze_prescription loads_more dumps_plain unit prepare_0 tt world_nullish
  = (world_nullish_1, Raise AttributeError).
Proof.
  apply (proj1 (non_object_answers_crash loads_more dumps_plain unit prepare_0 tt
                  image_url_0 world_nullish world_nullish_1 "null"
                  eq_refl ltac:(vm_compute; reflexivity))).
  vm_compute. reflexivity.
Defined.

Lemma refused_parameters_raise_witness :
  take_0 explain_twice 3 ChatCreated session_0
  = (session_1, ([], Raised TypeError, ChatClosed)) /\
  memory session_1 = (memory session_0 ++ [HumanMessage question])%list /\
  net session_1 = net session_0.
Proof.
  apply (refused_parameters_raise loads_known dumps_plain unit prepare_0 store save_0
           (Some "rx-1") explain_twice 2 session_0 session_1 image_url_0);
    reflexivity.
Defined.
